(** * Statement policy, query execution and tool handlers of the MariaDB MCP server

    A shallow embedding of
    - the statement policy: [isAlloowedQuery] of [v2/src/validators.ts],
      [isAllowedQuery] of [src/validators.ts] and of [v1/test-server.mjs];
    - the query executors: [executeQuery] of [src/connection.ts], of the
      connection module kept in [src/index.ts] (lines 536 to 693) and of
      [v1/db.js], with the pool registry of the latter two;
    - the tool handlers of [src/index.ts] (lines 131 to 238 and 390 to 506),
    followed by the properties established about them.

    JavaScript strings are modelled by [string]; a character is read as a
    code unit.  The character classes below are those of ECMAScript on the
    code units U+0000 to U+007F, plus U+00A0 for white space; upper-casing
    is the one of ECMAScript on U+0000 to U+007F.  Every concrete query used
    in this file is made of such code units only. *)

From Stdlib Require Import Ascii String Bool List Arith Lia.
From stdpp Require Import base strings gmap.

(** ** String primitives of the JavaScript runtime *)

Module JsString.

(** [\s] of regular expressions, which is also what [trim] removes. *)
Definition is_space (c : ascii) : bool :=
  match nat_of_ascii c with
  | 9 | 10 | 11 | 12 | 13 | 32 | 160 => true
  | _ => false
  end.

(** Line terminators: what [.] does not match and where [$] matches
    under the [m] flag. *)
Definition is_line_terminator (c : ascii) : bool :=
  match nat_of_ascii c with
  | 10 | 13 => true
  | _ => false
  end.

(** [\w] of regular expressions. *)
Definition is_word_char (c : ascii) : bool :=
  let n := nat_of_ascii c in
  ((48 <=? n) && (n <=? 57)) || ((65 <=? n) && (n <=? 90))
  || (n =? 95) || ((97 <=? n) && (n <=? 122)).

Definition upper_char (c : ascii) : ascii :=
  let n := nat_of_ascii c in
  if (97 <=? n) && (n <=? 122) then ascii_of_nat (n - 32) else c.

(** [s.toUpperCase()] *)
Fixpoint toUpperCase (s : string) : string :=
  match s with
  | EmptyString => EmptyString
  | String c r => String (upper_char c) (toUpperCase r)
  end.

(** [s.startsWith(p)] *)
Fixpoint startsWith (p s : string) : bool :=
  match p, s with
  | EmptyString, _ => true
  | String a p', String b s' => Ascii.eqb a b && startsWith p' s'
  | String _ _, EmptyString => false
  end.

(** [s.includes(c)] for a one-character needle. *)
Fixpoint includes (c : ascii) (s : string) : bool :=
  match s with
  | EmptyString => false
  | String a r => Ascii.eqb a c || includes c r
  end.

(** [s.endsWith(c)] for a one-character needle. *)
Fixpoint endsWith (c : ascii) (s : string) : bool :=
  match s with
  | EmptyString => false
  | String a EmptyString => Ascii.eqb a c
  | String _ r => endsWith c r
  end.

Fixpoint trimStart (s : string) : string :=
  match s with
  | EmptyString => EmptyString
  | String c r => if is_space c then trimStart r else s
  end.

Fixpoint trimEnd (s : string) : string :=
  match s with
  | EmptyString => EmptyString
  | String c r =>
      match trimEnd r with
      | EmptyString => if is_space c then EmptyString else String c EmptyString
      | r' => String c r'
      end
  end.

(** [s.trim()] *)
Definition trim (s : string) : string := trimEnd (trimStart s).

(** [s.replace(/--.*$/gm, "")]: from each [--] up to, and not including,
    the next line terminator.  [in_comment] holds while the scan is inside
    such a match. *)
Fixpoint strip_line_comments (in_comment : bool) (s : string) : string :=
  match s with
  | EmptyString => EmptyString
  | String c r =>
      if in_comment then
        if is_line_terminator c then String c (strip_line_comments false r)
        else strip_line_comments true r
      else
        match c, r with
        | "-"%char, String "-"%char r' => strip_line_comments true r'
        | _, _ => String c (strip_line_comments false r)
        end
  end.

(** Whether [*/] occurs in [s]. *)
Fixpoint has_block_end (s : string) : bool :=
  match s with
  | EmptyString => false
  | String c r =>
      match c, r with
      | "*"%char, String "/"%char _ => true
      | _, _ => has_block_end r
      end
  end.

(** [s.replace(/\/\*[\s\S]*?\*\//g, "")]: from each [/*] through the first
    [*/] after it; an opening with no closing after it is no match, and
    then no later opening has one either.  [in_block] holds while the scan
    is inside a match. *)
Fixpoint strip_block_comments (in_block : bool) (s : string) : string :=
  match s with
  | EmptyString => EmptyString
  | String c r =>
      if in_block then
        match c, r with
        | "*"%char, String "/"%char r' => strip_block_comments false r'
        | _, _ => strip_block_comments true r
        end
      else
        match c, r with
        | "/"%char, String "*"%char r' =>
            if has_block_end r' then strip_block_comments true r'
            else s
        | _, _ => String c (strip_block_comments false r)
        end
  end.

(** [s.replace(/\s+/g, " ")]: every maximal run of white space becomes one
    space.  [in_run] holds after a white-space character. *)
Fixpoint collapse_spaces (in_run : bool) (s : string) : string :=
  match s with
  | EmptyString => EmptyString
  | String c r =>
      if is_space c then
        if in_run then collapse_spaces true r
        else String " "%char (collapse_spaces true r)
      else String c (collapse_spaces false r)
  end.

(** [new RegExp(`(^|\\s)${cmd}(\\s|$)`).test(s)] for a [cmd] of letters:
    [cmd] occurs in [s], preceded by the start of [s] or a white-space
    character and followed by a white-space character or the end of [s].
    [at_left] tells whether the current position is at the start or just
    after a white-space character. *)
Definition followed_by_space_or_end (p s : string) : bool :=
  match substring (String.length p) 1 s with
  | EmptyString => true
  | String c _ => is_space c
  end.

Fixpoint test_delimited (cmd : string) (at_left : bool) (s : string) : bool :=
  (at_left && startsWith cmd s && followed_by_space_or_end cmd s)
  || match s with
     | EmptyString => false
     | String c r => test_delimited cmd (is_space c) r
     end.

End JsString.

(** The chain of [replace], [trim] and [toUpperCase] by which every
    validator computes [normalizedQuery]. *)
Definition normalize (query : string) : string :=
  JsString.toUpperCase
    (JsString.trim
       (JsString.collapse_spaces false
          (JsString.strip_block_comments false
             (JsString.strip_line_comments false query)))).

(** ** Errors and results of calls that can throw *)

Inductive ErrorCode := InvalidParams | MethodNotFound.

(** The errors the code throws or receives: [new Error(message)],
    [new McpError(code, message)], and the [TypeError] of the runtime. *)
Inductive js_error :=
| Error (message : string)
| McpError (code : ErrorCode) (message : string)
| TypeError (message : string).

Inductive outcome (A : Type) : Type :=
| Returned (a : A)
| Thrown (error : js_error).
Arguments Returned {A} a.
Arguments Thrown {A} error.

(** [process.env]: the variables that are set, with their values. *)
Abbreviation environment := (gmap string string).

(** [process.env.NAME === "true"] *)
Definition env_is_true (env : environment) (name : string) : bool :=
  bool_decide (env !! name = Some "true").

(** ** [v2/src/validators.ts] *)

Module ValidatorsV2.
Import JsString.

Definition ALLOWED_COMMANDS : list string :=
  ["SELECT"; "SHOW"; "DESCRIBE"; "DESC"; "EXPLAIN"; "INSERT"; "UPDATE";
   "DELETE"].

Definition DISALLOWED_COMMANDS : list string :=
  ["DROP"; "CREATE"; "ALTER"; "TRUNCATE"; "RENAME"; "REPLACE"; "GRANT";
   "REVOKE"; "LOCK"; "UNLOCK"; "CALL"; "EXEC"; "EXECUTE"; "SET"; "START";
   "BEGIN"; "COMMIT"; "ROLLBACK"].

(** The callback given to [DISALLOWED_COMMANDS.some]. *)
Definition disallowed_in (ALLOW_INSERT ALLOW_UPDATE ALLOW_DELETE : bool)
    (normalizedQuery cmd : string) : bool :=
  if String.eqb cmd "INSERT" && negb ALLOW_INSERT then false
  else if String.eqb cmd "UPDATE" && negb ALLOW_UPDATE then false
  else if String.eqb cmd "DELETE" && negb ALLOW_DELETE then false
  else test_delimited cmd true normalizedQuery.

Definition isAlloowedQuery (env : environment) (query : string) : bool :=
  let normalizedQuery := normalize query in
  let ALLOW_INSERT := env_is_true env "MARIADB_ALLOW_INSERT" in
  let ALLOW_UPDATE := env_is_true env "MARIADB_ALLOW_UPDATE" in
  let ALLOW_DELETE := env_is_true env "MARIADB_ALLOW_DELETE" in
  let startsWithAllowed :=
    existsb
      (fun cmd =>
         startsWith (cmd +:+ " ") normalizedQuery
         || String.eqb normalizedQuery cmd)
      ALLOWED_COMMANDS in
  let startsWithAllowedNoSpace :=
    startsWith "INSERT" normalizedQuery && negb ALLOW_INSERT in
  let containsDisallowed :=
    existsb
      (disallowed_in ALLOW_INSERT ALLOW_UPDATE ALLOW_DELETE normalizedQuery)
      DISALLOWED_COMMANDS in
  let hasMultipleStatements :=
    includes ";" normalizedQuery && negb (endsWith ";" normalizedQuery) in
  startsWithAllowed && negb containsDisallowed && negb hasMultipleStatements.

Definition validateQuery (env : environment) (query : string) : outcome unit :=
  if String.eqb query "" then Thrown (Error "Query must be a non-empty string")
  else if negb (isAlloowedQuery env query) then
    Thrown
      (Error
         "Query contains disallowed commands or is not permitted by current configuration")
  else Returned tt.

End ValidatorsV2.

(** ** [src/validators.ts] *)

Module Validators.
Import JsString.

Definition ALLOWED_COMMANDS : list string :=
  ["SELECT"; "SHOW"; "DESCRIBE"; "DESC"; "EXPLAIN"; "INSERT"; "UPDATE";
   "DELETE"; "SET"; "TRUNCATE"].

Definition DISALLOWED_COMMANDS : list string :=
  ["DROP"; "CREATE"; "ALTER"; "RENAME"; "REPLACE"; "GRANT"; "REVOKE";
   "LOCK"; "UNLOCK"; "CALL"; "EXEC"; "EXECUTE"; "START"; "BEGIN"; "COMMIT";
   "ROLLBACK"].

(** The function computes [hasMultipleStatements] and then returns
    [true]. *)
Definition isAllowedQuery (env : environment) (query : string) : bool :=
  let normalizedQuery := normalize query in
  let ALLOW_INSERT := env_is_true env "MARIADB_ALLOW_INSERT" in
  let ALLOW_UPDATE := env_is_true env "MARIADB_ALLOW_UPDATE" in
  let ALLOW_DELETE := env_is_true env "MARIADB_ALLOW_DELETE" in
  let hasMultipleStatements :=
    includes ";" normalizedQuery && negb (endsWith ";" normalizedQuery) in
  true.

Definition validateQuery (env : environment) (query : string) : outcome unit :=
  if String.eqb query "" then Thrown (Error "Query must be a non-empty string")
  else if negb (isAllowedQuery env query) then
    Thrown
      (Error
         "Query contains disallowed commands or is not permitted by current configuration")
  else Returned tt.

End Validators.


(** ** Occurrences of a word in a text

    The two readings of "the text contains the verb as a word": delimited
    by white space, as the regular expression of the validators tests it,
    and delimited by word boundaries ([\b]). *)

Module Occurrence.
Import JsString.

Fixpoint last_char (s : string) : option ascii :=
  match s with
  | EmptyString => None
  | String c EmptyString => Some c
  | String _ r => last_char r
  end.

Definition first_char (s : string) : option ascii :=
  match s with
  | EmptyString => None
  | String c _ => Some c
  end.

(** The neighbour [o] of an occurrence is absent (the occurrence touches
    an end of the text) or satisfies [P]. *)
Definition boundary (P : ascii → bool) (o : option ascii) : Prop :=
  match o with
  | None => True
  | Some c => P c = true
  end.

Definition occurs (P : ascii → bool) (w s : string) : Prop :=
  ∃ pre post,
    s = pre +:+ w +:+ post
    ∧ boundary P (last_char pre) ∧ boundary P (first_char post).

Definition whitespace_delimited : string → string → Prop :=
  occurs is_space.

Definition whole_word : string → string → Prop :=
  occurs (λ c, negb (is_word_char c)).

End Occurrence.

(** ** JavaScript values and the database driver *)

#[local] Set Warnings "-register-all".

Inductive js_value :=
| JsUndefined
| JsBool (b : bool)
| JsNumber (n : Z)
| JsString (s : string)
| JsArray (items : list js_value)
| JsObject (props : list (string * js_value)).

(** An object literal, as the map from its property names to their values. *)
Abbreviation js_object := (gmap string js_value).

(** [Array.isArray(v)] *)
Definition isArray (v : js_value) : bool :=
  match v with
  | JsArray _ => true
  | _ => false
  end.

Module Driver.

Definition connection := nat.

(** How the pool and its connections answer.  Every promise of the driver
    settles: [getConnection] resolves with a connection or rejects, and
    [query sql] rejects or gives the answer of the server to [sql]: the
    rows (an array for a result set, the object of an acknowledgement
    otherwise) and the metadata of the columns.  A caller that sets
    [metaAsArray], and every caller of [mysql2], receives the two as an
    array of two elements, which it destructures into [rows] and [fields];
    a caller of the MariaDB connector that does not set [metaAsArray]
    receives the rows alone.  [outlasts_timeout sql] tells that the promise
    of [connection.query(sql, ...)] is still pending when the timer of
    [DEFAULT_TIMEOUT] milliseconds fires. *)
Record pool := {
  getConnection : outcome connection;
  query : string → outcome (js_value * js_value);
  outlasts_timeout : string → bool;
}.

(** The calls made on the driver, in order.  A [query] call without values
    is recorded with the empty list. *)
Inductive event :=
| Acquired (c : connection)
| Queried (c : connection) (sql : string) (values : list js_value)
| Released (c : connection).

(** The number of [release] calls on [c] in a trace. *)
Definition is_release (c : connection) (e : event) : bool :=
  match e with
  | Released c' => Nat.eqb c c'
  | _ => false
  end.

Definition releases (c : connection) (trace : list event) : nat :=
  length (List.filter (is_release c) trace).

End Driver.

(** ** Effects of the executors

    An executor runs against the trace of driver calls made so far and its
    local variable [connection]; a step returns a value or throws. *)

Module Exec.
Import Driver.

Record exec_state := {
  connection_var : option connection;
  trace : list event;
}.

Definition exec (A : Type) : Type := exec_state → exec_state * outcome A.

Global Instance exec_ret : MRet exec := λ A a s, (s, Returned a).

Global Instance exec_bind : MBind exec := λ A B f m s,
  match m s with
  | (s', Returned a) => f a s'
  | (s', Thrown e) => (s', Thrown e)
  end.

Definition throw {A} (e : js_error) : exec A := λ s, (s, Thrown e).

Definition record (e : event) : exec unit := λ s,
  ({| connection_var := connection_var s; trace := trace s ++ [e] |},
   Returned tt).

Definition settle {A} (r : outcome A) : exec A := λ s, (s, r).

Definition get_connection_var : exec (option connection) := λ s,
  (s, Returned (connection_var s)).

Definition set_connection_var (c : connection) : exec unit := λ s,
  ({| connection_var := Some c; trace := trace s |}, Returned tt).

(** [try { body } catch (error) { handler } finally { finalizer }]: the
    handler runs when the body throws, the finalizer runs in every case,
    and what the finalizer throws replaces the completion so far. *)
Definition try_catch_finally {A} (body : exec A)
    (handler : js_error → exec A) (finalizer : exec unit) : exec A := λ s,
  let '(s1, r1) := body s in
  let '(s2, r2) :=
    match r1 with
    | Returned a => (s1, Returned a)
    | Thrown e => handler e s1
    end in
  let '(s3, r3) := finalizer s2 in
  match r3 with
  | Returned _ => (s3, r2)
  | Thrown e => (s3, Thrown e)
  end.

(** [await pool.getConnection()] *)
Definition pool_getConnection (p : pool) : exec connection :=
  c ← settle (getConnection p); record (Acquired c);; mret c.

(** [await connection.query(sql, values)] *)
Definition connection_query (p : pool) (c : connection) (sql : string)
    (values : list js_value) : exec (js_value * js_value) :=
  record (Queried c sql values);; settle (query p sql).

(** [await Promise.race([connection.query(sql, values), timer])], the
    timer rejecting with [new Error("Query timeout")]. *)
Definition connection_query_race (p : pool) (c : connection) (sql : string)
    (values : list js_value) : exec (js_value * js_value) :=
  record (Queried c sql values);;
  if outlasts_timeout p sql then throw (Error "Query timeout")
  else settle (query p sql).

(** [connection.release()] *)
Definition connection_release (c : connection) : exec unit :=
  record (Released c).

(** [if (connection) { connection.release(); }] *)
Definition release_if_connected : exec unit :=
  connection ← get_connection_var;
  match connection with
  | Some c => connection_release c
  | None => mret tt
  end.

(** A string used as a condition: a missing or empty one is falsy. *)
Definition truthy (s : option string) : option string :=
  match s with
  | Some EmptyString => None
  | _ => s
  end.

End Exec.

(** ** [src/connection.ts] *)

Module Connection.
Import Driver Exec.

Definition DEFAULT_TIMEOUT : Z := 10000.
Definition DEFAULT_ROW_LIMIT : nat := 1000.

(** [Array.isArray(rows) && rows.length > DEFAULT_ROW_LIMIT
     ? rows.slice(0, DEFAULT_ROW_LIMIT) : rows] *)
Definition limitedRows (rows : js_value) : js_value :=
  match rows with
  | JsArray items =>
      if DEFAULT_ROW_LIMIT <? length items
      then JsArray (take DEFAULT_ROW_LIMIT items)
      else rows
  | _ => rows
  end.

(** The value of [await connection.query(sql, params)] in this file, which
    does not set [metaAsArray]: the rows alone, with the metadata as a
    property of the array. *)
Definition resolved (answer : js_value * js_value) : js_value := answer.1.

(** The element of rank [n] that the iteration of a string gives. *)
Definition char_at (n : nat) (s : string) : js_value :=
  match String.get n s with
  | Some c => JsString (String c EmptyString)
  | None => JsUndefined
  end.

(** [const [rows, fields] = value]: the first two elements of a value that
    can be iterated, [undefined] where it has fewer; any other value
    throws a [TypeError]. *)
Definition destructure_pair (value : js_value)
    : outcome (js_value * js_value) :=
  match value with
  | JsArray items =>
      Returned (default JsUndefined (items !! 0),
                default JsUndefined (items !! 1))
  | JsString s => Returned (char_at 0 s, char_at 1 s)
  | _ => Thrown (TypeError "(intermediate value) is not iterable")
  end.

(** The [try] statement of [executeQuery].  The module imports
    [isAlloowedQuery], the name exported by [v2/src/validators.ts]. *)
Definition executeQuery_body (env : environment) (p : pool) (sql : string)
    (params : list js_value) (database : option string) : exec js_object :=
  try_catch_finally
    (c ← pool_getConnection p;
     set_connection_var c;;
     match truthy database with
     | Some d => connection_query p c ("USE `" +:+ d +:+ "`") [];; mret tt
     | None => mret tt
     end;;
     (if negb (ValidatorsV2.isAlloowedQuery env sql)
      then throw (Error "Query not allowed") else mret tt);;
     answer ← connection_query_race p c sql params;
     '(rows, fields) ← settle (destructure_pair (resolved answer));
     mret ({[ "rows" := limitedRows rows; "fields" := fields ]} : js_object))
    (λ error, release_if_connected;; throw error)
    release_if_connected.

(** [executeQuery(pool, sql, params, database)]: the calls made on the
    driver and the completion of the returned promise. *)
Definition executeQuery (env : environment) (p : pool) (sql : string)
    (params : list js_value) (database : option string)
    : list event * outcome js_object :=
  let '(s, r) :=
    executeQuery_body env p sql params database
      {| connection_var := None; trace := [] |} in
  (trace s, r).

End Connection.

(** ** [v1/db.js] (lines 1 to 175, the module with the pool registry) *)

Module Db.
Import Driver Exec.

(** The object returned by [validateConfig]. *)
Record config := {
  host : string;
  port : Z;
  user : string;
  password : string;
  database : option string;
  allow_insert : bool;
  allow_update : bool;
  allow_delete : bool;
}.

(** The constants read from the environment when the module is loaded;
    [Number.parseInt] gives an integer or [NaN], here [None]. *)
Record settings := {
  DEFAULT_TIMEOUT : option Z;
  DEFAULT_ROW_LIMIT : option Z;
}.

(** [host.split(".").join("_")] *)
Fixpoint dots_to_underscores (s : string) : string :=
  match s with
  | EmptyString => EmptyString
  | String c r =>
      String (if Ascii.eqb c "." then "_"%char else c) (dots_to_underscores r)
  end.

(** A missing [database] is interpolated as [undefined]. *)
Definition getPoolKey (cfg : config) : string :=
  let strHost := dots_to_underscores (host cfg) in
  strHost +:+ "_" +:+ user cfg +:+ "_" +:+ default "undefined" (database cfg).

(** The options given to [mariadb.createPool]. *)
Record pool_options := {
  opt_host : string;
  opt_port : Z;
  opt_user : string;
  opt_password : string;
  connectionLimit : nat;
  connectTimeout : option Z;
}.

(** The module variable [pools], used as a map from keys to pools, and the
    [createPool] calls made so far.  A pool is identified by the rank of
    the call that created it. *)
Record registry := {
  pools : gmap string nat;
  created : list pool_options;
}.

Definition empty_registry : registry := {| pools := ∅; created := [] |}.

(** [pools] is an array: under the names below, reading it gives a member
    of [Object.prototype].  A key of [getPoolKey] has at least two
    underscores, and these are the only names an array inherits that have
    as many. *)
Definition inherited_property (key : string) : bool :=
  existsb (String.eqb key)
    ["__proto__"; "__defineGetter__"; "__defineSetter__";
     "__lookupGetter__"; "__lookupSetter__"].

Inductive pool_ref :=
| OwnPool (handle : nat)
| Inherited.

(** [pools[key]]; [None] is [undefined]. *)
Definition pools_get (reg : registry) (key : string) : option pool_ref :=
  match pools reg !! key with
  | Some h => Some (OwnPool h)
  | None => if inherited_property key then Some Inherited else None
  end.

(** Lines 92 to 113 of [executeQuery]: the pool of the key is created when
    [pools[key]] is falsy. *)
Definition ensurePool (cfg : config) (st : settings) (reg : registry)
    : registry :=
  let key := getPoolKey cfg in
  match pools_get reg key with
  | Some _ => reg
  | None =>
      {| pools :=
           <[key := length (created reg)]> (pools reg);
         created :=
           created reg ++
           [{| opt_host := host cfg; opt_port := port cfg;
               opt_user := user cfg; opt_password := password cfg;
               connectionLimit := 1;
               connectTimeout := DEFAULT_TIMEOUT st |}] |}
  end.

(** [rows.slice(0, n)] for an integer [n]: a negative [n] counts from the
    end. *)
Definition slice_to (n : Z) (items : list js_value) : list js_value :=
  if (n <? 0)%Z then take (length items - Z.to_nat (- n)) items
  else take (Z.to_nat n) items.

(** A comparison with [NaN] is false. *)
Definition limitedRows (st : settings) (rows : js_value) : js_value :=
  match rows, DEFAULT_ROW_LIMIT st with
  | JsArray items, Some limit =>
      if (limit <? Z.of_nat (length items))%Z
      then JsArray (slice_to limit items)
      else rows
  | _, _ => rows
  end.

(** The driver rejects a query that exceeds its [timeout] option; the
    rejection is part of [query]. *)
Definition executeQuery_try (p : pool) (c : connection) (sql : string)
    (database : option string) (st : settings) : exec js_object :=
  try_catch_finally
    (match truthy database with
     | Some d => connection_query p c ("USE `" +:+ d +:+ "`") [];; mret tt
     | None => mret tt
     end;;
     '(rows, fields) ← connection_query p c sql [];
     mret ({[ "rows" := limitedRows st rows; "fields" := fields ]}
           : js_object))
    (λ error, throw error)
    release_if_connected.

(** [executeQuery(sql, database)], in the module state [reg] and with the
    module constant [config] as [cfg]; [driver] gives the behaviour of
    each pool. *)
Definition executeQuery (cfg : config) (st : settings) (driver : nat → pool)
    (sql : string) (database : option string) (reg : registry)
    : registry * (list event * outcome js_object) :=
  let key := getPoolKey cfg in
  let reg' := ensurePool cfg st reg in
  (reg',
   match pools_get reg' key with
   | None =>
       ([], Thrown (Error ("Não foi possível criar o pool para " +:+ key)))
   | Some Inherited =>
       ([], Thrown (TypeError "pools[key].getConnection is not a function"))
   | Some (OwnPool h) =>
       let '(s, r) :=
         (c ← pool_getConnection (driver h);
          set_connection_var c;;
          executeQuery_try (driver h) c sql database st)
           {| connection_var := None; trace := [] |} in
       (trace s, r)
   end).

End Db.

(** ** The connection module with a shared pool ([src/index.ts], lines 536
    to 693) *)

Module SharedConnection.
Import Driver Exec JsString.

Definition DEFAULT_TIMEOUT : Z := 10000.
Definition DEFAULT_ROW_LIMIT : nat := 1000.

Record MariaDBConfig := {
  host : string;
  port : option Z;
  user : string;
  password : string;
  database : option string;
  allow_insert : bool;
  allow_update : bool;
  allow_delete : bool;
}.

Definition digit_value (c : ascii) : option Z :=
  let n := nat_of_ascii c in
  if (48 <=? n) && (n <=? 57) then Some (Z.of_nat (n - 48)) else None.

(** The value of the longest prefix of decimal digits, after the digits
    counted in [acc]; [None] when there is no digit at all. *)
Fixpoint digits_prefix (acc : option Z) (s : string) : option Z :=
  match s with
  | EmptyString => acc
  | String c r =>
      match digit_value c with
      | Some d => digits_prefix (Some (default 0 acc * 10 + d)%Z) r
      | None => acc
      end
  end.

(** [parseInt(s, 10)]: leading white space, a sign, then digits; [None]
    is [NaN].  The result is the integer that the digits denote, which is
    the number that [parseInt] returns as long as it does not exceed 2^53
    in absolute value; beyond, [parseInt] returns a number close to it. *)
Definition parseInt10 (s : string) : option Z :=
  match trimStart s with
  | String "-" r => Z.opp <$> digits_prefix None r
  | String "+" r => digits_prefix None r
  | r => digits_prefix None r
  end.

Definition getConfigFromEnv (env : environment) : outcome MariaDBConfig :=
  let host := env !! "MARIADB_HOST" in
  let portStr := env !! "MARIADB_PORT" in
  let user := env !! "MARIADB_USER" in
  let password := env !! "MARIADB_PASSWORD" in
  let database := env !! "MARIADB_DATABASE" in
  let allow_insert := env_is_true env "MARIADB_ALLOW_INSERT" in
  let allow_update := env_is_true env "MARIADB_ALLOW_UPDATE" in
  let allow_delete := env_is_true env "MARIADB_ALLOW_DELETE" in
  match truthy host, truthy user, truthy password with
  | None, _, _ =>
      Thrown (Error "MARIADB_HOST environment variable is required")
  | Some _, None, _ =>
      Thrown (Error "MARIADB_USER environment variable is required")
  | Some _, Some _, None =>
      Thrown (Error "MARIADB_PASSWORD environment variable is required")
  | Some host, Some user, Some password =>
      let port :=
        match truthy portStr with
        | Some portStr => parseInt10 portStr
        | None => Some 3306%Z
        end in
      Returned
        {| host := host; port := port; user := user; password := password;
           database := database; allow_insert := allow_insert;
           allow_update := allow_update; allow_delete := allow_delete |}
  end.

(** The options given to [mariadb.createPool]. *)
Record pool_options := {
  opt_host : string;
  opt_port : option Z;
  opt_user : string;
  opt_password : string;
  opt_database : option string;
  connectionLimit : nat;
  connectTimeout : Z;
}.

(** The module variables [pool] and [connection], and the [createPool]
    calls made so far.  A pool is identified by the rank of the call that
    created it. *)
Record module_state := {
  pool_var : option nat;
  shared_connection : option connection;
  created : list pool_options;
}.

Definition initial : module_state :=
  {| pool_var := None; shared_connection := None; created := [] |}.

Definition createConnectionPool (env : environment) (st : module_state)
    : module_state * outcome nat :=
  match getConfigFromEnv env with
  | Thrown e => (st, Thrown e)
  | Returned config =>
      match pool_var st with
      | Some pool => (st, Returned pool)
      | None =>
          let pool := length (created st) in
          ({| pool_var := Some pool;
              shared_connection := shared_connection st;
              created :=
                created st ++
                [{| opt_host := host config; opt_port := port config;
                    opt_user := user config;
                    opt_password := password config;
                    opt_database := database config;
                    connectionLimit := 2;
                    connectTimeout := DEFAULT_TIMEOUT |}] |},
           Returned pool)
      end
  end.

Definition limitedRows (rows : js_value) : js_value :=
  match rows with
  | JsArray items =>
      if DEFAULT_ROW_LIMIT <? length items
      then JsArray (take DEFAULT_ROW_LIMIT items)
      else rows
  | _ => rows
  end.

(** The [try] statement of [executeQuery]; the variable [connection] of
    the module is the one of the state.  The driver rejects a query that
    exceeds its [timeout] option; the rejection is part of [query].  The
    call is [connection.query({ metaAsArray: true, ..., sql, ...params,
    timeout })]: [params] is spread into the options and no values are
    passed. *)
Definition executeQuery_try (env : environment) (p : pool) (sql : string)
    (params : list js_value) (database : option string) : exec js_object :=
  try_catch_finally
    (connection ← get_connection_var;
     c ← match connection with
         | Some c => mret c
         | None => c ← pool_getConnection p; set_connection_var c;; mret c
         end;
     match truthy database with
     | Some d => connection_query p c ("USE `" +:+ d +:+ "`") [];; mret tt
     | None => mret tt
     end;;
     (if negb (ValidatorsV2.isAlloowedQuery env sql)
      then throw (Error "Query not allowed") else mret tt);;
     '(rows, fields) ← connection_query p c sql [];
     mret ({[ "rows" := limitedRows rows; "fields" := fields ]} : js_object))
    (λ error, release_if_connected;; throw error)
    release_if_connected.

(** [executeQuery(sql, params, database)] in the module state [st];
    [driver] gives the behaviour of each pool. *)
Definition executeQuery (env : environment) (driver : nat → pool)
    (sql : string) (params : list js_value) (database : option string)
    (st : module_state) : module_state * (list event * outcome js_object) :=
  let '(st1, r) :=
    match pool_var st with
    | Some pool => (st, Returned pool)
    | None => createConnectionPool env st
    end in
  match r with
  | Thrown e => (st1, ([], Thrown e))
  | Returned pool =>
      let '(s, r) :=
        executeQuery_try env (driver pool) sql params database
          {| connection_var := shared_connection st1; trace := [] |} in
      ({| pool_var := pool_var st1;
          shared_connection := connection_var s;
          created := created st1 |},
       (trace s, r))
  end.

End SharedConnection.

(** ** The tool handlers of [src/index.ts]

    What a handler returns: the text of [JSON.stringify(rows, null, 2)],
    kept as the value it renders, or the text made from the message of the
    error, with [isError: true]. *)

Inductive tool_result :=
| Content (rows : js_value)
| IsError (error : js_error).

(** The [catch] of the handlers and the rendering of the rows. *)
Definition reply (r : outcome js_object) : tool_result :=
  match r with
  | Returned result => Content (default JsUndefined (result !! "rows"))
  | Thrown error => IsError error
  end.

(** The statements sent to the server by a run. *)
Definition statements (calls : list Driver.event) : list string :=
  omap (λ e, match e with Driver.Queried _ sql _ => Some sql | _ => None end)
    calls.

(** The handlers of lines 131 to 238, which pass the pool to
    [executeQuery] of [src/connection.ts]; [validateQuery] comes from the
    module that exports [isAlloowedQuery] to it, [v2/src/validators.ts]. *)

Module IndexMySQL.
Import Driver Exec.

(** The [switch] on [request.params.name], inside the [try]. *)
Definition dispatch (env : environment) (p : pool) (name : string)
    (arguments : gmap string string) : list event * outcome js_object :=
  if String.eqb name "list_databases" then
    Connection.executeQuery env p "SHOW DATABASES" [] None
  else if String.eqb name "list_tables" then
    let database := arguments !! "database" in
    Connection.executeQuery env p "SHOW FULL TABLES" [] database
  else if String.eqb name "describe_table" then
    let database := arguments !! "database" in
    match truthy (arguments !! "table") with
    | None => ([], Thrown (McpError InvalidParams "Table name is required"))
    | Some table =>
        Connection.executeQuery env p ("DESCRIBE `" +:+ table +:+ "`") []
          database
    end
  else if String.eqb name "execute_query" then
    let database := arguments !! "database" in
    match truthy (arguments !! "query") with
    | None => ([], Thrown (McpError InvalidParams "Query is required"))
    | Some query =>
        match ValidatorsV2.validateQuery env query with
        | Thrown e => ([], Thrown e)
        | Returned _ => Connection.executeQuery env p query [] database
        end
    end
  else ([], Thrown (McpError MethodNotFound ("Unknown tool: " +:+ name))).

(** The handler of [CallToolRequestSchema]. *)
Definition callTool (env : environment) (p : pool) (name : string)
    (arguments : gmap string string) : list event * tool_result :=
  let '(calls, r) := dispatch env p name arguments in
  (calls, reply r).

End IndexMySQL.

(** The handlers of lines 390 to 506, on the connection module with the
    shared pool. *)

Module IndexMariaDB.
Import Driver Exec.

(** The handler replies, or the process exits with a code. *)
Inductive handler_result :=
| Replied (r : tool_result)
| Exited (code : Z).

(** The [switch] on [request.params.name], inside the second [try]. *)
Definition dispatch (env : environment) (driver : nat → pool) (name : string)
    (arguments : gmap string string) (st : SharedConnection.module_state)
    : SharedConnection.module_state * (list event * outcome js_object) :=
  if String.eqb name "list_databases" then
    SharedConnection.executeQuery env driver "SHOW DATABASES" [] None st
  else if String.eqb name "list_tables" then
    let database := arguments !! "database" in
    SharedConnection.executeQuery env driver "SHOW FULL TABLES" [] database st
  else if String.eqb name "describe_table" then
    let database := arguments !! "database" in
    match truthy (arguments !! "table") with
    | None =>
        (st, ([], Thrown (McpError InvalidParams "Table name is required")))
    | Some table =>
        SharedConnection.executeQuery env driver
          ("DESCRIBE `" +:+ table +:+ "`") [] database st
    end
  else if String.eqb name "execute_query" then
    let database := arguments !! "database" in
    match truthy (arguments !! "query") with
    | None => (st, ([], Thrown (McpError InvalidParams "Query is required")))
    | Some query =>
        SharedConnection.executeQuery env driver query [] database st
    end
  else (st, ([], Thrown (McpError MethodNotFound ("Unknown tool: " +:+ name)))).

(** The handler of [CallToolRequestSchema]: the pool is created first, and
    a failure there ends the process. *)
Definition callTool (env : environment) (driver : nat → pool) (name : string)
    (arguments : gmap string string) (st : SharedConnection.module_state)
    : SharedConnection.module_state * (list event * handler_result) :=
  match SharedConnection.createConnectionPool env st with
  | (st1, Thrown _) => (st1, ([], Exited 1))
  | (st1, Returned _) =>
      let '(st2, (calls, r)) := dispatch env driver name arguments st1 in
      (st2, (calls, Replied (reply r)))
  end.

End IndexMariaDB.

(** ** The policy of [v1/test-server.mjs] (lines 237 to 307) *)

Module ServerV1.
Import JsString.

Definition ALLOWED_COMMANDS : list string :=
  ["SELECT"; "SHOW"; "DESCRIBE"; "DESC"; "EXPLAIN"; "INSERT"; "UPDATE";
   "DELETE"].

Definition DISALLOWED_COMMANDS : list string :=
  ["INSERT"; "UPDATE"; "DELETE"; "DROP"; "CREATE"; "ALTER"; "TRUNCATE";
   "RENAME"; "REPLACE"; "GRANT"; "REVOKE"; "LOCK"; "UNLOCK"; "CALL"; "EXEC";
   "EXECUTE"; "SET"; "START"; "BEGIN"; "COMMIT"; "ROLLBACK"].

Definition isAllowedQuery (config : Db.config) (sql : string) : bool :=
  if String.eqb sql "" then false
  else
    let normalizedQuery := normalize sql in
    let startsWithAllowed :=
      existsb
        (λ cmd, startsWith (cmd +:+ " ") normalizedQuery
                || String.eqb normalizedQuery cmd)
        ALLOWED_COMMANDS in
    let containsDisallowed :=
      existsb
        (λ cmd,
           if String.eqb cmd "INSERT" && Db.allow_insert config then false
           else if String.eqb cmd "UPDATE" && Db.allow_update config then false
           else if String.eqb cmd "DELETE" && Db.allow_delete config then false
           else test_delimited cmd true normalizedQuery)
        DISALLOWED_COMMANDS in
    let hasMultipleStatements :=
      includes ";" normalizedQuery && negb (endsWith ";" normalizedQuery) in
    startsWithAllowed && negb containsDisallowed && negb hasMultipleStatements.

End ServerV1.

(** ** Quoted identifiers, as the server reads them

    After an opening backtick the server reads up to the first backtick
    that is not doubled; a doubled backtick stands for one backtick of the
    name. *)

Module SqlIdentifier.

(** [read_quoted s] reads [s], the text after an opening backtick, and
    gives the name and the text left after the closing backtick; [None]
    when the identifier is not closed. *)
Fixpoint read_quoted (s : string) : option (string * string) :=
  match s with
  | EmptyString => None
  | String c r =>
      if Ascii.eqb c "`" then
        match r with
        | String c' r' =>
            if Ascii.eqb c' "`" then
              match read_quoted r' with
              | Some (name, rest) => Some (String "`" name, rest)
              | None => None
              end
            else Some (EmptyString, r)
        | EmptyString => Some (EmptyString, EmptyString)
        end
      else
        match read_quoted r with
        | Some (name, rest) => Some (String c name, rest)
        | None => None
        end
  end.

(** The text [t], written between two backticks, is read as the
    identifier [t], closed by the second of them. *)
Definition confined (t : string) : Prop :=
  read_quoted (t +:+ "`") = Some (t, EmptyString).

(** The text after [prefix] in [sql], when [sql] starts with it. *)
Fixpoint after (prefix sql : string) : option string :=
  match prefix, sql with
  | EmptyString, _ => Some sql
  | String a p, String b s => if Ascii.eqb a b then after p s else None
  | String _ _, EmptyString => None
  end.

End SqlIdentifier.

(** ** Conditions on a run of an executor *)

Module Run.
Import Driver Exec.

(** The [USE] statement, when there is one, succeeds. *)
Definition use_succeeds (p : pool) (database : option string) : Prop :=
  ∀ d, truthy database = Some d →
       ∃ v, query p ("USE `" +:+ d +:+ "`") = Returned v.

(** The calls made before the statement itself in [src/connection.ts]. *)
Definition prologue (c : connection) (database : option string) : list event :=
  Acquired c ::
  match truthy database with
  | Some d => [Queried c ("USE `" +:+ d +:+ "`") []]
  | None => []
  end.

(** The same for the connection module of [src/index.ts], whose call
    runs on the connection [held] by the module when there is one. *)
Definition shared_prologue (held : option connection) (c : connection)
    (database : option string) : list event :=
  match held with
  | Some _ => []
  | None => [Acquired c]
  end ++
  match truthy database with
  | Some d => [Queried c ("USE `" +:+ d +:+ "`") []]
  | None => []
  end.

(** The module holds the connection [c], or holds none and the pool gives
    [c]. *)
Definition holds_or_acquires (held : option connection) (p : pool)
    (c : connection) : Prop :=
  match held with
  | Some c' => c' = c
  | None => getConnection p = Returned c
  end.

End Run.

(** ** Pools used to run the executors on concrete inputs *)

Module Examples.
Import Driver.

(** A pool whose connection 1 answers every statement with [rows]. *)
Definition answering (rows : js_value) : pool :=
  {| getConnection := Returned 1;
     query := λ _, Returned (rows, JsArray []);
     outlasts_timeout := λ _, false |}.

(** A pool whose connection 1 answers no statement in time, except the
    [USE] statements. *)
Definition slow : pool :=
  {| getConnection := Returned 1;
     query := λ _, Returned (JsArray [], JsArray []);
     outlasts_timeout := λ sql, negb (JsString.startsWith "USE " sql) |}.

(** A pool with no database selected: the server rejects [SHOW FULL
    TABLES]. *)
Definition no_database_selected : pool :=
  {| getConnection := Returned 1;
     query := λ sql,
       if String.eqb sql "SHOW FULL TABLES"
       then Thrown (Error "No database selected")
       else Returned (JsArray [], JsArray []);
     outlasts_timeout := λ _, false |}.

Definition row (n : nat) : js_value :=
  JsObject [("id", JsNumber (Z.of_nat n))].

Definition config_a : Db.config :=
  {| Db.host := "db.example.org"; Db.port := 3306; Db.user := "reader";
     Db.password := "secret"; Db.database := Some "shop";
     Db.allow_insert := false; Db.allow_update := false;
     Db.allow_delete := false |}.

(** The same target as [config_a], with another port and password. *)
Definition config_b : Db.config :=
  {| Db.host := "db.example.org"; Db.port := 3307; Db.user := "reader";
     Db.password := "other"; Db.database := Some "shop";
     Db.allow_insert := true; Db.allow_update := false;
     Db.allow_delete := false |}.

Definition valid_env : environment :=
  {[ "MARIADB_HOST" := "db.example.org"; "MARIADB_USER" := "reader";
     "MARIADB_PASSWORD" := "secret" ]}.

Definition default_settings : Db.settings :=
  {| Db.DEFAULT_TIMEOUT := Some 10000%Z; Db.DEFAULT_ROW_LIMIT := Some 1000%Z |}.

End Examples.


(** ** [isReadOnlyQuery] and [validateQuery] of the MySQL validators
    ([unnamed/part_001]) *)

Module ReadOnly.
Import JsString.

Definition ALLOWED_COMMANDS : list string :=
  ["SELECT"; "SHOW"; "DESCRIBE"; "DESC"; "EXPLAIN"].

Definition DISALLOWED_COMMANDS : list string :=
  ["INSERT"; "UPDATE"; "DELETE"; "DROP"; "CREATE"; "ALTER"; "TRUNCATE";
   "RENAME"; "REPLACE"; "GRANT"; "REVOKE"; "LOCK"; "UNLOCK"; "CALL"; "EXEC";
   "EXECUTE"; "SET"; "START"; "BEGIN"; "COMMIT"; "ROLLBACK"].

(** The first three entries of [DISALLOWED_COMMANDS]. *)
Definition write_verbs : list string := ["INSERT"; "UPDATE"; "DELETE"].

Definition isReadOnlyQuery (query : string) : bool :=
  let normalizedQuery := normalize query in
  let startsWithAllowed :=
    existsb
      (λ cmd, startsWith (cmd +:+ " ") normalizedQuery
              || String.eqb normalizedQuery cmd)
      ALLOWED_COMMANDS in
  let containsDisallowed :=
    existsb (λ cmd, test_delimited cmd true normalizedQuery)
      DISALLOWED_COMMANDS in
  let hasMultipleStatements :=
    includes ";" normalizedQuery && negb (endsWith ";" normalizedQuery) in
  startsWithAllowed && negb containsDisallowed && negb hasMultipleStatements.

Definition validateQuery (query : string) : outcome unit :=
  if String.eqb query "" then Thrown (Error "Query must be a non-empty string")
  else if negb (isReadOnlyQuery query) then
    Thrown
      (Error
         "Only read-only queries are allowed (SELECT, SHOW, DESCRIBE, EXPLAIN)")
  else Returned tt.

End ReadOnly.

(** ** [isAlloowedQuery] of [server-mcp-v2.cjs] (lines 310 to 383) *)

Module ServerMcpV2.
Import JsString.

Definition ALLOWED_COMMANDS : list string :=
  ["SELECT"; "SHOW"; "DESCRIBE"; "DESC"; "EXPLAIN"; "INSERT"; "UPDATE";
   "DELETE"].

Definition DISALLOWED_COMMANDS : list string :=
  ["INSERT"; "UPDATE"; "DELETE"; "DROP"; "CREATE"; "ALTER"; "TRUNCATE";
   "RENAME"; "REPLACE"; "GRANT"; "REVOKE"; "LOCK"; "UNLOCK"; "CALL"; "EXEC";
   "EXECUTE"; "SET"; "START"; "BEGIN"; "COMMIT"; "ROLLBACK"].

(** [config] has the fields of the configuration of [v1/db.js]. *)
Definition isAlloowedQuery (config : Db.config) (sql : string) : bool :=
  if String.eqb sql "" then false
  else
    let normalizedQuery := normalize sql in
    let startsWithAllowed :=
      existsb
        (λ cmd, startsWith (cmd +:+ " ") normalizedQuery
                || String.eqb normalizedQuery cmd)
        ALLOWED_COMMANDS in
    let containsDisallowed :=
      existsb
        (λ cmd,
           if String.eqb cmd "INSERT" && negb (Db.allow_insert config)
           then false
           else if String.eqb cmd "UPDATE" && negb (Db.allow_update config)
           then false
           else if String.eqb cmd "DELETE" && negb (Db.allow_delete config)
           then false
           else test_delimited cmd true normalizedQuery)
        DISALLOWED_COMMANDS in
    let hasMultipleStatements :=
      includes ";" normalizedQuery && negb (endsWith ";" normalizedQuery) in
    startsWithAllowed && negb containsDisallowed && negb hasMultipleStatements.

(** The configuration with the three permissions negated. *)
Definition negate_permissions (config : Db.config) : Db.config :=
  {| Db.host := Db.host config; Db.port := Db.port config;
     Db.user := Db.user config; Db.password := Db.password config;
     Db.database := Db.database config;
     Db.allow_insert := negb (Db.allow_insert config);
     Db.allow_update := negb (Db.allow_update config);
     Db.allow_delete := negb (Db.allow_delete config) |}.

End ServerMcpV2.

(** ** The shape of a normalized text *)

Module Shape.
Import JsString Occurrence.

Definition nonspace (c : ascii) : bool := negb (is_space c).

(** Every white-space character of the text is a space, and is not
    followed by a white-space character. *)
Fixpoint single_spaced (s : string) : Prop :=
  match s with
  | EmptyString => True
  | String c r =>
      (is_space c = true →
       c = " "%char ∧ boundary nonspace (first_char r))
      ∧ single_spaced r
  end.

(** The text is single-spaced, neither starts nor ends with a white-space
    character, and upper-casing leaves it as it is. *)
Definition normalized (s : string) : Prop :=
  single_spaced s
  ∧ boundary nonspace (first_char s)
  ∧ boundary nonspace (last_char s)
  ∧ toUpperCase s = s.

(** The text starts with the verb [cmd], alone or followed by a space. *)
Definition led_by (cmd text : string) : Prop :=
  text = cmd ∨ ∃ rest, text = cmd +:+ " " +:+ rest.

(** Whether [--] occurs in [s]. *)
Fixpoint has_double_dash (s : string) : bool :=
  match s with
  | EmptyString => false
  | String c r => (Ascii.eqb c "-" && startsWith "-" r) || has_double_dash r
  end.

End Shape.

(** ** The MySQL server: [executeQuery] of [unnamed/part_000] and the tool
    handlers of [src/index.ts] (lines 131 to 238) on it

    The first document of [src/index.ts] is the MySQL server; the
    connection module and the validators written for it are
    [unnamed/part_000] and [unnamed/part_001]. *)

Module MySQLServer.
Import Driver Exec.

(** [executeQuery(pool, sql, params, database)] of [unnamed/part_000]: no
    policy inside, and [release] in the [finally] block only.  Its
    constants are those of [src/connection.ts]. *)
Definition executeQuery_body (p : pool) (sql : string)
    (params : list js_value) (database : option string) : exec js_object :=
  try_catch_finally
    (c ← pool_getConnection p;
     set_connection_var c;;
     match truthy database with
     | Some d => connection_query p c ("USE `" +:+ d +:+ "`") [];; mret tt
     | None => mret tt
     end;;
     '(rows, fields) ← connection_query_race p c sql params;
     mret ({[ "rows" := Connection.limitedRows rows; "fields" := fields ]}
           : js_object))
    (λ error, throw error)
    release_if_connected.

Definition executeQuery (p : pool) (sql : string) (params : list js_value)
    (database : option string) : list event * outcome js_object :=
  let '(s, r) :=
    executeQuery_body p sql params database
      {| connection_var := None; trace := [] |} in
  (trace s, r).

(** The [switch] of the tool handler, with [validateQuery] of
    [unnamed/part_001]. *)
Definition dispatch (p : pool) (name : string)
    (arguments : gmap string string) : list event * outcome js_object :=
  if String.eqb name "list_databases" then
    executeQuery p "SHOW DATABASES" [] None
  else if String.eqb name "list_tables" then
    let database := arguments !! "database" in
    executeQuery p "SHOW FULL TABLES" [] database
  else if String.eqb name "describe_table" then
    let database := arguments !! "database" in
    match truthy (arguments !! "table") with
    | None => ([], Thrown (McpError InvalidParams "Table name is required"))
    | Some table =>
        executeQuery p ("DESCRIBE `" +:+ table +:+ "`") [] database
    end
  else if String.eqb name "execute_query" then
    let database := arguments !! "database" in
    match truthy (arguments !! "query") with
    | None => ([], Thrown (McpError InvalidParams "Query is required"))
    | Some query =>
        match ReadOnly.validateQuery query with
        | Thrown e => ([], Thrown e)
        | Returned _ => executeQuery p query [] database
        end
    end
  else ([], Thrown (McpError MethodNotFound ("Unknown tool: " +:+ name))).

Definition callTool (p : pool) (name : string)
    (arguments : gmap string string) : list event * tool_result :=
  let '(calls, r) := dispatch p name arguments in
  (calls, reply r).

End MySQLServer.

(** ** The discipline of a lease *)

Module Lease.
Import Driver.

Definition is_query_on (c : connection) (e : event) : bool :=
  match e with
  | Queried c' _ _ => Nat.eqb c c'
  | _ => false
  end.

(** The calls of one run on the connection [c]: its acquisition, then the
    statements, then one release or more, and nothing else. *)
Definition disciplined (c : connection) (calls : list event) : Prop :=
  ∃ queries releases,
    calls = Acquired c :: queries ++ releases
    ∧ forallb (is_query_on c) queries = true
    ∧ forallb (is_release c) releases = true
    ∧ releases ≠ [].

(** A decision procedure for [disciplined]. *)
Fixpoint releases_only (c : connection) (calls : list event) : bool :=
  match calls with
  | [] => true
  | e :: rest => is_release c e && releases_only c rest
  end.

Fixpoint queries_then_releases (c : connection) (calls : list event) : bool :=
  match calls with
  | [] => false
  | e :: rest =>
      if is_query_on c e then queries_then_releases c rest
      else is_release c e && releases_only c rest
  end.

Definition check (c : connection) (calls : list event) : bool :=
  match calls with
  | Acquired c' :: rest => Nat.eqb c c' && queries_then_releases c rest
  | _ => false
  end.

End Lease.

(** ** [parseArgsAndEnv] and [log] of [v1/db.js] *)

Module DbStartup.
Import JsString.

(** The object [envConfig]. *)
Record raw_config := {
  host : option string;
  port : option string;
  user : option string;
  password : option string;
  database : option string;
  allow_insert : bool;
  allow_update : bool;
  allow_delete : bool;
}.

(** The text of [s] before its first [=]. *)
Fixpoint until_equals (s : string) : string :=
  match s with
  | EmptyString => EmptyString
  | String c r => if Ascii.eqb c "=" then EmptyString else String c (until_equals r)
  end.

(** [arg.split("=")[1]]: the text between the first [=] and the second, or
    the end; [None], that is [undefined], when [arg] has no [=]. *)
Fixpoint second_field (arg : string) : option string :=
  match arg with
  | EmptyString => None
  | String c r => if Ascii.eqb c "=" then Some (until_equals r) else second_field r
  end.

(** The body of the loop over the arguments of the command line. *)
Definition apply_arg (cfg : raw_config) (arg : string) : raw_config :=
  if startsWith "host=" arg then
    {| host := second_field arg; port := port cfg; user := user cfg;
       password := password cfg; database := database cfg;
       allow_insert := allow_insert cfg; allow_update := allow_update cfg;
       allow_delete := allow_delete cfg |}
  else if startsWith "port=" arg then
    {| host := host cfg; port := second_field arg; user := user cfg;
       password := password cfg; database := database cfg;
       allow_insert := allow_insert cfg; allow_update := allow_update cfg;
       allow_delete := allow_delete cfg |}
  else if startsWith "user=" arg then
    {| host := host cfg; port := port cfg; user := second_field arg;
       password := password cfg; database := database cfg;
       allow_insert := allow_insert cfg; allow_update := allow_update cfg;
       allow_delete := allow_delete cfg |}
  else if startsWith "password=" arg then
    {| host := host cfg; port := port cfg; user := user cfg;
       password := second_field arg; database := database cfg;
       allow_insert := allow_insert cfg; allow_update := allow_update cfg;
       allow_delete := allow_delete cfg |}
  else if startsWith "database=" arg then
    {| host := host cfg; port := port cfg; user := user cfg;
       password := password cfg; database := second_field arg;
       allow_insert := allow_insert cfg; allow_update := allow_update cfg;
       allow_delete := allow_delete cfg |}
  else cfg.

(** [parseArgsAndEnv()], for the environment [env] and the arguments
    [cliArgs] that follow the script on the command line. *)
Definition parseArgsAndEnv (env : environment) (cliArgs : list string)
    : raw_config :=
  let envConfig :=
    {| host := env !! "MARIADB_HOST";
       port := Some (default "3306" (env !! "MARIADB_PORT"));
       user := env !! "MARIADB_USER";
       password := env !! "MARIADB_PASSWORD";
       database := env !! "MARIADB_DATABASE";
       allow_insert := env_is_true env "MARIADB_ALLOW_INSERT";
       allow_update := env_is_true env "MARIADB_ALLOW_UPDATE";
       allow_delete := env_is_true env "MARIADB_ALLOW_DELETE" |} in
  foldl apply_arg envConfig cliArgs.

(** The fields that the command line can set, with the name that an
    argument gives them. *)
Definition fields : list (string * (raw_config → option string)) :=
  [("host", host); ("port", port); ("user", user); ("password", password);
   ("database", database)].

(** The methods of [console] that [log] calls. *)
Inductive console_method := console_warn | console_error | console_log.

Definition levels : list string := ["error"; "warn"; "info"; "debug"].

(** [levels.indexOf(level)] for [levels = ["error", "warn", "info",
    "debug"]]. *)
Definition level_index (level : string) : Z :=
  if String.eqb level "error" then 0
  else if String.eqb level "warn" then 1
  else if String.eqb level "info" then 2
  else if String.eqb level "debug" then 3
  else (-1).

(** [process.env.MARIADB_LOG_LEVEL || "info"] *)
Definition LOG_LEVEL (env : environment) : string :=
  default "info" (Exec.truthy (env !! "MARIADB_LOG_LEVEL")).

(** [log(level, message, ...args)]: the method of [console] that receives
    the message, or [None] when nothing is printed. *)
Definition log (env : environment) (level : string) : option console_method :=
  if (level_index level <=? level_index (LOG_LEVEL env))%Z then
    Some (if String.eqb level "warn" then console_warn
          else if String.eqb level "error" || String.eqb level "debug"
               then console_error
               else console_log)
  else None.

End DbStartup.

(** ** Decimal numerals, as [parseInt] reads them *)

Module Numeral.
Import SharedConnection.

Definition is_digit (c : ascii) : bool :=
  (48 <=? nat_of_ascii c) && (nat_of_ascii c <=? 57).

Fixpoint all_digits (s : string) : bool :=
  match s with
  | EmptyString => true
  | String c r => is_digit c && all_digits r
  end.

(** The number a string of decimal digits denotes, after the number
    [acc] of the digits before it. *)
Fixpoint decimal_from (acc : Z) (s : string) : Z :=
  match s with
  | EmptyString => acc
  | String c r => decimal_from (acc * 10 + (Z.of_nat (nat_of_ascii c) - 48)) r
  end.

Definition decimal (s : string) : Z := decimal_from 0 s.

(** The integers up to this bound are numbers of JavaScript, so that
    [parseInt] returns the number of such a numeral exactly. *)
Definition exact_limit : Z := 2 ^ 53.

(** The text does not go on with a digit. *)
Definition ends_numeral (rest : string) : Prop :=
  match rest with
  | EmptyString => True
  | String c _ => is_digit c = false
  end.

(** The variable is set to a text that is not empty. *)
Definition is_set (env : environment) (name : string) : Prop :=
  ∃ value, env !! name = Some value ∧ value ≠ "".

End Numeral.

(** ** [v1/db.js]: the constants read when the module is loaded *)

Module DbConstants.
Import Exec SharedConnection.

(** [process.env.NAME ? Number.parseInt(process.env.NAME, 10) : fallback] *)
Definition number_from (env : environment) (name : string) (fallback : Z)
    : option Z :=
  match truthy (env !! name) with
  | Some text => parseInt10 text
  | None => Some fallback
  end.

Definition settings_of (env : environment) : Db.settings :=
  {| Db.DEFAULT_TIMEOUT := number_from env "MARIADB_TIMEOUT_MS" 10000;
     Db.DEFAULT_ROW_LIMIT := number_from env "MARIADB_ROW_LIMIT" 1000 |}.

End DbConstants.

(** ** [v1/test-server.mjs]: the tools of the server over [v1/db.js] *)

Module V1Server.
Import Driver Exec.

(** What a tool throws: the error of a schema that refuses the
    arguments, at the field named, or another error. *)
Inductive thrown :=
| ZodError (field : string)
| Raised (error : js_error).

(** The promise that the request handler returns. *)
Inductive settled :=
| Fulfilled (r : tool_result)
| Rejected (e : thrown).

(** The end of a tool: [rows] of the result is rendered; an error of
    [executeQuery] is not caught. *)
Definition rendered (run : Db.registry * (list event * outcome js_object))
    : Db.registry * (list event * settled) :=
  let '(reg, (calls, r)) := run in
  (reg,
   (calls,
    match r with
    | Returned result => Fulfilled (Content (default JsUndefined (result !! "rows")))
    | Thrown e => Rejected (Raised e)
    end)).

(** [parsed.database ?? config.database] *)
Definition database_of (cfg : Db.config) (arguments : gmap string string)
    : option string :=
  match arguments !! "database" with
  | Some d => Some d
  | None => Db.database cfg
  end.

Definition database_required : thrown :=
  Raised (McpError InvalidParams "O nome do banco de dados é obrigatório").

Definition show_databases (cfg : Db.config) (st : Db.settings)
    (driver : nat → pool) (reg : Db.registry)
    : Db.registry * (list event * settled) :=
  rendered (Db.executeQuery cfg st driver "SHOW DATABASES" None reg).

Definition show_tables (cfg : Db.config) (st : Db.settings)
    (driver : nat → pool) (arguments : gmap string string)
    (reg : Db.registry) : Db.registry * (list event * settled) :=
  match truthy (database_of cfg arguments) with
  | None => (reg, ([], Rejected database_required))
  | Some database =>
      rendered
        (Db.executeQuery cfg st driver "SHOW FULL TABLES" (Some database) reg)
  end.

(** The schema requires [table]. *)
Definition describe_table (cfg : Db.config) (st : Db.settings)
    (driver : nat → pool) (arguments : gmap string string)
    (reg : Db.registry) : Db.registry * (list event * settled) :=
  match arguments !! "table" with
  | None => (reg, ([], Rejected (ZodError "table")))
  | Some table =>
      match truthy (database_of cfg arguments) with
      | None => (reg, ([], Rejected database_required))
      | Some database =>
          if String.eqb table "" then
            (reg,
             ([], Rejected
                    (Raised
                       (McpError InvalidParams
                          "O nome da tabela é obrigatório"))))
          else
            rendered
              (Db.executeQuery cfg st driver ("DESCRIBE `" +:+ table +:+ "`")
                 (Some database) reg)
      end
  end.

(** The schema requires [sql]. *)
Definition run_query (cfg : Db.config) (st : Db.settings)
    (driver : nat → pool) (arguments : gmap string string)
    (reg : Db.registry) : Db.registry * (list event * settled) :=
  match arguments !! "sql" with
  | None => (reg, ([], Rejected (ZodError "sql")))
  | Some query =>
      match truthy (database_of cfg arguments) with
      | None => (reg, ([], Rejected database_required))
      | Some database =>
          if String.eqb query "" then
            (reg,
             ([], Rejected
                    (Raised
                       (McpError InvalidParams
                          "Faltando comando SQL (MySQL)"))))
          else
            rendered (Db.executeQuery cfg st driver query (Some database) reg)
      end
  end.

Definition tools : list string :=
  ["show_databases"; "show_tables"; "describe_table"; "run_query"].

(** The handler of [CallToolRequestSchema]: the promise of a tool is
    returned without [await], so that the [catch] of the handler sees the
    error of the [default] branch only. *)
Definition callTool (cfg : Db.config) (st : Db.settings)
    (driver : nat → pool) (name : string) (arguments : gmap string string)
    (reg : Db.registry) : Db.registry * (list event * settled) :=
  if String.eqb name "show_databases" then show_databases cfg st driver reg
  else if String.eqb name "show_tables" then
    show_tables cfg st driver arguments reg
  else if String.eqb name "describe_table" then
    describe_table cfg st driver arguments reg
  else if String.eqb name "run_query" then
    run_query cfg st driver arguments reg
  else
    (reg,
     ([], Fulfilled
            (IsError
               (McpError MethodNotFound
                  ("[Error] Ferramenta desconhecida: " +:+ name))))).

End V1Server.

(** ** [server-mcp.cjs]: the policy *)

Module ServerMcp.
Import JsString.

Definition ALLOWED_COMMANDS : list string :=
  ["SELECT"; "SHOW"; "DESCRIBE"; "DESC"; "EXPLAIN"; "INSERT"; "UPDATE";
   "DELETE"].

Definition DISALLOWED_COMMANDS : list string :=
  ["INSERT"; "UPDATE"; "DELETE"; "DROP"; "CREATE"; "ALTER"; "TRUNCATE";
   "RENAME"; "REPLACE"; "GRANT"; "REVOKE"; "LOCK"; "UNLOCK"; "CALL"; "EXEC";
   "EXECUTE"; "SET"; "START"; "BEGIN"; "COMMIT"; "ROLLBACK"].

(** [value === text] for a boolean [value]: a boolean is not strictly
    equal to a string.  The fields [allow_insert], [allow_update] and
    [allow_delete] of [config] hold the booleans that [getConfigFromEnv]
    of the file computes. *)
Definition strictly_equals (value : bool) (text : string) : bool := false.

(** [config] has the fields of the configuration of [v1/db.js]. *)
Definition isAlloowedQuery (config : Db.config) (sql : string) : bool :=
  if String.eqb sql "" then false
  else
    let normalizedQuery := normalize sql in
    let ALLOW_INSERT := strictly_equals (Db.allow_insert config) "true" in
    let ALLOW_UPDATE := strictly_equals (Db.allow_update config) "true" in
    let ALLOW_DELETE := strictly_equals (Db.allow_delete config) "true" in
    let startsWithAllowed :=
      existsb
        (λ cmd, startsWith (cmd +:+ " ") normalizedQuery
                || String.eqb normalizedQuery cmd)
        ALLOWED_COMMANDS in
    let containsDisallowed :=
      existsb
        (λ cmd,
           if String.eqb cmd "INSERT" && negb ALLOW_INSERT then false
           else if String.eqb cmd "UPDATE" && negb ALLOW_UPDATE then false
           else if String.eqb cmd "DELETE" && negb ALLOW_DELETE then false
           else test_delimited cmd true normalizedQuery)
        DISALLOWED_COMMANDS in
    let hasMultipleStatements :=
      includes ";" normalizedQuery && negb (endsWith ";" normalizedQuery) in
    startsWithAllowed && negb containsDisallowed && negb hasMultipleStatements.

(** The configuration with the three permissions granted. *)
Definition grant_all (config : Db.config) : Db.config :=
  {| Db.host := Db.host config; Db.port := Db.port config;
     Db.user := Db.user config; Db.password := Db.password config;
     Db.database := Db.database config;
     Db.allow_insert := true; Db.allow_update := true;
     Db.allow_delete := true |}.

End ServerMcp.

(** ** [server-mcp-v2.cjs]: the configuration *)

Module ServerMcpV2Config.
Import Exec SharedConnection.

Inductive loaded :=
| Loaded (config : Db.config)
| Failed (e : V1Server.thrown).

(** The number given to the schema of [port]: the variable tested is
    [MARIADB_PORTr], the one parsed is [MARIADB_PORT]; [parseInt] of
    [undefined] is [NaN]. *)
Definition port_number (env : environment) : option Z :=
  match truthy (env !! "MARIADB_PORTr") with
  | Some _ => env !! "MARIADB_PORT" ≫= parseInt10
  | None => Some 3306%Z
  end.

Definition required (name : string) : V1Server.thrown :=
  V1Server.Raised
    (McpError InvalidParams (name +:+ " variável de ambiente é obrigatória")).

(** [getConfigFromEnv()], for the environment after [dotenv.config()].
    The schemas of [host], [user] and [password] refuse [undefined], and
    the one of [port] refuses [NaN]. *)
Definition getConfigFromEnv (env : environment) : loaded :=
  match env !! "MARIADB_HOST" with
  | None => Failed (V1Server.ZodError "host")
  | Some host =>
  match port_number env with
  | None => Failed (V1Server.ZodError "port")
  | Some port =>
  match env !! "MARIADB_USER" with
  | None => Failed (V1Server.ZodError "user")
  | Some user =>
  match env !! "MARIADB_PASSWORD" with
  | None => Failed (V1Server.ZodError "password")
  | Some password =>
      if String.eqb host "" then Failed (required "MARIADB_HOST")
      else if String.eqb user "" then Failed (required "MARIADB_USER")
      else if String.eqb password "" then Failed (required "MARIADB_PASSWORD")
      else
        Loaded
          {| Db.host := host; Db.port := port; Db.user := user;
             Db.password := password;
             Db.database := env !! "MARIADB_DATABASE";
             Db.allow_insert := env_is_true env "MARIADB_ALLOW_INSERT";
             Db.allow_update := env_is_true env "MARIADB_ALLOW_UPDATE";
             Db.allow_delete := env_is_true env "MARIADB_ALLOW_DELETE" |}
  end end end end.

End ServerMcpV2Config.

(** ** [server-mcp.cjs] and [server-mcp-v2.cjs]: [executeQuery] *)

(** These files open a connection for each call.  [getConnection] of the
    driver stands for [mariadb.createConnection], which [Acquired]
    records, and [Released] records [connection.end()]. *)

Module Standalone.
Import Driver Exec.

(** [executeQuery(sql, database)] of [server-mcp.cjs]. *)
Definition server_mcp_executeQuery (config : Db.config) (p : pool)
    (sql : string) (database : option string)
    : list event * outcome js_object :=
  let '(s, r) :=
    (c ← pool_getConnection p;
     set_connection_var c;;
     try_catch_finally
       (match truthy database with
        | Some d => connection_query p c ("USE `" +:+ d +:+ "`") [];; mret tt
        | None => mret tt
        end;;
        (if negb (ServerMcp.isAlloowedQuery config sql)
         then throw (Error "SQL não permitido") else mret tt);;
        '(rows, fields) ← connection_query p c sql [];
        mret ({[ "rows" := Connection.limitedRows rows; "fields" := fields ]}
              : js_object))
       (λ error, release_if_connected;; throw error)
       release_if_connected)
      {| connection_var := None; trace := [] |} in
  (trace s, r).

(** [executeQuery(sql, database)] of [server-mcp-v2.cjs]; [text_of] is the
    text that an error gives when it is used as the message of the
    [McpError] of the [catch] block. *)
Definition server_mcp_v2_executeQuery (text_of : js_error → string)
    (config : Db.config) (p : pool) (sql : string) (database : option string)
    : list event * outcome js_object :=
  let '(s, r) :=
    (c ← pool_getConnection p;
     set_connection_var c;;
     try_catch_finally
       (match truthy database with
        | Some d => connection_query p c ("USE `" +:+ d +:+ "`") [];; mret tt
        | None => mret tt
        end;;
        (if negb (ServerMcpV2.isAlloowedQuery config sql)
         then throw (McpError InvalidParams "SQL não permitido")
         else mret tt);;
        '(rows, fields) ← connection_query p c sql [];
        mret ({[ "rows" := Connection.limitedRows rows; "fields" := fields ]}
              : js_object))
       (λ error,
          release_if_connected;;
          throw (McpError InvalidParams (text_of error)))
       release_if_connected)
      {| connection_var := None; trace := [] |} in
  (trace s, r).

(** The number of calls of [end] that go with a completion. *)
Definition ends_expected {A} (r : outcome A) : nat :=
  match r with
  | Returned _ => 1
  | Thrown _ => 2
  end.

End Standalone.

(** ** What a statement sent to the server is *)

Module Sent.
Import Exec.

(** The statement is the [USE] statement of the database of the call, or
    it is the statement of the call and [accepted] holds. *)
Definition justified (accepted : bool) (sql : string)
    (database : option string) (statement : string) : Prop :=
  (∃ d, truthy database = Some d ∧ statement = "USE `" +:+ d +:+ "`")
  ∨ (statement = sql ∧ accepted = true).

End Sent.

(** ** The pool that a call of the connection module runs on *)

Module Use.

(** The module holds the pool [pool], or holds none, the configuration
    can be read, and [pool] is the one that [createConnectionPool] makes
    next. *)
Definition pool_in_use (env : environment)
    (st : SharedConnection.module_state) (pool : nat) : Prop :=
  match SharedConnection.pool_var st with
  | Some q => q = pool
  | None =>
      (∃ config, SharedConnection.getConfigFromEnv env = Returned config)
      ∧ pool = length (SharedConnection.created st)
  end.

(** A configuration of [v1/db.js] whose key is [__proto__]. *)
Definition config_proto : Db.config :=
  {| Db.host := "_"; Db.port := 3306; Db.user := "proto";
     Db.password := "secret"; Db.database := Some "_";
     Db.allow_insert := false; Db.allow_update := false;
     Db.allow_delete := false |}.

End Use.

(** * Properties *)

(** Unfolding of the steps of an executor, and case analysis on the answers
    of the driver and of the policy that the goal depends on. *)
Ltac unfold_exec :=
  unfold Exec.try_catch_finally, Exec.pool_getConnection,
    Exec.connection_query, Exec.connection_query_race,
    Exec.release_if_connected, Exec.connection_release,
    Exec.set_connection_var, Exec.record, Exec.settle, Exec.throw,
    Exec.get_connection_var, mbind, Exec.exec_bind, mret, Exec.exec_ret in *.

Ltac case_answers :=
  repeat (match goal with
          | |- context [Driver.query ?p ?q] =>
              destruct (Driver.query p q) as [[??]|?]
          | |- context [ValidatorsV2.isAlloowedQuery ?env ?sql] =>
              destruct (ValidatorsV2.isAlloowedQuery env sql)
          | |- context [Driver.outlasts_timeout ?p ?sql] =>
              destruct (Driver.outlasts_timeout p sql)
          | |- context [Connection.destructure_pair ?v] =>
              destruct (Connection.destructure_pair v) as [[??]|?]
          end; simpl).

(** ** The white-space delimited test *)

Section TestDelimited.
Import JsString Occurrence.

Lemma startsWith_app (w post : string) : startsWith w (w +:+ post) = true.
Proof.
  induction w as [|c w IH]; simpl; [done|].
  by rewrite Ascii.eqb_refl, IH.
Qed.

Lemma startsWith_inv (w s : string) :
  startsWith w s = true → ∃ post, s = w +:+ post.
Proof.
  revert s. induction w as [|c w IH]; intros s H; simpl in *.
  - by exists s.
  - destruct s as [|b s]; [done|].
    apply andb_true_iff in H as [Hc Hw].
    apply Ascii.eqb_eq in Hc as ->.
    destruct (IH _ Hw) as [post ->]. by exists post.
Qed.

Lemma followed_by_space_or_end_app (w post : string) :
  followed_by_space_or_end w (w +:+ post) = true
  ↔ boundary is_space (first_char post).
Proof.
  unfold followed_by_space_or_end.
  induction w as [|c w IH]; simpl; [|exact IH].
  destruct post as [|b post]; simpl; [done|].
  by destruct post.
Qed.

Lemma last_char_None (s : string) : last_char s = None → s = "".
Proof.
  induction s as [|c s IH]; [done|]. simpl. destruct s; [done|].
  intros H. by apply IH in H.
Qed.

(** The scan finds every occurrence whose left neighbour is a white-space
    character, and one at the very start when [at_left] holds. *)
Lemma test_delimited_complete_gen (cmd pre post : string) (at_left : bool) :
  match last_char pre with
  | None => at_left = true
  | Some c => is_space c = true
  end →
  boundary is_space (first_char post) →
  test_delimited cmd at_left (pre +:+ cmd +:+ post) = true.
Proof.
  revert at_left. induction pre as [|c pre IH]; intros at_left Hl Hr.
  - simpl in Hl. subst at_left. change ("" +:+ cmd +:+ post) with (cmd +:+ post).
    destruct (cmd +:+ post) eqn:E; simpl; rewrite <- E;
      rewrite startsWith_app;
      by rewrite (proj2 (followed_by_space_or_end_app cmd post) Hr).
  - change (String c pre +:+ cmd +:+ post)
      with (String c (pre +:+ cmd +:+ post)).
    simpl. rewrite (IH (is_space c)); [by rewrite orb_true_r| |done].
    destruct pre as [|a pre]; [done|].
    change (last_char (String c (String a pre)))
      with (last_char (String a pre)) in Hl.
    destruct (last_char (String a pre)) eqn:E; [done|].
    by apply last_char_None in E.
Qed.

Lemma test_delimited_sound_gen (cmd s : string) (at_left : bool) :
  test_delimited cmd at_left s = true →
  ∃ pre post,
    s = pre +:+ cmd +:+ post
    ∧ match last_char pre with
      | None => at_left = true
      | Some c => is_space c = true
      end
    ∧ boundary is_space (first_char post).
Proof.
  revert at_left. induction s as [|c s IH]; intros at_left H.
  - simpl in H. rewrite orb_false_r in H.
    apply andb_true_iff in H as [H Hf]. apply andb_true_iff in H as [Ha Hs].
    destruct (startsWith_inv _ _ Hs) as [post E].
    exists "", post. split; [done|]. split; [done|].
    rewrite E in Hf. exact (proj1 (followed_by_space_or_end_app _ _) Hf).
  - cbn [test_delimited] in H. apply orb_true_iff in H as [H|H].
    + apply andb_true_iff in H as [H Hf]. apply andb_true_iff in H as [Ha Hs].
      destruct (startsWith_inv _ _ Hs) as [post E].
      exists "", post. split; [done|]. split; [done|].
      rewrite E in Hf. exact (proj1 (followed_by_space_or_end_app _ _) Hf).
    + destruct (IH _ H) as (pre & post & -> & Hl & Hr).
      exists (String c pre), post. split; [done|]. split; [|done].
      destruct pre as [|a pre]; [done|].
      change (last_char (String c (String a pre)))
        with (last_char (String a pre)).
      destruct (last_char (String a pre)) eqn:E; [done|].
      by apply last_char_None in E.
Qed.

(** The regular expression test is exactly the white-space delimited
    occurrence. *)
Lemma test_delimited_spec (cmd s : string) :
  test_delimited cmd true s = true ↔ whitespace_delimited cmd s.
Proof.
  split.
  - intros H. destruct (test_delimited_sound_gen _ _ _ H)
      as (pre & post & -> & Hl & Hr).
    exists pre, post. split; [done|]. split; [|done].
    unfold boundary. by destruct (last_char pre).
  - intros (pre & post & -> & Hl & Hr).
    apply test_delimited_complete_gen; [|done].
    unfold boundary in Hl. by destruct (last_char pre).
Qed.

End TestDelimited.

(** ** The statement policy of [v2/src/validators.ts] *)

Section PolicyV2.
Import JsString Occurrence ValidatorsV2.

Lemma existsb_ext_in {A} (f g : A → bool) (l : list A) :
  (∀ x, In x l → f x = g x) → existsb f l = existsb g l.
Proof.
  induction l as [|a l IH]; intros H; simpl; [done|].
  rewrite (H a), IH; [done| |]; intros; try apply H; simpl; auto.
Qed.

(** No entry of [DISALLOWED_COMMANDS] is [INSERT], [UPDATE] or [DELETE]:
    on the list, the callback is the regular expression test alone. *)
Lemma disallowed_in_listed (ai au ad : bool) (n cmd : string) :
  In cmd DISALLOWED_COMMANDS →
  disallowed_in ai au ad n cmd = test_delimited cmd true n.
Proof.
  unfold DISALLOWED_COMMANDS. simpl.
  intros H. repeat (destruct H as [<-|H]; [reflexivity|]). done.
Qed.

(** What [isAlloowedQuery] computes, with the branches that no entry of
    the list takes removed. *)
Lemma isAlloowedQuery_unfold (env : environment) (query : string) :
  isAlloowedQuery env query =
  existsb
    (λ cmd, startsWith (cmd +:+ " ") (normalize query)
            || String.eqb (normalize query) cmd)
    ALLOWED_COMMANDS
  && negb (existsb (λ cmd, test_delimited cmd true (normalize query))
             DISALLOWED_COMMANDS)
  && negb (includes ";" (normalize query)
           && negb (endsWith ";" (normalize query))).
Proof.
  unfold isAlloowedQuery. cbv zeta.
  rewrite (existsb_ext_in (disallowed_in _ _ _ (normalize query))
             (λ cmd, test_delimited cmd true (normalize query))); [done|].
  intros cmd Hin. by apply disallowed_in_listed.
Qed.

(** The permission variables have no effect on the decision. *)
Lemma isAlloowedQuery_ignores_env (env env' : environment) (query : string) :
  isAlloowedQuery env query = isAlloowedQuery env' query.
Proof. by rewrite !isAlloowedQuery_unfold. Qed.

(** A statement with a semicolon that is not its last character is
    rejected, and a single trailing semicolon is accepted. *)
Lemma isAlloowedQuery_multiple_statements (env : environment) (query : string) :
  includes ";" (normalize query) = true →
  endsWith ";" (normalize query) = false →
  isAlloowedQuery env query = false.
Proof.
  intros Hi He. rewrite isAlloowedQuery_unfold, Hi, He. simpl.
  by rewrite andb_false_r.
Qed.

Lemma isAlloowedQuery_examples (env : environment) :
  isAlloowedQuery env "SELECT 1; DROP TABLE x" = false
  ∧ isAlloowedQuery env "SELECT 1;" = true
  ∧ isAlloowedQuery env "select * FROM t" = true.
Proof. rewrite !(isAlloowedQuery_ignores_env env ∅). by vm_compute. Qed.

End PolicyV2.

(** The policy of [v1/test-server.mjs] does gate the write verbs on the
    permissions of the configuration. *)
Lemma server_v1_gates_insert (config : Db.config) :
  ServerV1.isAllowedQuery config "INSERT INTO t VALUES (1)"
  = Db.allow_insert config
  ∧ ServerV1.isAllowedQuery config "DELETE FROM t WHERE id = 1"
    = Db.allow_delete config.
Proof.
  destruct config as [h po u pw d [] [] []]; split; by vm_compute.
Qed.

(** C1 (as amended): for every query whose normalized text contains a verb
    of [DISALLOWED_COMMANDS] preceded by the start of the text or a
    white-space character and followed by a white-space character or the end
    of the text, [isAlloowedQuery] of [v2/src/validators.ts] returns [false],
    whatever the leading verb and the permission variables; in particular it
    returns [false] on [SHOW TABLES; SET autocommit=0]. *)
Theorem delimited_verb_denied (env : environment) :
  (∀ query cmd,
      In cmd ValidatorsV2.DISALLOWED_COMMANDS →
      Occurrence.whitespace_delimited cmd (normalize query) →
      ValidatorsV2.isAlloowedQuery env query = false)
  ∧ ValidatorsV2.isAlloowedQuery env "SHOW TABLES; SET autocommit=0" = false.
Proof.
  assert (H : ∀ query cmd,
      In cmd ValidatorsV2.DISALLOWED_COMMANDS →
      Occurrence.whitespace_delimited cmd (normalize query) →
      ValidatorsV2.isAlloowedQuery env query = false).
  { intros query cmd Hin Hocc. rewrite isAlloowedQuery_unfold.
    apply test_delimited_spec in Hocc.
    assert (He : existsb
      (λ c, JsString.test_delimited c true (normalize query))
      ValidatorsV2.DISALLOWED_COMMANDS = true).
    { apply existsb_exists. by exists cmd. }
    rewrite He. simpl. by rewrite andb_false_r. }
  split; [exact H|].
  apply (H _ "SET").
  - unfold ValidatorsV2.DISALLOWED_COMMANDS. simpl. tauto.
  - exists "SHOW TABLES; ", " AUTOCOMMIT=0". by vm_compute.
Qed.

Lemma delimited_verb_denied_witness :
  ValidatorsV2.isAlloowedQuery ∅ "SELECT id FROM t WHERE REPLACE (a, 'x', 'y') = 'z'"
  = false.
Proof.
  apply (proj1 (delimited_verb_denied ∅) _ "REPLACE").
  - unfold ValidatorsV2.DISALLOWED_COMMANDS. simpl. tauto.
  - exists "SELECT ID FROM T WHERE ", " (A, 'X', 'Y') = 'Z'". by vm_compute.
Defined.

(** C1 (counterexample): [REPLACE] is on the list and stands as a whole word
    in the normalized text of [SELECT REPLACE(name,'a','b') FROM t], its
    neighbours being a space and a parenthesis, and [isAlloowedQuery]
    accepts the query. *)
Lemma whole_word_verb_accepted :
  In "REPLACE" ValidatorsV2.DISALLOWED_COMMANDS
  ∧ Occurrence.whole_word "REPLACE"
      (normalize "SELECT REPLACE(name,'a','b') FROM t")
  ∧ ValidatorsV2.isAlloowedQuery ∅ "SELECT REPLACE(name,'a','b') FROM t" = true.
Proof.
  split; [unfold ValidatorsV2.DISALLOWED_COMMANDS; simpl; tauto|].
  split; [|by vm_compute].
  exists "SELECT ", "(NAME,'A','B') FROM T". by vm_compute.
Qed.

(** C2 (code at the failing input): with no permission variable set,
    [isAlloowedQuery] of [v2/src/validators.ts] accepts an [INSERT] and
    a [DELETE] statement, and its result never depends on the permission
    variables; [isAllowedQuery] of [src/validators.ts] accepts
    the same statements. *)
Theorem write_verbs_accepted_without_permission :
  ValidatorsV2.isAlloowedQuery ∅ "INSERT INTO t VALUES (1)" = true
  ∧ ValidatorsV2.isAlloowedQuery ∅ "DELETE FROM t WHERE id = 1" = true
  ∧ (∀ env env' query,
       ValidatorsV2.isAlloowedQuery env query
       = ValidatorsV2.isAlloowedQuery env' query)
  ∧ Validators.isAllowedQuery ∅ "INSERT INTO t VALUES (1)" = true
  ∧ Validators.isAllowedQuery ∅ "DELETE FROM t WHERE id = 1" = true.
Proof.
  split; [by vm_compute|]. split; [by vm_compute|].
  split; [apply isAlloowedQuery_ignores_env|]. by split.
Qed.

(** C3 (code at the failing input): the normalized text of
    [SELECT 1; DROP TABLE x] has a semicolon that is not its last character,
    and [isAllowedQuery] of [src/validators.ts] returns [true] on it, as on
    every query, so that [validateQuery] lets it through. *)
Theorem multiple_statements_accepted :
  JsString.includes ";" (normalize "SELECT 1; DROP TABLE x") = true
  ∧ JsString.endsWith ";" (normalize "SELECT 1; DROP TABLE x") = false
  ∧ Validators.isAllowedQuery ∅ "SELECT 1; DROP TABLE x" = true
  ∧ Validators.validateQuery ∅ "SELECT 1; DROP TABLE x" = Returned tt
  ∧ (∀ env query, Validators.isAllowedQuery env query = true).
Proof. repeat split; by vm_compute. Qed.

(** ** Release of the connection by the executors *)

Section Releases.
Import Driver Exec.

(** [v1/db.js]: once a connection is acquired, it is released exactly
    once, whether the statements succeed or fail. *)
Lemma db_executeQuery_releases_once (p : pool) (c : connection)
    (sql : string) (database : option string) (st : Db.settings)
    (s : exec_state) :
  connection_var s = Some c →
  releases c (trace s) = 0 →
  releases c (trace (Db.executeQuery_try p c sql database st s).1) = 1.
Proof.
  intros Hc H0. destruct s as [cv tr]. simpl in Hc, H0. subst cv.
  unfold Db.executeQuery_try. unfold_exec.
  destruct (truthy database) as [d|]; simpl; case_answers;
    unfold releases in *; rewrite ?List.filter_app, ?length_app, ?H0; simpl;
    by rewrite ?Nat.eqb_refl.
Qed.

(** The connection module of [src/index.ts]: a call releases the shared
    connection once when it succeeds and twice when it fails, whether the
    connection was acquired by this call or left by an earlier one. *)
Lemma shared_executeQuery_releases (env : environment) (p : pool)
    (sql : string) (params : list js_value) (database : option string)
    (held : option connection) (c : connection) :
  Run.holds_or_acquires held p c →
  let run :=
    SharedConnection.executeQuery_try env p sql params database
      {| connection_var := held; trace := [] |} in
  releases c (trace run.1)
  = match run.2 with
    | Returned _ => 1
    | Thrown _ => 2
    end
  ∧ connection_var run.1 = Some c.
Proof.
  intros Hc. unfold Run.holds_or_acquires in Hc.
  unfold SharedConnection.executeQuery_try. unfold_exec.
  simpl. destruct held as [c'|]; [subst c'|rewrite Hc]; simpl;
    (destruct (truthy database) as [d|]; simpl; case_answers;
     unfold releases; simpl; by rewrite ?Nat.eqb_refl).
Qed.

(** After a first call, the module keeps the released connection: the
    next call acquires none, runs its statement on that connection and
    releases it again. *)
Lemma shared_connection_reused_after_release :
  let driver := λ _ : nat, Examples.answering (JsArray []) in
  let first :=
    SharedConnection.executeQuery Examples.valid_env driver "SELECT 1" []
      None SharedConnection.initial in
  first.2.1 = [Acquired 1; Queried 1 "SELECT 1" []; Released 1]
  ∧ (SharedConnection.executeQuery Examples.valid_env driver "SELECT 2" []
       None first.1).2.1
    = [Queried 1 "SELECT 2" []; Released 1].
Proof. split; by vm_compute. Qed.

End Releases.

(** C4 (the code on its exit paths): in [executeQuery] of
    [src/connection.ts], once the connection is acquired, [release] is
    called on it once when the call succeeds and twice when it fails,
    whatever the failure: the [USE] statement, the policy, the statement
    itself or the timer.  The same holds in [executeQuery] of the connection
    module of [src/index.ts], on the connection that the call acquires or
    that the module still holds. *)
Theorem release_called_twice_on_failure :
  (∀ (env : environment) (p : Driver.pool) (sql : string)
     (params : list js_value) (database : option string)
     (c : Driver.connection),
      Driver.getConnection p = Returned c →
      Driver.releases c (Connection.executeQuery env p sql params database).1
      = match (Connection.executeQuery env p sql params database).2 with
        | Returned _ => 1
        | Thrown _ => 2
        end)
  ∧ (∀ (env : environment) (p : Driver.pool) (sql : string)
       (params : list js_value) (database : option string)
       (held : option Driver.connection) (c : Driver.connection),
      Run.holds_or_acquires held p c →
      let run :=
        SharedConnection.executeQuery_try env p sql params database
          {| Exec.connection_var := held; Exec.trace := [] |} in
      Driver.releases c (Exec.trace run.1)
      = match run.2 with
        | Returned _ => 1
        | Thrown _ => 2
        end).
Proof.
  split.
  - intros env p sql params database c Hc.
    unfold Connection.executeQuery, Connection.executeQuery_body.
    unfold_exec. rewrite Hc. simpl.
    destruct (Exec.truthy database) as [d|]; simpl; case_answers;
      unfold Driver.releases; simpl; by rewrite ?Nat.eqb_refl.
  - intros env p sql params database held c Hc.
    exact (proj1 (shared_executeQuery_releases env p sql params database
                    held c Hc)).
Qed.

Lemma release_called_twice_on_failure_witness :
  Connection.executeQuery ∅ (Examples.answering (JsArray [])) "DROP TABLE x" []
    None
  = ([Driver.Acquired 1; Driver.Released 1; Driver.Released 1],
     Thrown (Error "Query not allowed"))
  ∧ Driver.releases 1
      (Connection.executeQuery ∅ (Examples.answering (JsArray []))
         "DROP TABLE x" [] None).1 = 2.
Proof.
  split; [by vm_compute|].
  exact (proj1 release_called_twice_on_failure ∅
           (Examples.answering (JsArray [])) "DROP TABLE x" [] None 1 eq_refl).
Defined.

(** ** The success and timeout paths of [src/connection.ts] *)

Section ConnectionPaths.
Import Driver Exec Connection Run.

(** The run of a statement that the policy accepts, on a connection that
    was acquired and switched to the database. *)
Lemma executeQuery_accepted (env : environment) (p : pool) (sql : string)
    (params : list js_value) (database : option string) (c : connection) :
  getConnection p = Returned c →
  use_succeeds p database →
  ValidatorsV2.isAlloowedQuery env sql = true →
  executeQuery env p sql params database =
  if outlasts_timeout p sql then
    (prologue c database ++ [Queried c sql params; Released c; Released c],
     Thrown (Error "Query timeout"))
  else
    match query p sql with
    | Returned answer =>
        match destructure_pair (resolved answer) with
        | Returned (rows, fields) =>
            (prologue c database ++ [Queried c sql params; Released c],
             Returned {[ "rows" := limitedRows rows; "fields" := fields ]})
        | Thrown e =>
            (prologue c database
             ++ [Queried c sql params; Released c; Released c],
             Thrown e)
        end
    | Thrown e =>
        (prologue c database ++ [Queried c sql params; Released c; Released c],
         Thrown e)
    end.
Proof.
  intros Hc Hu Ha.
  unfold executeQuery, executeQuery_body, prologue, use_succeeds in *.
  unfold_exec. rewrite Hc, Ha. simpl.
  destruct (truthy database) as [d|]; simpl.
  - destruct (Hu d eq_refl) as [v ->]. simpl.
    destruct (outlasts_timeout p sql); simpl; [done|].
    destruct (query p sql) as [answer|?]; simpl; [|done].
    by destruct (destructure_pair (resolved answer)) as [[??]|?].
  - destruct (outlasts_timeout p sql); simpl; [done|].
    destruct (query p sql) as [answer|?]; simpl; [|done].
    by destruct (destructure_pair (resolved answer)) as [[??]|?].
Qed.

(** The same for the connection module of [src/index.ts]. *)
Lemma shared_executeQuery_try_accepted (env : environment) (p : pool)
    (sql : string) (params : list js_value) (database : option string)
    (held : option connection) (c : connection) :
  holds_or_acquires held p c →
  use_succeeds p database →
  ValidatorsV2.isAlloowedQuery env sql = true →
  SharedConnection.executeQuery_try env p sql params database
    {| connection_var := held; trace := [] |} =
  match query p sql with
  | Returned (rows, fields) =>
      ({| connection_var := Some c;
          trace := shared_prologue held c database
                   ++ [Queried c sql []; Released c] |},
       Returned
         {[ "rows" := SharedConnection.limitedRows rows; "fields" := fields ]})
  | Thrown e =>
      ({| connection_var := Some c;
          trace := shared_prologue held c database
                   ++ [Queried c sql []; Released c; Released c] |},
       Thrown e)
  end.
Proof.
  intros Hc Hu Ha.
  unfold SharedConnection.executeQuery_try, shared_prologue,
    holds_or_acquires, use_succeeds in *.
  unfold_exec. rewrite Ha. simpl.
  destruct held as [c'|]; [subst c'|rewrite Hc]; simpl;
    (destruct (truthy database) as [d|]; simpl;
     [destruct (Hu d eq_refl) as [v ->]; simpl|];
     by destruct (query p sql) as [[??]|?]).
Qed.

Lemma statements_app (l1 l2 : list event) :
  statements (l1 ++ l2) = statements l1 ++ statements l2.
Proof. apply omap_app. Qed.

Lemma statements_releases (c : connection) (tail : list event) :
  (∀ e, In e tail → e = Released c) → statements tail = [].
Proof.
  induction tail as [|e tail IH]; intros Ht; [done|].
  rewrite (Ht e) by (simpl; auto). change (statements tail = []).
  apply IH. intros e' He'. apply Ht. simpl. auto.
Qed.

(** The statements of a call that has no database to switch to. *)
Lemma shared_statements_without_database (held : option connection)
    (c : connection) (sql : string) (params : list js_value)
    (tail : list event) :
  (∀ e, In e tail → e = Released c) →
  statements (shared_prologue held c None ++ Queried c sql params :: tail)
  = [sql].
Proof.
  intros Ht. rewrite statements_app.
  change (statements (Queried c sql params :: tail))
    with (sql :: statements tail).
  rewrite (statements_releases c tail Ht). by destruct held.
Qed.

Lemma limitedRows_long (items : list js_value) :
  DEFAULT_ROW_LIMIT < length items →
  limitedRows (JsArray items) = JsArray (take DEFAULT_ROW_LIMIT items)
  ∧ length (take DEFAULT_ROW_LIMIT items) = DEFAULT_ROW_LIMIT.
Proof.
  intros H. unfold limitedRows.
  destruct (Nat.ltb_spec DEFAULT_ROW_LIMIT (length items)); [|lia].
  split; [done|]. rewrite length_take. lia.
Qed.

Lemma limitedRows_short (items : list js_value) :
  length items ≤ DEFAULT_ROW_LIMIT →
  limitedRows (JsArray items) = JsArray items.
Proof.
  intros H. unfold limitedRows.
  by destruct (Nat.ltb_spec DEFAULT_ROW_LIMIT (length items)); [lia|].
Qed.

Lemma limitedRows_not_array (rows : js_value) :
  isArray rows = false → limitedRows rows = rows.
Proof. by destruct rows. Qed.

End ConnectionPaths.

(** C5 (as amended): when the statement is still running as the timer of
    [DEFAULT_TIMEOUT] fires, [executeQuery] of [src/connection.ts] fails
    with the error [Query timeout], and the connection is given back to the
    pool by [release]; the calls made on the driver end with that
    release. *)
Theorem timeout_raised_and_connection_released (env : environment)
    (p : Driver.pool) (sql : string) (params : list js_value)
    (database : option string) (c : Driver.connection) :
  Driver.getConnection p = Returned c →
  Run.use_succeeds p database →
  ValidatorsV2.isAlloowedQuery env sql = true →
  Driver.outlasts_timeout p sql = true →
  (Connection.executeQuery env p sql params database).2
  = Thrown (Error "Query timeout")
  ∧ In (Driver.Released c)
      (Connection.executeQuery env p sql params database).1
  ∧ last (Connection.executeQuery env p sql params database).1
    = Some (Driver.Released c).
Proof.
  intros Hc Hu Ha Ht. rewrite (executeQuery_accepted _ _ _ _ _ c) by done.
  rewrite Ht. cbn [fst snd]. split; [done|]. split.
  - apply in_app_iff. right. simpl. tauto.
  - by rewrite last_app.
Qed.

Lemma timeout_raised_and_connection_released_witness :
  (Connection.executeQuery ∅ Examples.slow "SELECT SLEEP(60)" [] (Some "shop")).2
  = Thrown (Error "Query timeout")
  ∧ In (Driver.Released 1)
      (Connection.executeQuery ∅ Examples.slow "SELECT SLEEP(60)" []
         (Some "shop")).1
  ∧ last (Connection.executeQuery ∅ Examples.slow "SELECT SLEEP(60)" []
            (Some "shop")).1
    = Some (Driver.Released 1).
Proof.
  apply (timeout_raised_and_connection_released ∅ Examples.slow
           "SELECT SLEEP(60)" [] (Some "shop") 1).
  - reflexivity.
  - intros d Hd. injection Hd as <-. by eexists.
  - by vm_compute.
  - reflexivity.
Defined.

(** C5 (counterexample): the statement [SELECT SLEEP(60)] outlasts the
    timer; the call fails with [Query timeout] and the calls made on the
    driver are the acquisition, the statement, and [release] on the
    connection: it is given back to the pool. *)
Lemma timed_out_connection_released :
  Driver.outlasts_timeout Examples.slow "SELECT SLEEP(60)" = true
  ∧ Connection.executeQuery ∅ Examples.slow "SELECT SLEEP(60)" [] None
    = ([Driver.Acquired 1; Driver.Queried 1 "SELECT SLEEP(60)" [];
        Driver.Released 1; Driver.Released 1],
       Thrown (Error "Query timeout")).
Proof. split; by vm_compute. Qed.

Section WholeCall.
Import Driver Exec.

(** A call of [executeQuery] of the connection module, on the pool in use,
    is its [try] statement run on the connection that the module holds. *)
Lemma shared_executeQuery_whole (env : environment) (driver : nat → pool)
    (sql : string) (params : list js_value) (database : option string)
    (st : SharedConnection.module_state) (pool : nat) :
  Use.pool_in_use env st pool →
  let run := SharedConnection.executeQuery env driver sql params database st in
  let attempt :=
    SharedConnection.executeQuery_try env (driver pool) sql params database
      {| connection_var := SharedConnection.shared_connection st;
         trace := [] |} in
  run.2 = (trace attempt.1, attempt.2)
  ∧ SharedConnection.pool_var run.1 = Some pool
  ∧ SharedConnection.shared_connection run.1 = connection_var attempt.1.
Proof.
  unfold Use.pool_in_use, SharedConnection.executeQuery. intros Hp.
  destruct (SharedConnection.pool_var st) as [q|] eqn:Eq.
  - subst q.
    destruct (SharedConnection.executeQuery_try env (driver pool) sql params
                database _) as [s r].
    by rewrite Eq.
  - destruct Hp as [[config Hc] ->].
    unfold SharedConnection.createConnectionPool. rewrite Hc, Eq.
    cbn [SharedConnection.shared_connection SharedConnection.pool_var].
    by destruct (SharedConnection.executeQuery_try env _ sql params
                   database _) as [s r].
Qed.

End WholeCall.




(** ** The pool registry of [v1/db.js] *)

Section PoolRegistry.
Import Db.

Lemma getPoolKey_same (cfg cfg' : config) :
  host cfg = host cfg' → user cfg = user cfg' →
  database cfg = database cfg' →
  getPoolKey cfg = getPoolKey cfg'.
Proof. unfold getPoolKey. by intros -> -> ->. Qed.

(** After [ensurePool], [pools[key]] is set. *)
Lemma ensurePool_present (cfg : config) (st : settings) (reg : registry) :
  is_Some (pools_get (ensurePool cfg st reg) (getPoolKey cfg)).
Proof.
  unfold ensurePool.
  destruct (pools_get reg (getPoolKey cfg)) as [r|] eqn:E.
  - rewrite E. by eexists.
  - unfold pools_get. simpl. rewrite lookup_insert_eq. by eexists.
Qed.

(** A key that is set keeps its pool through every later [ensurePool],
    whatever the configuration of that call. *)
Lemma ensurePool_preserves (cfg : config) (st : settings) (reg : registry)
    (key : string) :
  is_Some (pools_get reg key) →
  pools_get (ensurePool cfg st reg) key = pools_get reg key.
Proof.
  intros Hs. unfold ensurePool.
  destruct (pools_get reg (getPoolKey cfg)) as [r|] eqn:E; [done|].
  destruct (decide (getPoolKey cfg = key)) as [<-|Hne].
  - rewrite E in Hs. by destruct Hs.
  - unfold pools_get. simpl. by rewrite lookup_insert_ne.
Qed.

Lemma ensurePool_idle (cfg : config) (st : settings) (reg : registry) :
  is_Some (pools_get reg (getPoolKey cfg)) → ensurePool cfg st reg = reg.
Proof. intros [r E]. unfold ensurePool. by rewrite E. Qed.

Lemma ensurePool_many_preserves (others : list (config * settings))
    (reg : registry) (key : string) :
  is_Some (pools_get reg key) →
  pools_get (foldl (λ r cs, ensurePool cs.1 cs.2 r) reg others) key
  = pools_get reg key.
Proof.
  revert reg. induction others as [|[c s] others IH]; intros reg Hs; [done|].
  simpl. rewrite IH.
  - by apply ensurePool_preserves.
  - by rewrite ensurePool_preserves.
Qed.

End PoolRegistry.

(** C7 (the code at the failing input): the configuration with the host
    [_], the user [proto] and the database [_] has the key [__proto__].
    [pools] is an array, and under this name reading it gives the
    prototype of arrays: [pools[key]] is not falsy, so the first call
    creates no pool, fails with a [TypeError] before a connection is asked
    for, and leaves the registry as it was; every later call does the
    same.  No pool is ever created or returned for this key. *)
Theorem pool_not_created_for_inherited_key (st : Db.settings)
    (driver : nat → Driver.pool) (sql sql' : string)
    (database database' : option string) :
  Db.getPoolKey Use.config_proto = "__proto__"
  ∧ Db.inherited_property (Db.getPoolKey Use.config_proto) = true
  ∧ Db.executeQuery Use.config_proto st driver sql database Db.empty_registry
    = (Db.empty_registry,
       ([], Thrown (TypeError "pools[key].getConnection is not a function")))
  ∧ Db.executeQuery Use.config_proto st driver sql' database'
      (Db.executeQuery Use.config_proto st driver sql database
         Db.empty_registry).1
    = (Db.empty_registry,
       ([], Thrown (TypeError "pools[key].getConnection is not a function")))
  ∧ Db.created
      (Db.executeQuery Use.config_proto st driver sql' database'
         (Db.executeQuery Use.config_proto st driver sql database
            Db.empty_registry).1).1
    = [].
Proof.
  assert (Hkey : Db.getPoolKey Use.config_proto = "__proto__")
    by reflexivity.
  assert (Hget : Db.pools_get Db.empty_registry "__proto__"
                 = Some Db.Inherited) by reflexivity.
  assert (Hcall : ∀ q db,
    Db.executeQuery Use.config_proto st driver q db Db.empty_registry
    = (Db.empty_registry,
       ([], Thrown (TypeError "pools[key].getConnection is not a function")))).
  { intros q db. unfold Db.executeQuery, Db.ensurePool.
    by rewrite Hkey, Hget. }
  split; [done|]. split; [reflexivity|]. split; [apply Hcall|].
  rewrite (Hcall sql database). cbn [fst]. by rewrite Hcall.
Qed.

(** ** The statements of the tool handlers *)

Section Handlers.
Import Driver Exec SqlIdentifier.

Lemma read_quoted_plain (t : string) :
  JsString.includes "`" t = false →
  read_quoted (t +:+ "`") = Some (t, EmptyString).
Proof.
  induction t as [|c t IH]; intros H; [done|].
  simpl in H. apply orb_false_iff in H as [Hc Ht].
  change (String c t +:+ "`") with (String c (t +:+ "`")).
  cbn [read_quoted]. by rewrite Hc, (IH Ht).
Qed.

Lemma after_app (prefix rest : string) :
  after prefix (prefix +:+ rest) = Some rest.
Proof.
  induction prefix as [|c prefix IH]; [done|].
  simpl. by rewrite Ascii.eqb_refl.
Qed.

(** What the reader gives is shorter than what it read: the closing
    backtick, at least, is consumed. *)
Lemma read_quoted_length_bounded (n : nat) (s name rest : string) :
  String.length s ≤ n →
  read_quoted s = Some (name, rest) →
  String.length name + String.length rest < String.length s.
Proof.
  revert s name rest.
  induction n as [|n IH]; intros [|c s] name rest Hn H; try done.
  { simpl in Hn. lia. }
  simpl in Hn. cbn [read_quoted] in H. destruct (Ascii.eqb c "`").
  - destruct s as [|c' s'].
    + injection H as <- <-. simpl. lia.
    + destruct (Ascii.eqb c' "`").
      * destruct (read_quoted s') as [[m r]|] eqn:E; [|done].
        injection H as <- <-. apply IH in E; simpl in *; lia.
      * injection H as <- <-. simpl. lia.
  - destruct (read_quoted s) as [[m r]|] eqn:E; [|done].
    injection H as <- <-. apply IH in E; simpl in *; lia.
Qed.

Lemma read_quoted_length (s name rest : string) :
  read_quoted s = Some (name, rest) →
  String.length name + String.length rest < String.length s.
Proof. by apply (read_quoted_length_bounded (String.length s)). Qed.

Lemma length_append (s t : string) :
  String.length (s +:+ t) = String.length s + String.length t.
Proof. induction s as [|c s IH]; simpl; [done|]. by rewrite IH. Qed.

(** A name is read back as it was written, up to the closing backtick,
    exactly when it has no backtick. *)
Lemma confined_iff (t : string) :
  confined t ↔ JsString.includes "`" t = false.
Proof.
  split; [|apply read_quoted_plain].
  unfold confined. induction t as [|c t IH]; intros H; [done|].
  change (String c t +:+ "`") with (String c (t +:+ "`")) in H.
  cbn [read_quoted] in H. simpl. destruct (Ascii.eqb c "`") eqn:Ec.
  - exfalso. destruct t as [|c' t'].
    + simpl in H. discriminate H.
    + change (String c' t' +:+ "`") with (String c' (t' +:+ "`")) in H.
      cbv iota in H. destruct (Ascii.eqb c' "`") eqn:Ec'.
      * destruct (read_quoted (t' +:+ "`")) as [[m r]|] eqn:E; [|done].
        injection H as _ Hm Hr. subst m r.
        apply read_quoted_length in E. rewrite length_append in E.
        simpl in E. lia.
      * discriminate H.
  - simpl. destruct (read_quoted (t +:+ "`")) as [[m r]|] eqn:E; [|done].
    injection H as -> ->. by apply IH.
Qed.

End Handlers.

(** C8 (the code at the failing input): when the [list_tables] tool is
    called without a [database] argument, neither handler of [src/index.ts]
    raises an error of its own: on the connection that the call acquires,
    or that the module holds, the only statement sent is
    [SHOW FULL TABLES], with no [USE] before it, whatever default database
    the pool was created with. *)
Theorem list_tables_runs_without_database :
  (∀ (env : environment) (p : Driver.pool) (arguments : gmap string string)
     (c : Driver.connection),
      Driver.getConnection p = Returned c →
      arguments !! "database" = None →
      statements (IndexMySQL.callTool env p "list_tables" arguments).1
      = ["SHOW FULL TABLES"]
      ∧ ∃ rest,
          (IndexMySQL.callTool env p "list_tables" arguments).1
          = Driver.Acquired c :: Driver.Queried c "SHOW FULL TABLES" []
            :: rest)
  ∧ (∀ (env : environment) (driver : nat → Driver.pool)
       (arguments : gmap string string) (st : SharedConnection.module_state)
       (config : SharedConnection.MariaDBConfig) (c : Driver.connection),
      SharedConnection.getConfigFromEnv env = Returned config →
      (∀ h, Run.holds_or_acquires (SharedConnection.shared_connection st)
              (driver h) c) →
      arguments !! "database" = None →
      statements
        (IndexMariaDB.callTool env driver "list_tables" arguments st).2.1
      = ["SHOW FULL TABLES"]).
Proof.
  assert (Hallowed : ∀ env,
             ValidatorsV2.isAlloowedQuery env "SHOW FULL TABLES" = true).
  { intros env. rewrite (isAlloowedQuery_ignores_env env ∅). by vm_compute. }
  split.
  - intros env p arguments c Hc Hd.
    unfold IndexMySQL.callTool, IndexMySQL.dispatch. simpl. rewrite Hd.
    rewrite (executeQuery_accepted env p _ _ None c); [|done| |done].
    + unfold Run.prologue. simpl.
      destruct (Driver.outlasts_timeout p "SHOW FULL TABLES"); simpl;
        [by eauto|].
      destruct (Driver.query p "SHOW FULL TABLES") as [answer|e];
        simpl; [|by eauto].
      destruct (Connection.destructure_pair (Connection.resolved answer))
        as [[rows fields]|e]; simpl; by eauto.
    + intros d Hn. discriminate Hn.
  - intros env driver arguments st config c Hcfg Hh Hd.
    unfold IndexMariaDB.callTool, SharedConnection.createConnectionPool.
    rewrite Hcfg.
    assert (Hrun : ∀ pool st1,
      SharedConnection.pool_var st1 = Some pool →
      SharedConnection.shared_connection st1
      = SharedConnection.shared_connection st →
      statements
        (let '(st2, (calls, r)) :=
           IndexMariaDB.dispatch env driver "list_tables" arguments st1 in
         (st2, (calls, IndexMariaDB.Replied (reply r)))).2.1
      = ["SHOW FULL TABLES"]).
    { intros pool st1 Hp Hs.
      unfold IndexMariaDB.dispatch. simpl. rewrite Hd.
      unfold SharedConnection.executeQuery. rewrite Hp, Hs.
      rewrite (shared_executeQuery_try_accepted env (driver pool) _ _ None
                 (SharedConnection.shared_connection st) c);
        [|by apply Hh|by intros d Hn; discriminate Hn|by apply Hallowed].
      destruct (Driver.query (driver pool) "SHOW FULL TABLES")
        as [[rows fields]|e]; cbn [fst snd Exec.trace];
        apply shared_statements_without_database;
        simpl; intros e' He'; intuition. }
    destruct (SharedConnection.pool_var st) as [pool|] eqn:Ep.
    + by apply (Hrun pool).
    + by apply (Hrun (length (SharedConnection.created st))).
Qed.

Lemma list_tables_runs_without_database_witness :
  IndexMySQL.callTool ∅ Examples.no_database_selected "list_tables" ∅
  = ([Driver.Acquired 1; Driver.Queried 1 "SHOW FULL TABLES" [];
      Driver.Released 1; Driver.Released 1],
     IsError (Error "No database selected"))
  ∧ statements
      (IndexMySQL.callTool ∅ Examples.no_database_selected "list_tables" ∅).1
    = ["SHOW FULL TABLES"].
Proof.
  split; [by vm_compute|].
  exact (proj1 (proj1 list_tables_runs_without_database ∅
                  Examples.no_database_selected ∅ 1 eq_refl eq_refl)).
Defined.

(** C9 (the code at the failing input): for the table name [users` `id],
    both [describe_table] handlers of [src/index.ts] send
    [DESCRIBE `users` `id`].  The name is copied between the backticks as
    it is; the statement passes the policy; the server reads the
    identifier [users], and the rest of the name stands after the closing
    backtick, outside of the quotes.  No name with a backtick is read back
    as the identifier that was given. *)
Theorem describe_table_name_leaves_quotes :
  (IndexMySQL.callTool ∅ (Examples.answering (JsArray [])) "describe_table"
     {[ "table" := "users` `id" ]}).1
  = [Driver.Acquired 1; Driver.Queried 1 "DESCRIBE `users` `id`" [];
     Driver.Released 1]
  ∧ (IndexMariaDB.callTool Examples.valid_env
       (λ _, Examples.answering (JsArray [])) "describe_table"
       {[ "table" := "users` `id" ]} SharedConnection.initial).2.1
    = [Driver.Acquired 1; Driver.Queried 1 "DESCRIBE `users` `id`" [];
       Driver.Released 1]
  ∧ ValidatorsV2.isAlloowedQuery ∅ "DESCRIBE `users` `id`" = true
  ∧ (SqlIdentifier.after "DESCRIBE `" "DESCRIBE `users` `id`"
     ≫= SqlIdentifier.read_quoted)
    = Some ("users", " `id`")
  ∧ ¬ SqlIdentifier.confined "users` `id"
  ∧ (∀ t, JsString.includes "`" t = true → ¬ SqlIdentifier.confined t).
Proof.
  split; [by vm_compute|]. split; [by vm_compute|].
  split; [by vm_compute|]. split; [by vm_compute|].
  assert (H : ∀ t, JsString.includes "`" t = true → ¬ SqlIdentifier.confined t).
  { intros t Ht Hc. apply confined_iff in Hc. congruence. }
  split; [|done]. by apply H.
Qed.

(** C10: when an executor is given a database name [d] that is not empty,
    the first statement it sends on the connection is [USE], a space, and
    [d] between two backticks, [d] being copied as it is: so in
    [executeQuery] of [src/connection.ts], of the connection module of
    [src/index.ts], on the connection that the call acquires or that the
    module holds, and of [v1/db.js], on the connection of the pool of the
    key.  For the name [a`b], the server reads the identifier [a] and finds
    the rest of the name after the closing backtick; no name with a
    backtick is read back as it was given. *)
Theorem use_statement_copies_database_name :
  (∀ (env : environment) (p : Driver.pool) (sql : string)
     (params : list js_value) (d : string) (c : Driver.connection),
      Driver.getConnection p = Returned c →
      d ≠ "" →
      ∃ rest,
        (Connection.executeQuery env p sql params (Some d)).1
        = Driver.Acquired c :: Driver.Queried c ("USE `" +:+ d +:+ "`") []
          :: rest)
  ∧ (∀ (env : environment) (driver : nat → Driver.pool) (sql : string)
       (params : list js_value) (d : string)
       (st : SharedConnection.module_state) (pool : nat)
       (c : Driver.connection),
      Use.pool_in_use env st pool →
      Run.holds_or_acquires (SharedConnection.shared_connection st)
        (driver pool) c →
      d ≠ "" →
      ∃ rest,
        (SharedConnection.executeQuery env driver sql params (Some d) st).2.1
        = match SharedConnection.shared_connection st with
          | Some _ => []
          | None => [Driver.Acquired c]
          end
          ++ Driver.Queried c ("USE `" +:+ d +:+ "`") [] :: rest)
  ∧ (∀ (cfg : Db.config) (st : Db.settings) (driver : nat → Driver.pool)
       (sql : string) (d : string) (reg : Db.registry) (h : nat)
       (c : Driver.connection),
      Db.pools_get (Db.ensurePool cfg st reg) (Db.getPoolKey cfg)
      = Some (Db.OwnPool h) →
      Driver.getConnection (driver h) = Returned c →
      d ≠ "" →
      ∃ rest,
        (Db.executeQuery cfg st driver sql (Some d) reg).2.1
        = Driver.Acquired c :: Driver.Queried c ("USE `" +:+ d +:+ "`") []
          :: rest)
  ∧ JsString.includes "`" "a`b" = true
  ∧ (SqlIdentifier.after "USE `" ("USE `" +:+ "a`b" +:+ "`")
     ≫= SqlIdentifier.read_quoted)
    = Some ("a", "b`")
  ∧ (∀ d, JsString.includes "`" d = true → ¬ SqlIdentifier.confined d).
Proof.
  split; [|split; [|split; [|split; [by vm_compute|split; [by vm_compute|]]]]].
  - intros env p sql params d c Hc Hd.
    destruct d as [|a d]; [done|]. clear Hd.
    unfold Connection.executeQuery, Connection.executeQuery_body.
    unfold_exec. rewrite Hc. simpl. case_answers; by eauto.
  - intros env driver sql params d st pool c Hp Hc Hd.
    destruct (shared_executeQuery_whole env driver sql params (Some d) st
                pool Hp) as (Hrun & _ & _).
    rewrite Hrun. cbn [fst snd].
    destruct d as [|a d]; [done|]. clear Hd.
    unfold Run.holds_or_acquires in Hc.
    unfold SharedConnection.executeQuery_try. unfold_exec.
    destruct (SharedConnection.shared_connection st) as [c'|];
      [subst c'|rewrite Hc]; simpl; case_answers; by eauto.
  - intros cfg st driver sql d reg h c Hh Hc Hd.
    destruct d as [|a d]; [done|]. clear Hd.
    unfold Db.executeQuery. cbn [snd]. rewrite Hh.
    unfold Db.executeQuery_try. unfold_exec. rewrite Hc. simpl.
    case_answers; by eauto.
  - intros d Hd Hc. apply confined_iff in Hc. congruence.
Qed.

Lemma use_statement_copies_database_name_witness :
  ∃ rest,
    (Connection.executeQuery ∅ (Examples.answering (JsArray [])) "SELECT 1" []
       (Some "a`b")).1
    = Driver.Acquired 1 :: Driver.Queried 1 "USE `a`b`" [] :: rest.
Proof.
  apply (proj1 use_statement_copies_database_name ∅
           (Examples.answering (JsArray [])) "SELECT 1" [] "a`b" 1).
  - reflexivity.
  - discriminate.
Defined.


(** * Further properties of the code *)

(** ** Characters and the passes of [normalize] *)

Ltac by_cases_on c :=
  destruct c as [[] [] [] [] [] [] [] []]; try reflexivity; try discriminate.

Section Characters.
Import JsString.

Lemma upper_char_eqb_dash (c : ascii) :
  Ascii.eqb (upper_char c) "-" = Ascii.eqb c "-".
Proof. by_cases_on c. Qed.

Lemma upper_char_eqb_star (c : ascii) :
  Ascii.eqb (upper_char c) "*" = Ascii.eqb c "*".
Proof. by_cases_on c. Qed.

Lemma upper_char_eqb_slash (c : ascii) :
  Ascii.eqb (upper_char c) "/" = Ascii.eqb c "/".
Proof. by_cases_on c. Qed.

Lemma upper_char_space (c : ascii) : is_space (upper_char c) = is_space c.
Proof. by_cases_on c. Qed.

Lemma upper_char_line_terminator (c : ascii) :
  is_line_terminator (upper_char c) = is_line_terminator c.
Proof. by_cases_on c. Qed.

Lemma upper_char_idempotent (c : ascii) :
  upper_char (upper_char c) = upper_char c.
Proof. by_cases_on c. Qed.

Lemma is_space_upper_space (c : ascii) :
  is_space c = true → c = " "%char → upper_char c = " "%char.
Proof. by intros _ ->. Qed.

(** The equations of the passes, with the tests on characters written
    out. *)
Lemma strip_line_comments_outside (c : ascii) (r : string) :
  strip_line_comments false (String c r)
  = match r with
    | String c' r' =>
        if Ascii.eqb c "-" && Ascii.eqb c' "-"
        then strip_line_comments true r'
        else String c (strip_line_comments false r)
    | EmptyString => String c EmptyString
    end.
Proof.
  destruct (Ascii.eqb c "-") eqn:Ec.
  - apply Ascii.eqb_eq in Ec as ->. destruct r as [|c' r']; [done|].
    destruct (Ascii.eqb c' "-") eqn:Ec'.
    + by apply Ascii.eqb_eq in Ec' as ->.
    + simpl. revert Ec'. by_cases_on c'.
  - destruct r as [|c' r']; revert Ec; by_cases_on c.
Qed.

Lemma has_block_end_cons (c : ascii) (r : string) :
  has_block_end (String c r)
  = match r with
    | String c' r' =>
        (Ascii.eqb c "*" && Ascii.eqb c' "/") || has_block_end r
    | EmptyString => false
    end.
Proof.
  destruct (Ascii.eqb c "*") eqn:Ec.
  - apply Ascii.eqb_eq in Ec as ->. destruct r as [|c' r']; [done|].
    destruct (Ascii.eqb c' "/") eqn:Ec'.
    + by apply Ascii.eqb_eq in Ec' as ->.
    + simpl. revert Ec'. by_cases_on c'.
  - destruct r as [|c' r']; revert Ec; by_cases_on c.
Qed.

Lemma strip_block_comments_inside (c : ascii) (r : string) :
  strip_block_comments true (String c r)
  = match r with
    | String c' r' =>
        if Ascii.eqb c "*" && Ascii.eqb c' "/"
        then strip_block_comments false r'
        else strip_block_comments true r
    | EmptyString => EmptyString
    end.
Proof.
  destruct (Ascii.eqb c "*") eqn:Ec.
  - apply Ascii.eqb_eq in Ec as ->. destruct r as [|c' r']; [done|].
    destruct (Ascii.eqb c' "/") eqn:Ec'.
    + by apply Ascii.eqb_eq in Ec' as ->.
    + simpl. revert Ec'. by_cases_on c'.
  - destruct r as [|c' r']; revert Ec; by_cases_on c.
Qed.

Lemma strip_block_comments_outside (c : ascii) (r : string) :
  strip_block_comments false (String c r)
  = match r with
    | String c' r' =>
        if Ascii.eqb c "/" && Ascii.eqb c' "*"
        then if has_block_end r' then strip_block_comments true r'
             else String c r
        else String c (strip_block_comments false r)
    | EmptyString => String c EmptyString
    end.
Proof.
  destruct (Ascii.eqb c "/") eqn:Ec.
  - apply Ascii.eqb_eq in Ec as ->. destruct r as [|c' r']; [done|].
    destruct (Ascii.eqb c' "*") eqn:Ec'.
    + by apply Ascii.eqb_eq in Ec' as ->.
    + simpl. revert Ec'. by_cases_on c'.
  - destruct r as [|c' r']; revert Ec; by_cases_on c.
Qed.

End Characters.

(** ** Upper-casing commutes with the passes of [normalize] *)

Section LetterCase.
Import JsString.

Lemma toUpperCase_idempotent (s : string) :
  toUpperCase (toUpperCase s) = toUpperCase s.
Proof.
  induction s as [|c s IH]; [done|]. simpl.
  by rewrite upper_char_idempotent, IH.
Qed.

Lemma strip_line_comments_upper_bounded (n : nat) (s : string) (b : bool) :
  String.length s ≤ n →
  strip_line_comments b (toUpperCase s)
  = toUpperCase (strip_line_comments b s).
Proof.
  revert s b. induction n as [|n IH]; intros [|c r] b Hn; try done.
  { simpl in Hn. lia. }
  simpl in Hn. destruct b.
  - cbn [toUpperCase strip_line_comments].
    rewrite upper_char_line_terminator.
    destruct (is_line_terminator c); cbn [toUpperCase];
      rewrite IH by lia; done.
  - cbn [toUpperCase]. rewrite !strip_line_comments_outside.
    destruct r as [|c' r']; [done|]. cbn [toUpperCase].
    rewrite !upper_char_eqb_dash.
    destruct (Ascii.eqb c "-" && Ascii.eqb c' "-").
    + apply IH. simpl in Hn. lia.
    + cbn [toUpperCase]. f_equal.
      change (String (upper_char c') (toUpperCase r'))
        with (toUpperCase (String c' r')).
      apply IH. lia.
Qed.

Lemma has_block_end_upper (s : string) :
  has_block_end (toUpperCase s) = has_block_end s.
Proof.
  induction s as [|c r IH]; [done|].
  cbn [toUpperCase]. rewrite !has_block_end_cons.
  destruct r as [|c' r']; [done|].
  cbn [toUpperCase] in *.
  by rewrite upper_char_eqb_star, upper_char_eqb_slash, IH.
Qed.

Lemma strip_block_comments_upper_bounded (n : nat) (s : string) (b : bool) :
  String.length s ≤ n →
  strip_block_comments b (toUpperCase s)
  = toUpperCase (strip_block_comments b s).
Proof.
  revert s b. induction n as [|n IH]; intros [|c r] b Hn; try done.
  { simpl in Hn. lia. }
  simpl in Hn. destruct b.
  - cbn [toUpperCase]. rewrite !strip_block_comments_inside.
    destruct r as [|c' r']; [done|]. cbn [toUpperCase].
    rewrite upper_char_eqb_star, upper_char_eqb_slash.
    destruct (Ascii.eqb c "*" && Ascii.eqb c' "/").
    + apply IH. simpl in Hn. lia.
    + change (String (upper_char c') (toUpperCase r'))
        with (toUpperCase (String c' r')).
      apply IH. lia.
  - cbn [toUpperCase]. rewrite !strip_block_comments_outside.
    destruct r as [|c' r']; [done|]. cbn [toUpperCase].
    rewrite upper_char_eqb_star, upper_char_eqb_slash.
    destruct (Ascii.eqb c "/" && Ascii.eqb c' "*").
    + rewrite has_block_end_upper. destruct (has_block_end r'); [|done].
      apply IH. simpl in Hn. lia.
    + cbn [toUpperCase]. f_equal.
      change (String (upper_char c') (toUpperCase r'))
        with (toUpperCase (String c' r')).
      apply IH. lia.
Qed.

Lemma collapse_spaces_upper (s : string) (b : bool) :
  collapse_spaces b (toUpperCase s) = toUpperCase (collapse_spaces b s).
Proof.
  revert b. induction s as [|c r IH]; intros b; [done|].
  cbn [toUpperCase collapse_spaces]. rewrite upper_char_space.
  destruct (is_space c); [destruct b|]; cbn [toUpperCase]; by rewrite IH.
Qed.

Lemma trimStart_upper (s : string) :
  trimStart (toUpperCase s) = toUpperCase (trimStart s).
Proof.
  induction s as [|c r IH]; [done|].
  cbn [toUpperCase trimStart]. rewrite upper_char_space.
  by destruct (is_space c).
Qed.

Lemma trimEnd_upper (s : string) :
  trimEnd (toUpperCase s) = toUpperCase (trimEnd s).
Proof.
  induction s as [|c r IH]; [done|].
  cbn [toUpperCase trimEnd]. rewrite IH, upper_char_space.
  destruct (trimEnd r); cbn [toUpperCase]; [by destruct (is_space c)|done].
Qed.

Lemma normalize_upper (query : string) :
  normalize (toUpperCase query) = normalize query.
Proof.
  unfold normalize, trim.
  rewrite (strip_line_comments_upper_bounded (String.length query)) by done.
  rewrite (strip_block_comments_upper_bounded
             (String.length (strip_line_comments false query))) by done.
  by rewrite collapse_spaces_upper, trimStart_upper, trimEnd_upper,
    toUpperCase_idempotent.
Qed.

Lemma toUpperCase_empty (s : string) : toUpperCase s = "" → s = "".
Proof. by destruct s. Qed.

End LetterCase.

(** X1: the decision of every validator depends on the query up to the
    case of its letters only: two queries with the same upper-cased text
    have the same normalized text and get the same answer from
    [isAlloowedQuery] of [v2/src/validators.ts] and of [server-mcp-v2.cjs],
    from [isReadOnlyQuery] and from [isAllowedQuery] of
    [v1/test-server.mjs]. *)
Theorem decision_ignores_letter_case (q1 q2 : string) :
  JsString.toUpperCase q1 = JsString.toUpperCase q2 →
  normalize q1 = normalize q2
  ∧ (∀ env,
       ValidatorsV2.isAlloowedQuery env q1 = ValidatorsV2.isAlloowedQuery env q2)
  ∧ ReadOnly.isReadOnlyQuery q1 = ReadOnly.isReadOnlyQuery q2
  ∧ (∀ config,
       ServerV1.isAllowedQuery config q1 = ServerV1.isAllowedQuery config q2)
  ∧ (∀ config,
       ServerMcpV2.isAlloowedQuery config q1
       = ServerMcpV2.isAlloowedQuery config q2).
Proof.
  intros H.
  assert (Hn : normalize q1 = normalize q2).
  { by rewrite <- (normalize_upper q1), <- (normalize_upper q2), H. }
  assert (He : String.eqb q1 "" = String.eqb q2 "").
  { destruct q1, q2; try done; simpl in H; discriminate H. }
  split; [done|]. split; [|split; [|split]].
  - intros env. unfold ValidatorsV2.isAlloowedQuery. by rewrite Hn.
  - unfold ReadOnly.isReadOnlyQuery. by rewrite Hn.
  - intros config. unfold ServerV1.isAllowedQuery. by rewrite Hn, He.
  - intros config. unfold ServerMcpV2.isAlloowedQuery. by rewrite Hn, He.
Qed.

Lemma decision_ignores_letter_case_witness :
  normalize "select * from t" = normalize "SELECT * FROM T"
  ∧ ReadOnly.isReadOnlyQuery "select * from t"
    = ReadOnly.isReadOnlyQuery "SELECT * FROM T".
Proof.
  destruct (decision_ignores_letter_case "select * from t" "SELECT * FROM T")
    as (Hn & _ & Hr & _); [reflexivity|].
  split; [exact Hn|exact Hr].
Defined.

(** ** The shape of the normalized text *)

Section NormalizedShape.
Import JsString Occurrence Shape.

Lemma collapse_spaces_shape (s : string) (b : bool) :
  single_spaced (collapse_spaces b s)
  ∧ (b = true → boundary nonspace (first_char (collapse_spaces b s))).
Proof.
  revert b. induction s as [|c r IH]; intros b; [done|].
  cbn [collapse_spaces]. destruct (is_space c) eqn:Ec.
  - destruct b; [apply IH|].
    split; [|done]. cbn [single_spaced]. split; [|apply IH].
    intros _. split; [done|]. by apply IH.
  - split.
    + cbn [single_spaced]. split; [|apply IH]. intros H. congruence.
    + intros _. unfold nonspace. simpl. by rewrite Ec.
Qed.

Lemma trimStart_shape (s : string) :
  single_spaced s →
  single_spaced (trimStart s) ∧ boundary nonspace (first_char (trimStart s)).
Proof.
  induction s as [|c r IH]; intros H; [done|].
  cbn [trimStart]. destruct (is_space c) eqn:Ec.
  - apply IH. apply H.
  - split; [done|]. unfold nonspace. simpl. by rewrite Ec.
Qed.

Lemma trimEnd_first (r : string) (a : ascii) (x : string) :
  trimEnd r = String a x → first_char r = Some a.
Proof.
  destruct r as [|c r]; [done|]. cbn [trimEnd].
  destruct (trimEnd r); [destruct (is_space c)|]; intros H; try done;
    by injection H as -> _.
Qed.

Lemma trimEnd_shape (s : string) :
  single_spaced s →
  single_spaced (trimEnd s)
  ∧ (boundary nonspace (first_char s) →
     boundary nonspace (first_char (trimEnd s)))
  ∧ boundary nonspace (last_char (trimEnd s)).
Proof.
  induction s as [|c r IH]; intros H; [done|].
  destruct H as [Hc Hr]. destruct (IH Hr) as (IH1 & _ & IH3).
  cbn [trimEnd]. destruct (trimEnd r) as [|a x] eqn:E.
  - destruct (is_space c) eqn:Ec; [done|].
    split; [|split]; unfold nonspace; simpl; by rewrite Ec.
  - split; [|split].
    + cbn [single_spaced]. split; [|done].
      intros Hs. destruct (Hc Hs) as [-> Hb]. split; [done|].
      by rewrite (trimEnd_first _ _ _ E) in Hb.
    + done.
    + exact IH3.
Qed.

Lemma first_char_upper (s : string) :
  first_char (toUpperCase s) = upper_char <$> first_char s.
Proof. by destruct s. Qed.

Lemma last_char_upper (s : string) :
  last_char (toUpperCase s) = upper_char <$> last_char s.
Proof.
  induction s as [|c r IH]; [done|]. cbn [toUpperCase last_char].
  destruct r; [done|]. exact IH.
Qed.

Lemma boundary_upper (o : option ascii) :
  boundary nonspace o → boundary nonspace (upper_char <$> o).
Proof.
  destruct o as [c|]; [|done]. unfold nonspace. simpl.
  by rewrite upper_char_space.
Qed.

Lemma single_spaced_upper (s : string) :
  single_spaced s → single_spaced (toUpperCase s).
Proof.
  induction s as [|c r IH]; [done|]. intros [Hc Hr].
  cbn [toUpperCase single_spaced]. split; [|by apply IH].
  rewrite upper_char_space. intros Hs. destruct (Hc Hs) as [-> Hb].
  split; [done|]. rewrite first_char_upper. by apply boundary_upper.
Qed.

End NormalizedShape.

(** X2: the normalized text of every query has no white-space character
    other than single spaces between two other characters: it is
    single-spaced, it neither starts nor ends with a white-space character,
    and it has no lower-case letter left (upper-casing it again changes
    nothing). *)
Theorem normalize_shape (query : string) : Shape.normalized (normalize query).
Proof.
  unfold Shape.normalized, normalize, JsString.trim.
  set (t := JsString.collapse_spaces false _).
  assert (Ht : Shape.single_spaced t) by apply collapse_spaces_shape.
  destruct (trimStart_shape t Ht) as [Hs Hf].
  destruct (trimEnd_shape _ Hs) as (He & Hef & Hel).
  split; [by apply single_spaced_upper|]. split; [|split].
  - rewrite first_char_upper. apply boundary_upper. by apply Hef.
  - rewrite last_char_upper. by apply boundary_upper.
  - apply toUpperCase_idempotent.
Qed.

(** ** Comments are removed before the policy looks at the text *)

Ltac append_nil :=
  repeat match goal with
         | H : context [ String.append EmptyString ?s ] |- _ =>
             change (String.append EmptyString s) with s in H
         | |- context [ String.append EmptyString ?s ] =>
             change (String.append EmptyString s) with s
         end.

Section Comments.
Import JsString Shape.

Lemma append_cons (c : ascii) (s t : string) :
  String c s +:+ t = String c (s +:+ t).
Proof. done. Qed.

Lemma strip_line_comments_plain (a x : string) :
  includes "-" a = false →
  strip_line_comments false (a +:+ x) = a +:+ strip_line_comments false x.
Proof.
  induction a as [|c a IH]; intros H; [done|].
  simpl in H. apply orb_false_iff in H as [Hc Ha].
  rewrite !append_cons, strip_line_comments_outside, Hc. cbn [andb].
  destruct (a +:+ x) as [|c' r'] eqn:E.
  - destruct a; [|done]. append_nil. by subst x.
  - by rewrite IH.
Qed.

Lemma strip_line_comments_no_dashes (c y : string) :
  has_double_dash c = false →
  Occurrence.first_char y ≠ Some "-"%char →
  strip_line_comments false (c +:+ y) = c +:+ strip_line_comments false y.
Proof.
  induction c as [|a c IH]; intros H Hy; [done|].
  simpl in H. apply orb_false_iff in H as [Ha Hc].
  rewrite !append_cons, strip_line_comments_outside.
  destruct (c +:+ y) as [|c' r'] eqn:E.
  - destruct c; [|done]. append_nil. by subst y.
  - assert (Hf : Ascii.eqb a "-" && Ascii.eqb c' "-" = false).
    { destruct (Ascii.eqb a "-"); [|done]. simpl in *.
      destruct c as [|c1 c2].
      - append_nil. subst y. simpl in Hy.
        destruct (Ascii.eqb c' "-") eqn:Ec; [|done].
        apply Ascii.eqb_eq in Ec. by subst c'.
      - injection E as <- _. simpl in Ha. apply andb_false_iff in Ha.
        destruct Ha as [Ha|Ha]; [|done].
        rewrite Ascii.eqb_sym. exact Ha. }
    rewrite Hf. by rewrite IH.
Qed.

Lemma strip_block_comments_plain (a x : string) :
  includes "/" a = false →
  strip_block_comments false (a +:+ x) = a +:+ strip_block_comments false x.
Proof.
  induction a as [|c a IH]; intros H; [done|].
  simpl in H. apply orb_false_iff in H as [Hc Ha].
  rewrite !append_cons, strip_block_comments_outside, Hc. cbn [andb].
  destruct (a +:+ x) as [|c' r'] eqn:E.
  - destruct a; [|done]. append_nil. by subst x.
  - by rewrite IH.
Qed.

Lemma has_block_end_closed (c y : string) :
  has_block_end (c +:+ "*/" +:+ y) = true.
Proof.
  induction c as [|a c IH]; [done|].
  rewrite append_cons, has_block_end_cons.
  destruct (c +:+ "*/" +:+ y) as [|c' r'] eqn:E; [by destruct c|].
  rewrite IH. apply orb_true_r.
Qed.

Lemma strip_block_comments_skip (c y : string) :
  has_block_end c = false →
  strip_block_comments true (c +:+ "*/" +:+ y) = strip_block_comments false y.
Proof.
  induction c as [|a c IH]; intros H; [done|].
  rewrite has_block_end_cons in H.
  rewrite append_cons, strip_block_comments_inside.
  destruct c as [|c1 c2].
  - simpl. by rewrite andb_false_r.
  - apply orb_false_iff in H as [H1 H2].
    rewrite append_cons, H1. rewrite <- append_cons. by apply IH.
Qed.

Lemma normalize_comment (a c q : string) :
  includes "-" a = false →
  includes "/" a = false →
  has_double_dash c = false →
  has_block_end c = false →
  normalize (a +:+ "/*" +:+ c +:+ "*/" +:+ q) = normalize (a +:+ q).
Proof.
  intros Ha1 Ha2 Hc1 Hc2. unfold normalize. do 3 f_equal.
  rewrite (strip_line_comments_plain a q) by done.
  rewrite (strip_line_comments_plain a) by done.
  rewrite (strip_line_comments_plain "/*") by done.
  rewrite (strip_line_comments_no_dashes c) by done.
  rewrite (strip_line_comments_plain "*/") by done.
  rewrite !(strip_block_comments_plain a) by done.
  f_equal.
  change ("/*" +:+ c +:+ "*/" +:+ strip_line_comments false q)
    with (String "/" (String "*"
            (c +:+ "*/" +:+ strip_line_comments false q))).
  rewrite strip_block_comments_outside. cbn [Ascii.eqb Bool.eqb andb].
  by rewrite has_block_end_closed, strip_block_comments_skip.
Qed.

End Comments.

(** X3: a block comment is invisible to the policy and still sent to the
    server.  For a text [a] without [-] and [/], and a comment body [c]
    without [--] and [*/], the query [a /* c */ q] has the normalized text
    of [a q] and gets the same decision from [isAlloowedQuery] and
    [isReadOnlyQuery]; when [a q] is accepted, [executeQuery] of
    [src/connection.ts] sends the query with its comment, as it was
    given. *)
Theorem comment_hidden_from_policy (a c q : string) :
  JsString.includes "-" a = false →
  JsString.includes "/" a = false →
  Shape.has_double_dash c = false →
  JsString.has_block_end c = false →
  let sql := a +:+ "/*" +:+ c +:+ "*/" +:+ q in
  normalize sql = normalize (a +:+ q)
  ∧ (∀ env,
       ValidatorsV2.isAlloowedQuery env sql
       = ValidatorsV2.isAlloowedQuery env (a +:+ q))
  ∧ ReadOnly.isReadOnlyQuery sql = ReadOnly.isReadOnlyQuery (a +:+ q)
  ∧ (∀ env p params cn,
       Driver.getConnection p = Returned cn →
       ValidatorsV2.isAlloowedQuery env (a +:+ q) = true →
       In (Driver.Queried cn sql params)
          (Connection.executeQuery env p sql params None).1).
Proof.
  intros Ha1 Ha2 Hc1 Hc2 sql.
  assert (Hn : normalize sql = normalize (a +:+ q))
    by by apply normalize_comment.
  assert (Hv : ∀ env,
             ValidatorsV2.isAlloowedQuery env sql
             = ValidatorsV2.isAlloowedQuery env (a +:+ q)).
  { intros env. unfold ValidatorsV2.isAlloowedQuery. by rewrite Hn. }
  split; [done|]. split; [done|]. split.
  - unfold ReadOnly.isReadOnlyQuery. by rewrite Hn.
  - intros env p params cn Hc Hok.
    rewrite (executeQuery_accepted env p sql params None cn);
      [|done|by intros d Hd; discriminate Hd|by rewrite Hv].
    destruct (Driver.outlasts_timeout p sql);
      [|destruct (Driver.query p sql) as [answer|?];
        [destruct (Connection.destructure_pair (Connection.resolved answer))
           as [[??]|?]|]];
      cbn [fst]; apply in_app_iff; right; simpl; tauto.
Qed.

Lemma comment_hidden_from_policy_witness :
  normalize "SELECT 1 /*! UNION SELECT user FROM mysql.user */"
  = "SELECT 1"
  ∧ ValidatorsV2.isAlloowedQuery ∅
      "SELECT 1 /*! UNION SELECT user FROM mysql.user */" = true.
Proof.
  destruct (comment_hidden_from_policy "SELECT 1 "
              "! UNION SELECT user FROM mysql.user " "")
    as (Hn & Hv & _); [reflexivity..|].
  split.
  - etransitivity; [exact Hn|]. by vm_compute.
  - etransitivity; [exact (Hv ∅)|]. by vm_compute.
Defined.

(** ** What [isAlloowedQuery] accepts *)

Section Accepted.
Import JsString Occurrence Shape.

Lemma append_assoc (s t u : string) : (s +:+ t) +:+ u = s +:+ t +:+ u.
Proof.
  induction s as [|c s IH]; [done|]. rewrite !append_cons. by rewrite IH.
Qed.

Lemma append_nil_r (s : string) : s +:+ "" = s.
Proof.
  induction s as [|c s IH]; [done|]. rewrite append_cons. by rewrite IH.
Qed.

Lemma led_by_spec (cmd text : string) :
  startsWith (cmd +:+ " ") text || String.eqb text cmd = true
  ↔ led_by cmd text.
Proof.
  unfold led_by. rewrite orb_true_iff, String.eqb_eq. split.
  - intros [H|H]; [right|by left].
    destruct (startsWith_inv _ _ H) as [rest ->]. exists rest.
    apply append_assoc.
  - intros [H|[rest ->]]; [by right|left].
    rewrite <- append_assoc. apply startsWith_app.
Qed.

Lemma existsb_led_by (cmds : list string) (text : string) :
  existsb (λ cmd, startsWith (cmd +:+ " ") text || String.eqb text cmd) cmds
  = true
  ↔ ∃ cmd, In cmd cmds ∧ led_by cmd text.
Proof.
  rewrite existsb_exists. split; intros (cmd & Hin & H); exists cmd;
    (split; [done|]); by apply led_by_spec.
Qed.

Lemma existsb_delimited_false (cmds : list string) (text : string) :
  existsb (λ cmd, test_delimited cmd true text) cmds = false
  ↔ ∀ cmd, In cmd cmds → ¬ whitespace_delimited cmd text.
Proof.
  split.
  - intros H cmd Hin Hocc. apply test_delimited_spec in Hocc.
    assert (existsb (λ cmd, test_delimited cmd true text) cmds = true)
      by (apply existsb_exists; eauto).
    congruence.
  - intros H. apply not_true_iff_false. intros He.
    apply existsb_exists in He as (cmd & Hin & Ht).
    apply (H cmd Hin). by apply test_delimited_spec.
Qed.

(** A verb that leads the text is delimited by white space in it. *)
Lemma led_by_delimited (cmd text : string) :
  led_by cmd text → whitespace_delimited cmd text.
Proof.
  intros [->|[rest ->]].
  - exists "", "". split; [|done]. append_nil. by rewrite append_nil_r.
  - exists "", (" " +:+ rest). by split.
Qed.

End Accepted.

(** X4: [isAlloowedQuery] of [v2/src/validators.ts] accepts a query exactly
    when its normalized text is led by a verb of [ALLOWED_COMMANDS] (the
    verb alone, or followed by a space), contains no verb of
    [DISALLOWED_COMMANDS] delimited by white space, and, if it contains a
    semicolon, ends with one. *)
Theorem isAlloowedQuery_accepts_iff (env : environment) (query : string) :
  ValidatorsV2.isAlloowedQuery env query = true
  ↔ (∃ cmd, In cmd ValidatorsV2.ALLOWED_COMMANDS
            ∧ Shape.led_by cmd (normalize query))
    ∧ (∀ cmd, In cmd ValidatorsV2.DISALLOWED_COMMANDS →
              ¬ Occurrence.whitespace_delimited cmd (normalize query))
    ∧ (JsString.includes ";" (normalize query) = true →
       JsString.endsWith ";" (normalize query) = true).
Proof.
  rewrite isAlloowedQuery_unfold, !andb_true_iff, !negb_true_iff.
  rewrite existsb_led_by, existsb_delimited_false.
  destruct (JsString.includes ";" (normalize query)),
    (JsString.endsWith ";" (normalize query)); simpl; intuition congruence.
Qed.

(** X5: the test for several statements looks at the last character only:
    when the normalized text ends with a semicolon, [isAlloowedQuery]
    accepts the query exactly when it is led by an allowed verb and has no
    disallowed verb, however many semicolons stand before the last. *)
Theorem trailing_semicolon_admits_inner_ones (env : environment)
    (query : string) :
  JsString.endsWith ";" (normalize query) = true →
  ValidatorsV2.isAlloowedQuery env query = true
  ↔ (∃ cmd, In cmd ValidatorsV2.ALLOWED_COMMANDS
            ∧ Shape.led_by cmd (normalize query))
    ∧ (∀ cmd, In cmd ValidatorsV2.DISALLOWED_COMMANDS →
              ¬ Occurrence.whitespace_delimited cmd (normalize query)).
Proof.
  intros He.
  rewrite isAlloowedQuery_unfold, He, !andb_true_iff, !negb_true_iff.
  rewrite existsb_led_by, existsb_delimited_false, andb_false_r.
  intuition.
Qed.

Lemma trailing_semicolon_admits_inner_ones_witness :
  ValidatorsV2.isAlloowedQuery ∅ "SELECT 1; SELECT 2;" = true
  ↔ (∃ cmd, In cmd ValidatorsV2.ALLOWED_COMMANDS
            ∧ Shape.led_by cmd (normalize "SELECT 1; SELECT 2;"))
    ∧ (∀ cmd, In cmd ValidatorsV2.DISALLOWED_COMMANDS →
              ¬ Occurrence.whitespace_delimited cmd
                  (normalize "SELECT 1; SELECT 2;")).
Proof.
  apply (trailing_semicolon_admits_inner_ones ∅ "SELECT 1; SELECT 2;").
  reflexivity.
Defined.

(** ** The validators compared *)

Section Compared.
Import JsString Occurrence Shape.

Lemma led_implies_delimited (cmds : list string) (text : string) :
  existsb (λ cmd, test_delimited cmd true text) cmds = false →
  existsb (λ cmd, startsWith (cmd +:+ " ") text || String.eqb text cmd) cmds
  = false.
Proof.
  intros H. apply not_true_iff_false. intros Hl.
  apply existsb_led_by in Hl as (cmd & Hin & Hled).
  apply (proj1 (existsb_delimited_false cmds text) H cmd Hin).
  by apply led_by_delimited.
Qed.

(** The read-only validator is the one of [v2/src/validators.ts] with the
    three write verbs added to its deny-list. *)
Lemma isReadOnlyQuery_unfold (env : environment) (query : string) :
  ReadOnly.isReadOnlyQuery query
  = ValidatorsV2.isAlloowedQuery env query
    && negb (existsb (λ cmd, test_delimited cmd true (normalize query))
               ReadOnly.write_verbs).
Proof.
  rewrite isAlloowedQuery_unfold. unfold ReadOnly.isReadOnlyQuery.
  cbv zeta.
  change ReadOnly.DISALLOWED_COMMANDS
    with (ReadOnly.write_verbs ++ ValidatorsV2.DISALLOWED_COMMANDS).
  change ValidatorsV2.ALLOWED_COMMANDS
    with (ReadOnly.ALLOWED_COMMANDS ++ ReadOnly.write_verbs).
  rewrite !existsb_app.
  destruct (existsb (λ cmd, test_delimited cmd true (normalize query))
              ReadOnly.write_verbs) eqn:Hw.
  - simpl. by rewrite !andb_false_r.
  - rewrite (led_implies_delimited _ _ Hw). simpl.
    by rewrite !orb_false_r, !andb_true_r.
Qed.

Lemma server_v1_unfold (config : Db.config) (sql : string) :
  ServerV1.isAllowedQuery config sql
  = negb (String.eqb sql "")
    && existsb
         (λ cmd, startsWith (cmd +:+ " ") (normalize sql)
                 || String.eqb (normalize sql) cmd)
         ServerV1.ALLOWED_COMMANDS
    && negb ((negb (Db.allow_insert config)
              && test_delimited "INSERT" true (normalize sql))
             || (negb (Db.allow_update config)
                 && test_delimited "UPDATE" true (normalize sql))
             || (negb (Db.allow_delete config)
                 && test_delimited "DELETE" true (normalize sql))
             || existsb (λ cmd, test_delimited cmd true (normalize sql))
                  ValidatorsV2.DISALLOWED_COMMANDS)
    && negb (includes ";" (normalize sql)
             && negb (endsWith ";" (normalize sql))).
Proof.
  unfold ServerV1.isAllowedQuery. destruct (String.eqb sql ""); [done|].
  cbv zeta. cbn [negb andb]. do 2 f_equal.
  destruct config as [h po u pw d [] [] []]; cbn;
    by rewrite ?orb_false_r, ?orb_assoc.
Qed.

End Compared.

(** X6: the read-only validator [isReadOnlyQuery] accepts a query exactly
    when [isAlloowedQuery] of [v2/src/validators.ts] accepts it and its
    normalized text has none of [INSERT], [UPDATE], [DELETE] delimited by
    white space; and [isAllowedQuery] of [v1/test-server.mjs] with its three
    permissions off is [isReadOnlyQuery]. *)
Theorem isReadOnlyQuery_compared :
  (∀ (env : environment) (query : string),
      ReadOnly.isReadOnlyQuery query = true
      ↔ ValidatorsV2.isAlloowedQuery env query = true
        ∧ ∀ cmd, In cmd ReadOnly.write_verbs →
                 ¬ Occurrence.whitespace_delimited cmd (normalize query))
  ∧ (∀ (config : Db.config) (sql : string),
      Db.allow_insert config = false →
      Db.allow_update config = false →
      Db.allow_delete config = false →
      ServerV1.isAllowedQuery config sql = ReadOnly.isReadOnlyQuery sql).
Proof.
  split.
  - intros env query. rewrite (isReadOnlyQuery_unfold env).
    by rewrite andb_true_iff, negb_true_iff, existsb_delimited_false.
  - intros config sql Hi Hu Hd.
    rewrite server_v1_unfold, Hi, Hu, Hd. cbn [negb andb].
    rewrite (isReadOnlyQuery_unfold ∅), isAlloowedQuery_unfold.
    change ServerV1.ALLOWED_COMMANDS with ValidatorsV2.ALLOWED_COMMANDS.
    cbn [existsb ReadOnly.write_verbs]. rewrite orb_false_r.
    destruct (String.eqb sql "") eqn:E.
    + apply String.eqb_eq in E as ->. by vm_compute.
    + cbn [negb andb].
      destruct (JsString.test_delimited "INSERT" true (normalize sql)),
        (JsString.test_delimited "UPDATE" true (normalize sql)),
        (JsString.test_delimited "DELETE" true (normalize sql));
        cbn [negb andb orb]; rewrite ?andb_false_r, ?andb_true_r; done.
Qed.

Lemma isReadOnlyQuery_compared_witness :
  ServerV1.isAllowedQuery Examples.config_a "DELETE FROM t"
  = ReadOnly.isReadOnlyQuery "DELETE FROM t".
Proof.
  apply (proj2 isReadOnlyQuery_compared Examples.config_a "DELETE FROM t");
    reflexivity.
Defined.

Ltac bool_absorb :=
  repeat (progress cbn [negb andb orb]
          || rewrite orb_true_r || rewrite orb_true_l
          || rewrite andb_false_r || rewrite andb_false_l).



(** X8: [isAlloowedQuery] of [server-mcp-v2.cjs] applies the permissions
    the wrong way round: it decides as [isAllowedQuery] of
    [v1/test-server.mjs] does under the negated permissions.  With
    [allow_insert] on, every query whose normalized text is led by
    [INSERT] is refused. *)
Theorem server_mcp_v2_permissions_inverted (config : Db.config)
    (sql : string) :
  ServerMcpV2.isAlloowedQuery config sql
  = ServerV1.isAllowedQuery (ServerMcpV2.negate_permissions config) sql
  ∧ (Db.allow_insert config = true →
     Shape.led_by "INSERT" (normalize sql) →
     ServerMcpV2.isAlloowedQuery config sql = false).
Proof.
  assert (H : ServerMcpV2.isAlloowedQuery config sql
    = ServerV1.isAllowedQuery (ServerMcpV2.negate_permissions config) sql).
  { by destruct config as [h po u pw d [] [] []]. }
  split; [done|]. intros Hi Hl. rewrite H.
  apply led_by_delimited, test_delimited_spec in Hl.
  rewrite server_v1_unfold, Hl.
  cbn [ServerMcpV2.negate_permissions Db.allow_insert]. rewrite Hi.
  by bool_absorb.
Qed.

Lemma server_mcp_v2_permissions_inverted_witness :
  ServerMcpV2.isAlloowedQuery Examples.config_b "INSERT INTO t VALUES (1)"
  = false.
Proof.
  apply (proj2 (server_mcp_v2_permissions_inverted Examples.config_b
                  "INSERT INTO t VALUES (1)")).
  - reflexivity.
  - right. by exists "INTO T VALUES (1)".
Defined.

(** ** The runs of [executeQuery] in [src/connection.ts] *)

Section Runs.
Import Driver Exec Lease.

Lemma releases_only_forallb (c : connection) (calls : list event) :
  releases_only c calls = forallb (is_release c) calls.
Proof. induction calls as [|e rest IH]; [done|]. simpl. by rewrite IH. Qed.

Lemma queries_then_releases_sound (c : connection) (calls : list event) :
  queries_then_releases c calls = true →
  ∃ queries releases,
    calls = queries ++ releases
    ∧ forallb (is_query_on c) queries = true
    ∧ forallb (is_release c) releases = true
    ∧ releases ≠ [].
Proof.
  induction calls as [|e rest IH]; [done|]. simpl.
  destruct (is_query_on c e) eqn:Eq.
  - intros H. destruct (IH H) as (qs & rs & -> & Hq & Hr & Hne).
    exists (e :: qs), rs. simpl. by rewrite Eq, Hq.
  - intros H. apply andb_true_iff in H as [He Hr].
    exists [], (e :: rest). simpl.
    by rewrite He, <- releases_only_forallb, Hr.
Qed.

Lemma check_sound (c : connection) (calls : list event) :
  check c calls = true → disciplined c calls.
Proof.
  destruct calls as [|[c'| |] rest]; try done. simpl.
  intros H. apply andb_true_iff in H as [Hc H].
  apply Nat.eqb_eq in Hc as <-.
  destruct (queries_then_releases_sound c rest H)
    as (qs & rs & -> & Hq & Hr & Hne).
  by exists qs, rs.
Qed.

End Runs.

(** X9: what [executeQuery] of [src/connection.ts] does when the statement
    is not run.  When the pool gives no connection, no call is made on a
    connection and nothing is released.  When the [USE] statement fails,
    its error is the result and the statement is not sent, whatever the
    policy says of it.  When the policy refuses the statement, the error is
    [Query not allowed] and the statement is not sent; the [USE] statement
    was sent before the policy was asked. *)
Theorem executeQuery_refusals (env : environment) (p : Driver.pool)
    (sql : string) (params : list js_value) (database : option string) :
  (∀ e, Driver.getConnection p = Thrown e →
        Connection.executeQuery env p sql params database = ([], Thrown e))
  ∧ (∀ c d e,
       Driver.getConnection p = Returned c →
       Exec.truthy database = Some d →
       Driver.query p ("USE `" +:+ d +:+ "`") = Thrown e →
       Connection.executeQuery env p sql params database
       = ([Driver.Acquired c; Driver.Queried c ("USE `" +:+ d +:+ "`") [];
           Driver.Released c; Driver.Released c],
          Thrown e))
  ∧ (∀ c,
       Driver.getConnection p = Returned c →
       Run.use_succeeds p database →
       ValidatorsV2.isAlloowedQuery env sql = false →
       Connection.executeQuery env p sql params database
       = (Run.prologue c database
          ++ [Driver.Released c; Driver.Released c],
          Thrown (Error "Query not allowed"))).
Proof.
  split; [|split].
  - intros e He. unfold Connection.executeQuery, Connection.executeQuery_body.
    unfold_exec. by rewrite He.
  - intros c d e Hc Hd He.
    unfold Connection.executeQuery, Connection.executeQuery_body.
    unfold_exec. by rewrite Hc, Hd, He.
  - intros c Hc Hu Hp.
    unfold Connection.executeQuery, Connection.executeQuery_body,
      Run.prologue, Run.use_succeeds in *.
    unfold_exec. rewrite Hc, Hp. simpl.
    destruct (Exec.truthy database) as [d|]; [|done].
    by destruct (Hu d eq_refl) as [v ->].
Qed.

Lemma executeQuery_refusals_witness :
  Connection.executeQuery ∅ (Examples.answering (JsArray []))
    "DROP TABLE x" [] (Some "shop")
  = ([Driver.Acquired 1; Driver.Queried 1 "USE `shop`" [];
      Driver.Released 1; Driver.Released 1],
     Thrown (Error "Query not allowed")).
Proof.
  destruct (executeQuery_refusals ∅ (Examples.answering (JsArray []))
              "DROP TABLE x" [] (Some "shop")) as (_ & _ & H).
  apply (H 1).
  - reflexivity.
  - intros d Hd. by eexists.
  - by vm_compute.
Defined.

(** X10: the calls that a run makes on an acquired connection follow the
    discipline of a lease, in [executeQuery] of [src/connection.ts], of
    [unnamed/part_000] and of [v1/db.js]: first the acquisition, then the
    statements, then the release, once or more; no statement is sent after
    a release and no other connection is touched. *)
Theorem executors_disciplined (p : Driver.pool) (sql : string)
    (params : list js_value) (database : option string)
    (c : Driver.connection) :
  Driver.getConnection p = Returned c →
  (∀ env,
     Lease.disciplined c
       (Connection.executeQuery env p sql params database).1)
  ∧ Lease.disciplined c (MySQLServer.executeQuery p sql params database).1
  ∧ (∀ cfg st reg h,
       Db.pools_get (Db.ensurePool cfg st reg) (Db.getPoolKey cfg)
       = Some (Db.OwnPool h) →
       Lease.disciplined c
         (Db.executeQuery cfg st (λ _, p) sql database reg).2.1).
Proof.
  intros Hc. split; [|split].
  - intros env. apply check_sound.
    unfold Connection.executeQuery, Connection.executeQuery_body.
    unfold_exec. rewrite Hc. simpl.
    destruct (Exec.truthy database) as [d|]; simpl; case_answers;
      by rewrite ?Nat.eqb_refl.
  - apply check_sound.
    unfold MySQLServer.executeQuery, MySQLServer.executeQuery_body.
    unfold_exec. rewrite Hc. simpl.
    destruct (Exec.truthy database) as [d|]; simpl; case_answers;
      by rewrite ?Nat.eqb_refl.
  - intros cfg st reg h Hh. apply check_sound.
    unfold Db.executeQuery. rewrite Hh. unfold Db.executeQuery_try.
    unfold_exec. rewrite Hc. simpl.
    destruct (Exec.truthy database) as [d|]; simpl; case_answers;
      by rewrite ?Nat.eqb_refl.
Qed.

Lemma executors_disciplined_witness :
  Lease.disciplined 1
    (MySQLServer.executeQuery (Examples.answering (JsArray [])) "SELECT 1" []
       (Some "shop")).1.
Proof.
  apply (executors_disciplined (Examples.answering (JsArray [])) "SELECT 1" []
           (Some "shop") 1).
  reflexivity.
Defined.

(** X11: the connection module of [src/index.ts] acquires a connection at
    most once and keeps it.  A call that finds no pool and cannot read the
    configuration fails with the error of the configuration, without a
    call on the driver.  Otherwise the call runs on the pool in use, which
    the module holds afterwards.  While the module holds a connection, a
    call acquires none, makes all its calls on that connection, releases
    it at least once, and leaves the module holding it.  While it holds
    none, a call asks the pool: when the pool gives none, the call fails
    with the error of the pool, nothing is called or released, and the
    module still holds none; when the pool gives a connection, the calls
    are its acquisition, then statements on it, then one release or more,
    and the module holds it afterwards, although it was released. *)
Theorem shared_connection_kept (env : environment) (driver : nat → Driver.pool)
    (sql : string) (params : list js_value) (database : option string)
    (st : SharedConnection.module_state) :
  let run := SharedConnection.executeQuery env driver sql params database st in
  (∀ e, SharedConnection.pool_var st = None →
        SharedConnection.getConfigFromEnv env = Thrown e →
        run = (st, ([], Thrown e)))
  ∧ (∀ pool, Use.pool_in_use env st pool →
       SharedConnection.pool_var run.1 = Some pool
       ∧ (∀ c, SharedConnection.shared_connection st = Some c →
            SharedConnection.shared_connection run.1 = Some c
            ∧ forallb (λ e, Lease.is_query_on c e || Driver.is_release c e)
                run.2.1 = true
            ∧ Driver.releases c run.2.1 ≥ 1)
       ∧ (∀ e, SharedConnection.shared_connection st = None →
            Driver.getConnection (driver pool) = Thrown e →
            run.2 = ([], Thrown e)
            ∧ SharedConnection.shared_connection run.1 = None)
       ∧ (∀ c, SharedConnection.shared_connection st = None →
            Driver.getConnection (driver pool) = Returned c →
            SharedConnection.shared_connection run.1 = Some c
            ∧ Lease.disciplined c run.2.1
            ∧ Driver.releases c run.2.1 ≥ 1)).
Proof.
  intros run. subst run. split.
  - intros e Hp He. unfold SharedConnection.executeQuery,
      SharedConnection.createConnectionPool. by rewrite Hp, He.
  - intros pool Hp.
    destruct (shared_executeQuery_whole env driver sql params database st
                pool Hp) as (Hrun & Hpool & Hconn).
    split; [done|]. rewrite Hrun, Hconn. cbn [fst snd]. clear Hrun Hpool Hconn.
    unfold SharedConnection.executeQuery_try. unfold_exec.
    split; [|split].
    + intros c ->. simpl.
      destruct (Exec.truthy database) as [d|]; simpl; case_answers;
        unfold Driver.releases; simpl; rewrite ?Nat.eqb_refl; simpl;
        repeat split; done || lia.
    + intros e -> He. by rewrite He.
    + intros c -> Hc. rewrite Hc. simpl.
      destruct (Exec.truthy database) as [d|]; simpl; case_answers;
        (split; [done|]); (split; [apply check_sound; simpl;
                                   by rewrite ?Nat.eqb_refl|]);
        unfold Driver.releases; simpl; rewrite ?Nat.eqb_refl; simpl; lia.
Qed.

Lemma shared_connection_kept_witness :
  let driver := λ _ : nat, Examples.answering (JsArray []) in
  let first :=
    SharedConnection.executeQuery Examples.valid_env driver "SELECT 1" []
      None SharedConnection.initial in
  let second :=
    SharedConnection.executeQuery Examples.valid_env driver "SELECT 2" []
      None first.1 in
  SharedConnection.shared_connection first.1 = Some 1
  ∧ SharedConnection.shared_connection second.1 = Some 1
  ∧ second.2.1 = [Driver.Queried 1 "SELECT 2" []; Driver.Released 1].
Proof.
  intros driver first second.
  destruct (shared_connection_kept Examples.valid_env driver "SELECT 1" []
              None SharedConnection.initial) as (_ & Hfirst).
  destruct (Hfirst 0) as (_ & _ & _ & Hacquire).
  { split; [by eexists|reflexivity]. }
  destruct (Hacquire 1 eq_refl eq_refl) as (H1 & _).
  destruct (shared_connection_kept Examples.valid_env driver "SELECT 2" []
              None first.1) as (_ & Hsecond).
  destruct (Hsecond 0) as (_ & Hheld & _); [reflexivity|].
  destruct (Hheld 1 eq_refl) as (H2 & _).
  split; [exact H1|]. split; [exact H2|]. by vm_compute.
Defined.

(** ** The MySQL server *)

(** X12: [executeQuery] of [unnamed/part_000] asks no policy and releases
    the connection exactly once.  When the pool gives no connection, no
    call is made; when it gives one, [release] is called on it once on
    every path, and the statement is sent, whatever it is, as soon as the
    [USE] statement, if any, has succeeded. *)
Theorem mysql_executeQuery_releases_once (p : Driver.pool) (sql : string)
    (params : list js_value) (database : option string) :
  (∀ e, Driver.getConnection p = Thrown e →
        MySQLServer.executeQuery p sql params database = ([], Thrown e))
  ∧ (∀ c, Driver.getConnection p = Returned c →
          Driver.releases c (MySQLServer.executeQuery p sql params database).1
          = 1
          ∧ (Run.use_succeeds p database →
             In (Driver.Queried c sql params)
                (MySQLServer.executeQuery p sql params database).1)).
Proof.
  split.
  - intros e He. unfold MySQLServer.executeQuery, MySQLServer.executeQuery_body.
    unfold_exec. by rewrite He.
  - intros c Hc.
    unfold MySQLServer.executeQuery, MySQLServer.executeQuery_body,
      Run.use_succeeds.
    unfold_exec. rewrite Hc. simpl.
    destruct (Exec.truthy database) as [d|]; simpl.
    + destruct (Driver.query p ("USE `" +:+ d +:+ "`")) as [v|e] eqn:Eu;
        simpl.
      * case_answers; unfold Driver.releases; simpl;
          rewrite ?Nat.eqb_refl; (split; [done|]); intros _; tauto.
      * unfold Driver.releases; simpl; rewrite ?Nat.eqb_refl.
        split; [done|]. intros Hu. destruct (Hu d eq_refl) as [v Hv].
        congruence.
    + case_answers; unfold Driver.releases; simpl;
        rewrite ?Nat.eqb_refl; (split; [done|]); intros _; tauto.
Qed.

Lemma mysql_executeQuery_releases_once_witness :
  Driver.releases 1
    (MySQLServer.executeQuery (Examples.answering (JsArray []))
       "DROP TABLE x" [] None).1 = 1
  ∧ In (Driver.Queried 1 "DROP TABLE x" [])
       (MySQLServer.executeQuery (Examples.answering (JsArray []))
          "DROP TABLE x" [] None).1.
Proof.
  destruct (proj2 (mysql_executeQuery_releases_once
                     (Examples.answering (JsArray [])) "DROP TABLE x" []
                     None) 1 eq_refl) as [H1 H2].
  split; [exact H1|]. apply H2. intros d Hd. discriminate Hd.
Defined.

(** X13: in the MySQL server, the [execute_query] tool validates before it
    touches the pool: for an empty query or one that [isReadOnlyQuery]
    refuses, the handler replies with the error and makes no call on the
    driver; for a query that it accepts, the handler runs [executeQuery] on
    it.  So every run of the tool that makes a call on the driver has a
    query that [isReadOnlyQuery] accepts. *)
Theorem mysql_execute_query_validates_first (p : Driver.pool)
    (arguments : gmap string string) (query : string) :
  arguments !! "query" = Some query →
  (query = "" →
   MySQLServer.callTool p "execute_query" arguments
   = ([], IsError (McpError InvalidParams "Query is required")))
  ∧ (query ≠ "" → ReadOnly.isReadOnlyQuery query = false →
     MySQLServer.callTool p "execute_query" arguments
     = ([], IsError
              (Error
                 "Only read-only queries are allowed (SELECT, SHOW, DESCRIBE, EXPLAIN)")))
  ∧ (query ≠ "" → ReadOnly.isReadOnlyQuery query = true →
     MySQLServer.dispatch p "execute_query" arguments
     = MySQLServer.executeQuery p query [] (arguments !! "database"))
  ∧ ((MySQLServer.callTool p "execute_query" arguments).1 ≠ [] →
     ReadOnly.isReadOnlyQuery query = true).
Proof.
  intros Hq. unfold MySQLServer.callTool, MySQLServer.dispatch. simpl.
  rewrite Hq. destruct query as [|a query]; simpl.
  - repeat split; try done.
  - unfold ReadOnly.validateQuery. simpl.
    destruct (ReadOnly.isReadOnlyQuery (String a query)); simpl;
      repeat split; try done.
Qed.

Lemma mysql_execute_query_validates_first_witness :
  MySQLServer.callTool (Examples.answering (JsArray [])) "execute_query"
    {[ "query" := "DELETE FROM t" ]}
  = ([], IsError
           (Error
              "Only read-only queries are allowed (SELECT, SHOW, DESCRIBE, EXPLAIN)")).
Proof.
  assert (Hq : ({[ "query" := "DELETE FROM t" ]} : gmap string string)
               !! "query" = Some "DELETE FROM t") by (vm_compute; reflexivity).
  destruct (mysql_execute_query_validates_first
              (Examples.answering (JsArray [])) _ "DELETE FROM t" Hq)
    as (_ & H & _).
  apply H; [discriminate|by vm_compute].
Defined.

(** ** The tool handlers and the configuration *)

Section HandlerErrors.
Import Exec.

Lemma truthy_missing (o : option string) :
  o = None ∨ o = Some "" → truthy o = None.
Proof. by intros [->| ->]. Qed.

End HandlerErrors.

(** X14: the handlers of [src/index.ts] reply with an error, and make no
    call on the driver, when the tool is unknown ([Unknown tool: ] and the
    name), when [describe_table] has no table name or an empty one
    ([Table name is required]), and when [execute_query] has no query or an
    empty one ([Query is required]).  The handler on the connection module
    does so once it has read the configuration: it leaves the module as
    [createConnectionPool] left it, with a pool, made by this call when
    there was none, and with the connection that it held or none. *)
Theorem handlers_reject_without_driver_call :
  (∀ env p name arguments,
      name ≠ "list_databases" → name ≠ "list_tables" →
      name ≠ "describe_table" → name ≠ "execute_query" →
      IndexMySQL.callTool env p name arguments
      = ([], IsError (McpError MethodNotFound ("Unknown tool: " +:+ name))))
  ∧ (∀ env p arguments,
      arguments !! "table" = None ∨ arguments !! "table" = Some "" →
      IndexMySQL.callTool env p "describe_table" arguments
      = ([], IsError (McpError InvalidParams "Table name is required")))
  ∧ (∀ env p arguments,
      arguments !! "query" = None ∨ arguments !! "query" = Some "" →
      IndexMySQL.callTool env p "execute_query" arguments
      = ([], IsError (McpError InvalidParams "Query is required")))
  ∧ (∀ env driver name arguments st config,
      SharedConnection.getConfigFromEnv env = Returned config →
      name ≠ "list_databases" → name ≠ "list_tables" →
      name ≠ "describe_table" → name ≠ "execute_query" →
      IndexMariaDB.callTool env driver name arguments st
      = ((SharedConnection.createConnectionPool env st).1,
         ([], IndexMariaDB.Replied
                (IsError (McpError MethodNotFound
                            ("Unknown tool: " +:+ name))))))
  ∧ (∀ env driver arguments st config,
      SharedConnection.getConfigFromEnv env = Returned config →
      arguments !! "table" = None ∨ arguments !! "table" = Some "" →
      IndexMariaDB.callTool env driver "describe_table" arguments st
      = ((SharedConnection.createConnectionPool env st).1,
         ([], IndexMariaDB.Replied
                (IsError (McpError InvalidParams "Table name is required")))))
  ∧ (∀ env driver arguments st config,
      SharedConnection.getConfigFromEnv env = Returned config →
      arguments !! "query" = None ∨ arguments !! "query" = Some "" →
      IndexMariaDB.callTool env driver "execute_query" arguments st
      = ((SharedConnection.createConnectionPool env st).1,
         ([], IndexMariaDB.Replied
                (IsError (McpError InvalidParams "Query is required")))))
  ∧ (∀ env st config,
      SharedConnection.getConfigFromEnv env = Returned config →
      let st1 := (SharedConnection.createConnectionPool env st).1 in
      is_Some (SharedConnection.pool_var st1)
      ∧ SharedConnection.shared_connection st1
        = SharedConnection.shared_connection st
      ∧ (is_Some (SharedConnection.pool_var st) → st1 = st)).
Proof.
  assert (Hpool : ∀ env st config,
    SharedConnection.getConfigFromEnv env = Returned config →
    ∃ pool, SharedConnection.createConnectionPool env st
            = ((SharedConnection.createConnectionPool env st).1,
               Returned pool)).
  { intros env st config Hc. unfold SharedConnection.createConnectionPool.
    rewrite Hc. destruct (SharedConnection.pool_var st); by eexists. }
  split; [|split; [|split; [|split; [|split; [|split]]]]].
  - intros env p name arguments H1 H2 H3 H4.
    unfold IndexMySQL.callTool, IndexMySQL.dispatch.
    apply String.eqb_neq in H1, H2, H3, H4. by rewrite H1, H2, H3, H4.
  - intros env p arguments H.
    unfold IndexMySQL.callTool, IndexMySQL.dispatch. simpl.
    by rewrite (truthy_missing _ H).
  - intros env p arguments H.
    unfold IndexMySQL.callTool, IndexMySQL.dispatch. simpl.
    by rewrite (truthy_missing _ H).
  - intros env driver name arguments st config Hc H1 H2 H3 H4.
    destruct (Hpool env st config Hc) as [pool Hp].
    unfold IndexMariaDB.callTool. rewrite Hp. unfold IndexMariaDB.dispatch.
    apply String.eqb_neq in H1, H2, H3, H4. by rewrite H1, H2, H3, H4.
  - intros env driver arguments st config Hc H.
    destruct (Hpool env st config Hc) as [pool Hp].
    unfold IndexMariaDB.callTool. rewrite Hp. unfold IndexMariaDB.dispatch.
    simpl. by rewrite (truthy_missing _ H).
  - intros env driver arguments st config Hc H.
    destruct (Hpool env st config Hc) as [pool Hp].
    unfold IndexMariaDB.callTool. rewrite Hp. unfold IndexMariaDB.dispatch.
    simpl. by rewrite (truthy_missing _ H).
  - intros env st config Hc st1. subst st1.
    unfold SharedConnection.createConnectionPool. rewrite Hc.
    destruct (SharedConnection.pool_var st) as [q|] eqn:Eq; cbn.
    + rewrite Eq. by split; [eexists|].
    + split; [by eexists|]. split; [done|]. by intros [? ?].
Qed.

Lemma handlers_reject_without_driver_call_witness :
  IndexMySQL.callTool ∅ (Examples.answering (JsArray [])) "drop_database" ∅
  = ([], IsError (McpError MethodNotFound "Unknown tool: drop_database"))
  ∧ IndexMySQL.callTool ∅ (Examples.answering (JsArray [])) "describe_table" ∅
    = ([], IsError (McpError InvalidParams "Table name is required"))
  ∧ (IndexMariaDB.callTool Examples.valid_env
       (λ _, Examples.answering (JsArray [])) "drop_database" ∅
       SharedConnection.initial).2
    = ([], IndexMariaDB.Replied
             (IsError (McpError MethodNotFound "Unknown tool: drop_database"))).
Proof.
  destruct handlers_reject_without_driver_call as (H1 & H2 & _ & H4 & _).
  split; [|split].
  - apply (H1 ∅ (Examples.answering (JsArray [])) "drop_database" ∅);
      discriminate.
  - apply (H2 ∅ (Examples.answering (JsArray [])) ∅). by left.
  - destruct (SharedConnection.getConfigFromEnv Examples.valid_env)
      as [config|e] eqn:Ec; [|by vm_compute in Ec].
    rewrite (H4 Examples.valid_env (λ _, Examples.answering (JsArray []))
               "drop_database" ∅ SharedConnection.initial config Ec);
      [reflexivity|discriminate..].
Defined.

(** X15: the handler on the shared connection module reads the
    configuration before it looks at the request.  When
    [getConfigFromEnv] fails, the process exits with code 1, whatever the
    tool, without a call on the driver; when it succeeds, the handler
    replies and the module holds a pool afterwards. *)
Theorem callTool_exits_on_bad_configuration (env : environment)
    (driver : nat → Driver.pool) (name : string)
    (arguments : gmap string string) (st : SharedConnection.module_state) :
  (∀ e, SharedConnection.getConfigFromEnv env = Thrown e →
        IndexMariaDB.callTool env driver name arguments st
        = (st, ([], IndexMariaDB.Exited 1)))
  ∧ (∀ config, SharedConnection.getConfigFromEnv env = Returned config →
       ∃ st' calls r,
         IndexMariaDB.callTool env driver name arguments st
         = (st', (calls, IndexMariaDB.Replied r))
         ∧ is_Some (SharedConnection.pool_var st')).
Proof.
  split.
  - intros e He. unfold IndexMariaDB.callTool,
      SharedConnection.createConnectionPool. by rewrite He.
  - intros config Hc.
    assert (Hrun : ∀ st1 sql database,
      is_Some (SharedConnection.pool_var st1) →
      is_Some (SharedConnection.pool_var
                 (SharedConnection.executeQuery env driver sql []
                    database st1).1)).
    { intros st1 sql database [q Hq]. unfold SharedConnection.executeQuery.
      rewrite Hq.
      by destruct (SharedConnection.executeQuery_try _ _ _ _ _ _). }
    assert (Hd : ∀ st1, is_Some (SharedConnection.pool_var st1) →
      is_Some (SharedConnection.pool_var
                 (IndexMariaDB.dispatch env driver name arguments st1).1)).
    { intros st1 Hs. unfold IndexMariaDB.dispatch.
      repeat (match goal with
              | |- context [if ?b then _ else _] => destruct b
              | |- context [match Exec.truthy ?o with _ => _ end] =>
                  destruct (Exec.truthy o)
              end); try done; by apply Hrun. }
    unfold IndexMariaDB.callTool, SharedConnection.createConnectionPool.
    rewrite Hc.
    destruct (SharedConnection.pool_var st) as [q|] eqn:Eq.
    + specialize (Hd st). rewrite Eq in Hd.
      destruct (IndexMariaDB.dispatch env driver name arguments st)
        as [st2 [calls r]].
      eexists _, _, _. split; [done|]. by apply Hd.
    + match goal with
      | |- context [IndexMariaDB.dispatch env driver name arguments ?s] =>
          specialize (Hd s); destruct (IndexMariaDB.dispatch env driver name
                                         arguments s) as [st2 [calls r]]
      end.
      eexists _, _, _. split; [done|]. by apply Hd.
Qed.

Lemma callTool_exits_on_bad_configuration_witness :
  IndexMariaDB.callTool ∅ (λ _, Examples.answering (JsArray []))
    "list_databases" ∅ SharedConnection.initial
  = (SharedConnection.initial, ([], IndexMariaDB.Exited 1)).
Proof.
  apply (proj1 (callTool_exits_on_bad_configuration ∅
                  (λ _, Examples.answering (JsArray [])) "list_databases" ∅
                  SharedConnection.initial)
           (Error "MARIADB_HOST environment variable is required")).
  reflexivity.
Defined.

Section Configuration.
Import Exec SharedConnection Numeral.

Lemma truthy_is_set (env : environment) (name : string) :
  is_set env name ↔ ∃ value, truthy (env !! name) = Some value.
Proof.
  unfold is_set. split.
  - intros (value & -> & Hv). exists value. by destruct value.
  - intros (value & H). exists value.
    destruct (env !! name) as [[|c r]|]; simplify_eq/=; done.
Qed.

Lemma truthy_not_set (env : environment) (name : string) :
  ¬ is_set env name ↔ truthy (env !! name) = None.
Proof.
  rewrite truthy_is_set. destruct (truthy (env !! name)) eqn:E.
  - split; [intros []; by eexists|done].
  - split; [done|]. by intros _ [? ?].
Qed.

Lemma truthy_Some (o : option string) (value : string) :
  truthy o = Some value → o = Some value ∧ value ≠ "".
Proof. destruct o as [[|c r]|]; intros; simplify_eq/=; done. Qed.

Lemma digit_value_is_digit (c : ascii) :
  is_digit c = true →
  digit_value c = Some (Z.of_nat (nat_of_ascii c) - 48)%Z.
Proof.
  unfold is_digit, digit_value. intros H. rewrite H.
  apply andb_prop in H as [H _]. apply Nat.leb_le in H. f_equal. lia.
Qed.

Lemma digit_value_not_digit (c : ascii) :
  is_digit c = false → digit_value c = None.
Proof. unfold is_digit, digit_value. by intros ->. Qed.

Lemma digits_prefix_decimal (digits rest : string) (acc : option Z) :
  all_digits digits = true → ends_numeral rest →
  digits_prefix acc (digits +:+ rest)
  = match digits with
    | EmptyString => acc
    | _ => Some (decimal_from (default 0%Z acc) digits)
    end.
Proof.
  revert acc. induction digits as [|c r IH]; intros acc Hd Hr.
  - append_nil. destruct rest as [|c r]; [done|]. simpl in *.
    by rewrite (digit_value_not_digit _ Hr).
  - simpl in Hd. apply andb_prop in Hd as [Hc Hd].
    rewrite append_cons. simpl. rewrite (digit_value_is_digit _ Hc).
    rewrite (IH _ Hd Hr). by destruct r.
Qed.

Lemma is_digit_not_space (c : ascii) :
  is_digit c = true → JsString.is_space c = false.
Proof. by_cases_on c; by vm_compute. Qed.

Lemma is_digit_not_sign (c : ascii) :
  is_digit c = true → c ≠ "-"%char ∧ c ≠ "+"%char.
Proof. by_cases_on c; by vm_compute. Qed.

Lemma parseInt10_unsigned (c : ascii) (r : string) :
  JsString.is_space c = false → c ≠ "-"%char → c ≠ "+"%char →
  parseInt10 (String c r) = digits_prefix None (String c r).
Proof.
  intros Hs Hm Hp. unfold parseInt10. cbn [JsString.trimStart]. rewrite Hs.
  by_cases_on c; done.
Qed.

Lemma parseInt10_decimal (digits rest : string) :
  digits ≠ "" → all_digits digits = true → ends_numeral rest →
  parseInt10 (digits +:+ rest) = Some (decimal digits).
Proof.
  intros Hne Hd Hr. destruct digits as [|c r]; [done|].
  pose proof (digits_prefix_decimal (String c r) rest None Hd Hr) as H.
  simpl in Hd. apply andb_prop in Hd as [Hc Hd].
  destruct (is_digit_not_sign _ Hc) as [Hm Hp].
  rewrite append_cons in *.
  by rewrite (parseInt10_unsigned _ _ (is_digit_not_space _ Hc) Hm Hp).
Qed.

End Configuration.

Ltac open_cases :=
  repeat split; intros;
  repeat match goal with
         | H : ex _ |- _ => destruct H
         | H : _ ∧ _ |- _ => destruct H
         end.

(** X16: [getConfigFromEnv] returns a configuration exactly when
    [MARIADB_HOST], [MARIADB_USER] and [MARIADB_PASSWORD] are set to texts
    that are not empty; otherwise the error names the first of them, in
    this order, that is missing.  The configuration returned holds these
    three texts and the database name as the environment has them, and a
    permission is granted only by the text [true]. *)
Theorem getConfigFromEnv_requires_credentials (env : environment) :
  ((∃ config, SharedConnection.getConfigFromEnv env = Returned config)
   ↔ Numeral.is_set env "MARIADB_HOST" ∧ Numeral.is_set env "MARIADB_USER"
     ∧ Numeral.is_set env "MARIADB_PASSWORD")
  ∧ (¬ Numeral.is_set env "MARIADB_HOST" →
     SharedConnection.getConfigFromEnv env
     = Thrown (Error "MARIADB_HOST environment variable is required"))
  ∧ (Numeral.is_set env "MARIADB_HOST" →
     ¬ Numeral.is_set env "MARIADB_USER" →
     SharedConnection.getConfigFromEnv env
     = Thrown (Error "MARIADB_USER environment variable is required"))
  ∧ (Numeral.is_set env "MARIADB_HOST" →
     Numeral.is_set env "MARIADB_USER" →
     ¬ Numeral.is_set env "MARIADB_PASSWORD" →
     SharedConnection.getConfigFromEnv env
     = Thrown (Error "MARIADB_PASSWORD environment variable is required"))
  ∧ (∀ config, SharedConnection.getConfigFromEnv env = Returned config →
     env !! "MARIADB_HOST" = Some (SharedConnection.host config)
     ∧ env !! "MARIADB_USER" = Some (SharedConnection.user config)
     ∧ env !! "MARIADB_PASSWORD" = Some (SharedConnection.password config)
     ∧ SharedConnection.database config = env !! "MARIADB_DATABASE"
     ∧ (SharedConnection.allow_insert config = true
        ↔ env !! "MARIADB_ALLOW_INSERT" = Some "true")
     ∧ (SharedConnection.allow_update config = true
        ↔ env !! "MARIADB_ALLOW_UPDATE" = Some "true")
     ∧ (SharedConnection.allow_delete config = true
        ↔ env !! "MARIADB_ALLOW_DELETE" = Some "true")).
Proof.
  rewrite !truthy_not_set, !truthy_is_set.
  unfold SharedConnection.getConfigFromEnv, env_is_true.
  destruct (Exec.truthy (env !! "MARIADB_HOST")) as [h|] eqn:Eh;
    [|by open_cases].
  destruct (Exec.truthy (env !! "MARIADB_USER")) as [u|] eqn:Eu;
    [|by open_cases].
  destruct (Exec.truthy (env !! "MARIADB_PASSWORD")) as [p|] eqn:Ep;
    [|by open_cases].
  apply truthy_Some in Eh as [Eh _], Eu as [Eu _], Ep as [Ep _].
  split; [split; [intros _; repeat split; by eexists|by eexists]|].
  do 3 (split; [by open_cases|]).
  intros config [= <-]. cbn. rewrite !bool_decide_eq_true. done.
Qed.

Lemma getConfigFromEnv_requires_credentials_witness :
  SharedConnection.getConfigFromEnv {[ "MARIADB_HOST" := "db" ]}
  = Thrown (Error "MARIADB_USER environment variable is required").
Proof.
  destruct (getConfigFromEnv_requires_credentials {[ "MARIADB_HOST" := "db" ]})
    as (_ & _ & H & _).
  apply H.
  - exists "db". split; [by vm_compute|discriminate].
  - intros (value & Hv & _). by vm_compute in Hv.
Defined.

(** X17: [getConfigFromEnv] never rejects a port.  When the credentials are
    set, a configuration is returned whatever [MARIADB_PORT] holds: 3306
    when it is unset or empty, the number of its leading digits when it
    starts with digits that denote a number up to 2^53 (what follows them
    is ignored), and [NaN] when it starts with a character that is neither
    white space, a sign nor a digit.  The pool is created with the port of
    the configuration. *)
Theorem port_is_not_validated (env : environment) :
  Numeral.is_set env "MARIADB_HOST" → Numeral.is_set env "MARIADB_USER" →
  Numeral.is_set env "MARIADB_PASSWORD" →
  ∃ config,
    SharedConnection.getConfigFromEnv env = Returned config
    ∧ (¬ Numeral.is_set env "MARIADB_PORT" →
       SharedConnection.port config = Some 3306%Z)
    ∧ (∀ digits rest,
         env !! "MARIADB_PORT" = Some (digits +:+ rest) →
         digits ≠ "" → Numeral.all_digits digits = true →
         (Numeral.decimal digits ≤ Numeral.exact_limit)%Z →
         Numeral.ends_numeral rest →
         SharedConnection.port config = Some (Numeral.decimal digits))
    ∧ (∀ c rest,
         env !! "MARIADB_PORT" = Some (String c rest) →
         JsString.is_space c = false → Numeral.is_digit c = false →
         c ≠ "-"%char → c ≠ "+"%char →
         SharedConnection.port config = None)
    ∧ ∃ st,
        SharedConnection.createConnectionPool env SharedConnection.initial
        = (st, Returned 0)
        ∧ SharedConnection.opt_port <$> SharedConnection.created st
          = [SharedConnection.port config].
Proof.
  rewrite !truthy_is_set.
  intros [h Hh] [u Hu] [p Hp].
  unfold SharedConnection.createConnectionPool,
    SharedConnection.getConfigFromEnv.
  rewrite Hh, Hu, Hp. eexists. split; [done|]. cbn.
  split; [intros Hport; apply truthy_not_set in Hport; by rewrite Hport|].
  split; [|split].
  - intros digits rest -> Hne Hd _ Hr.
    destruct digits as [|c r]; [done|]. rewrite append_cons. cbn.
    rewrite <- append_cons. by apply parseInt10_decimal.
  - intros c rest -> Hs Hd Hm Hplus. cbn.
    rewrite (parseInt10_unsigned _ _ Hs Hm Hplus). cbn.
    by rewrite (digit_value_not_digit _ Hd).
  - eexists. split; done.
Qed.

Lemma port_is_not_validated_witness :
  ∃ config,
    SharedConnection.getConfigFromEnv
      (<["MARIADB_PORT" := "3307 or so"]> Examples.valid_env)
    = Returned config
    ∧ SharedConnection.port config = Some 3307%Z.
Proof.
  destruct (port_is_not_validated
              (<["MARIADB_PORT" := "3307 or so"]> Examples.valid_env))
    as (config & H & _ & Hdigits & _).
  - eexists. split; [by vm_compute|discriminate].
  - eexists. split; [by vm_compute|discriminate].
  - eexists. split; [by vm_compute|discriminate].
  - exists config. split; [exact H|].
    apply (Hdigits "3307" " or so").
    + by vm_compute.
    + discriminate.
    + reflexivity.
    + by vm_compute.
    + reflexivity.
Defined.

(** ** [v1/db.js]: limits, command line and log *)

Section RowLimit.
Import Exec SharedConnection Numeral.

Lemma decimal_from_nonnegative (digits : string) (acc : Z) :
  all_digits digits = true → (0 ≤ acc)%Z → (0 ≤ decimal_from acc digits)%Z.
Proof.
  revert acc. induction digits as [|c r IH]; intros acc Hd Hacc; [done|].
  simpl in Hd. apply andb_prop in Hd as [Hc Hd]. simpl. apply IH; [done|].
  unfold is_digit in Hc. apply andb_prop in Hc as [Hc _].
  apply Nat.leb_le in Hc. lia.
Qed.

Lemma parseInt10_negative (digits : string) :
  digits ≠ "" → all_digits digits = true →
  parseInt10 (String "-" digits) = Some (- decimal digits)%Z.
Proof.
  intros Hne Hd.
  change (parseInt10 (String "-" digits))
    with (Z.opp <$> digits_prefix None digits).
  pose proof (digits_prefix_decimal digits "" None Hd I) as H.
  rewrite append_nil_r in H. rewrite H. by destruct digits.
Qed.

Lemma parseInt10_positive (digits : string) :
  digits ≠ "" → all_digits digits = true →
  parseInt10 digits = Some (decimal digits).
Proof.
  intros Hne Hd. rewrite <- (append_nil_r digits) at 1.
  by apply parseInt10_decimal.
Qed.

Lemma slice_to_prefix (n : Z) (items : list js_value) :
  Db.slice_to n items `prefix_of` items.
Proof. unfold Db.slice_to. destruct (n <? 0)%Z; apply prefix_take. Qed.

Lemma limitedRows_array (st : Db.settings) (items : list js_value) :
  ∃ kept, Db.limitedRows st (JsArray items) = JsArray kept
          ∧ kept `prefix_of` items.
Proof.
  unfold Db.limitedRows. destruct (Db.DEFAULT_ROW_LIMIT st) as [n|].
  - destruct (n <? Z.of_nat (length items))%Z.
    + eexists. split; [done|]. apply slice_to_prefix.
    + by eexists.
  - by eexists.
Qed.

Lemma limitedRows_count (st : Db.settings) (items : list js_value) (n : Z) :
  Db.DEFAULT_ROW_LIMIT st = Some n →
  Db.limitedRows st (JsArray items)
  = JsArray (take (if (n <? 0)%Z then length items - Z.to_nat (- n)
                   else Z.to_nat n) items).
Proof.
  intros Hn. unfold Db.limitedRows, Db.slice_to. rewrite Hn.
  destruct (n <? Z.of_nat (length items))%Z eqn:E.
  - by destruct (n <? 0)%Z.
  - apply Z.ltb_ge in E. destruct (n <? 0)%Z eqn:E0.
    + apply Z.ltb_lt in E0. lia.
    + by rewrite take_ge by lia.
Qed.

End RowLimit.

(** X18: the row limit of [v1/db.js] is whatever [MARIADB_ROW_LIMIT]
    parses to, and is not checked.  The rows returned are always the first
    ones of the rows received.  With the variable unset or empty, at most
    1000 are kept; with a numeral, at most that many; with a minus sign and
    a numeral that is not zero, that many rows are dropped from the end,
    however few rows there are; with a text that does not start as a
    number, all rows are kept.  A result that is not an array is returned
    as it is. *)
Theorem row_limit_from_environment (env : environment)
    (items : list js_value) :
  let limited := Db.limitedRows (DbConstants.settings_of env) in
  ∃ kept,
    limited (JsArray items) = JsArray kept
    ∧ kept `prefix_of` items
    ∧ (¬ Numeral.is_set env "MARIADB_ROW_LIMIT" →
       kept = take 1000 items)
    ∧ (∀ digits,
         env !! "MARIADB_ROW_LIMIT" = Some digits →
         digits ≠ "" → Numeral.all_digits digits = true →
         kept = take (Z.to_nat (Numeral.decimal digits)) items)
    ∧ (∀ digits,
         env !! "MARIADB_ROW_LIMIT" = Some (String "-" digits) →
         Numeral.all_digits digits = true →
         (0 < Numeral.decimal digits)%Z →
         kept = take (length items - Z.to_nat (Numeral.decimal digits)) items)
    ∧ (∀ c rest,
         env !! "MARIADB_ROW_LIMIT" = Some (String c rest) →
         JsString.is_space c = false → Numeral.is_digit c = false →
         c ≠ "-"%char → c ≠ "+"%char →
         kept = items)
    ∧ (∀ rows, isArray rows = false → limited rows = rows).
Proof.
  intros limited. subst limited.
  destruct (limitedRows_array (DbConstants.settings_of env) items)
    as (kept & Hk & Hp).
  exists kept. split; [done|]. split; [done|].
  assert (Hcount : ∀ n,
    DbConstants.number_from env "MARIADB_ROW_LIMIT" 1000 = Some n →
    kept = take (if (n <? 0)%Z then length items - Z.to_nat (- n)
                 else Z.to_nat n) items).
  { intros n Hn.
    rewrite (limitedRows_count _ _ n) in Hk by done. by injection Hk. }
  unfold DbConstants.number_from in Hcount.
  repeat split.
  - intros Hset. apply truthy_not_set in Hset. rewrite Hset in Hcount.
    by rewrite (Hcount _ eq_refl).
  - intros digits He Hne Hd. rewrite He in Hcount.
    destruct digits as [|c r] eqn:E; [done|]. cbn [Exec.truthy] in Hcount.
    rewrite (Hcount _ (parseInt10_positive _ Hne Hd)).
    pose proof (decimal_from_nonnegative _ 0 Hd (Z.le_refl 0)) as H0.
    fold (Numeral.decimal (String c r)) in H0.
    by destruct (Z.ltb_spec (Numeral.decimal (String c r)) 0); [lia|].
  - intros digits He Hd Hpos. rewrite He in Hcount.
    cbn [Exec.truthy] in Hcount.
    assert (Hne : digits ≠ "") by (intros ->; by vm_compute in Hpos).
    rewrite (Hcount _ (parseInt10_negative _ Hne Hd)).
    destruct (Z.ltb_spec (- Numeral.decimal digits) 0); [|lia].
    by rewrite Z.opp_involutive.
  - intros c rest He Hs Hd Hm Hplus.
    unfold Db.limitedRows, DbConstants.settings_of, DbConstants.number_from
      in Hk. cbn in Hk. rewrite He in Hk. cbn [Exec.truthy] in Hk.
    rewrite (parseInt10_unsigned _ _ Hs Hm Hplus) in Hk. cbn in Hk.
    rewrite (digit_value_not_digit _ Hd) in Hk. by injection Hk.
  - intros rows Hr. unfold Db.limitedRows. by destruct rows.
Qed.

Lemma row_limit_from_environment_witness :
  ∃ kept,
    Db.limitedRows (DbConstants.settings_of {[ "MARIADB_ROW_LIMIT" := "-1" ]})
      (JsArray [Examples.row 1; Examples.row 2]) = JsArray kept
    ∧ kept = [Examples.row 1].
Proof.
  destruct (row_limit_from_environment {[ "MARIADB_ROW_LIMIT" := "-1" ]}
              [Examples.row 1; Examples.row 2])
    as (kept & Hk & _ & _ & _ & Hminus & _).
  exists kept. split; [exact Hk|].
  apply (Hminus "1"); [by vm_compute|reflexivity|by vm_compute].
Defined.

Section CommandLine.
Import JsString DbStartup.

Lemma until_equals_app (value rest : string) :
  includes "=" value = false →
  until_equals (value +:+ "=" +:+ rest) = value.
Proof.
  induction value as [|c r IH]; intros H.
  - by append_nil.
  - simpl in H. apply orb_false_elim in H as [Hc Hr].
    rewrite append_cons. simpl. rewrite Hc. by rewrite IH.
Qed.

Lemma until_equals_whole (value : string) :
  includes "=" value = false → until_equals value = value.
Proof.
  induction value as [|c r IH]; intros H; [done|].
  simpl in H. apply orb_false_elim in H as [Hc Hr]. simpl. rewrite Hc.
  by rewrite IH.
Qed.

Lemma apply_arg_permissions (cfg : raw_config) (arg : string) :
  allow_insert (apply_arg cfg arg) = allow_insert cfg
  ∧ allow_update (apply_arg cfg arg) = allow_update cfg
  ∧ allow_delete (apply_arg cfg arg) = allow_delete cfg.
Proof.
  unfold apply_arg.
  repeat match goal with
         | |- context [if ?b then _ else _] => destruct b
         end; done.
Qed.

Lemma apply_arg_other (cfg : raw_config) (arg name : string)
    (get : raw_config → option string) :
  (name, get) ∈ fields →
  startsWith (name +:+ "=") arg = false →
  get (apply_arg cfg arg) = get cfg.
Proof.
  intros Hin Hs. unfold fields in Hin.
  repeat (apply elem_of_cons in Hin as [[= -> ->]|Hin]);
    [..|by apply elem_of_nil in Hin];
    unfold apply_arg;
    change ("host" +:+ "=") with "host=" in *;
    change ("port" +:+ "=") with "port=" in *;
    change ("user" +:+ "=") with "user=" in *;
    change ("password" +:+ "=") with "password=" in *;
    change ("database" +:+ "=") with "database=" in *;
    rewrite ?Hs;
    repeat match goal with
           | |- context [if ?b then _ else _] => destruct b
           end; done.
Qed.

Lemma apply_arg_named (cfg : raw_config) (name text : string)
    (get : raw_config → option string) :
  (name, get) ∈ fields →
  get (apply_arg cfg (name +:+ "=" +:+ text)) = Some (until_equals text).
Proof.
  intros Hin. unfold fields in Hin.
  repeat (apply elem_of_cons in Hin as [[= -> ->]|Hin]);
    [..|by apply elem_of_nil in Hin]; done.
Qed.

End CommandLine.

(** X19: what [parseArgsAndEnv] of [v1/db.js] takes from the command line.
    For each of [host], [port], [user], [password] and [database]: without
    an argument for the field, its value is the one of the environment;
    the last argument for the field gives its value; and this value stops
    at the next [=] sign of the argument, so that a text holding [=] is
    cut.  An argument for none of the five fields changes nothing, and the
    three permissions are those of the environment whatever the command
    line says. *)
Theorem parseArgsAndEnv_command_line (env : environment)
    (args : list string) :
  let parsed := DbStartup.parseArgsAndEnv env in
  (∀ name get, (name, get) ∈ DbStartup.fields →
     (Forall (λ arg, JsString.startsWith (name +:+ "=") arg = false) args →
      get (parsed args) = get (parsed []))
     ∧ (∀ value,
          JsString.includes "=" value = false →
          get (parsed (args ++ [name +:+ "=" +:+ value])) = Some value
          ∧ ∀ rest,
              get (parsed (args ++ [name +:+ "=" +:+ value +:+ "=" +:+ rest]))
              = Some value))
  ∧ (∀ arg,
       (∀ name get, (name, get) ∈ DbStartup.fields →
                    JsString.startsWith (name +:+ "=") arg = false) →
       parsed (args ++ [arg]) = parsed args)
  ∧ DbStartup.host (parsed []) = env !! "MARIADB_HOST"
  ∧ DbStartup.port (parsed [])
    = Some (default "3306" (env !! "MARIADB_PORT"))
  ∧ DbStartup.allow_insert (parsed args)
    = env_is_true env "MARIADB_ALLOW_INSERT"
  ∧ DbStartup.allow_update (parsed args)
    = env_is_true env "MARIADB_ALLOW_UPDATE"
  ∧ DbStartup.allow_delete (parsed args)
    = env_is_true env "MARIADB_ALLOW_DELETE".
Proof.
  intros parsed. subst parsed. unfold DbStartup.parseArgsAndEnv.
  set (envConfig := DbStartup.Build_raw_config _ _ _ _ _ _ _ _).
  split; [|split; [|split; [done|split; [done|]]]].
  - intros name get Hin. split.
    + generalize envConfig. clear envConfig.
      induction args as [|arg args IH]; intros cfg Hall; [done|].
      apply Forall_cons in Hall as [Harg Hall]. simpl.
      rewrite (IH _ Hall). simpl. by apply (apply_arg_other _ _ name).
    + intros value Hv. split.
      * rewrite foldl_app. simpl. rewrite (apply_arg_named _ _ _ _ Hin).
        by rewrite until_equals_whole.
      * intros rest. rewrite foldl_app. simpl.
        rewrite (apply_arg_named _ _ _ _ Hin).
        by rewrite until_equals_app.
  - intros arg Hnone. rewrite foldl_app. simpl.
    assert (Hin : ∀ name get, (name, get) ∈ DbStartup.fields →
                    JsString.startsWith (name +:+ "=") arg = false)
      by exact Hnone.
    unfold DbStartup.fields in Hin.
    pose proof (Hin "host" DbStartup.host ltac:(set_solver)) as Hhost.
    pose proof (Hin "port" DbStartup.port ltac:(set_solver)) as Hport.
    pose proof (Hin "user" DbStartup.user ltac:(set_solver)) as Huser.
    pose proof (Hin "password" DbStartup.password ltac:(set_solver)) as Hpass.
    pose proof (Hin "database" DbStartup.database ltac:(set_solver)) as Hdb.
    unfold DbStartup.apply_arg.
    change ("host" +:+ "=") with "host=" in Hhost.
    change ("port" +:+ "=") with "port=" in Hport.
    change ("user" +:+ "=") with "user=" in Huser.
    change ("password" +:+ "=") with "password=" in Hpass.
    change ("database" +:+ "=") with "database=" in Hdb.
    by rewrite Hhost, Hport, Huser, Hpass, Hdb.
  - assert (H : ∀ cfg,
      DbStartup.allow_insert (foldl DbStartup.apply_arg cfg args)
      = DbStartup.allow_insert cfg
      ∧ DbStartup.allow_update (foldl DbStartup.apply_arg cfg args)
        = DbStartup.allow_update cfg
      ∧ DbStartup.allow_delete (foldl DbStartup.apply_arg cfg args)
        = DbStartup.allow_delete cfg).
    { induction args as [|arg args IH]; intros cfg; [done|]. simpl.
      destruct (IH (DbStartup.apply_arg cfg arg)) as (-> & -> & ->).
      apply apply_arg_permissions. }
    apply (H envConfig).
Qed.

Lemma parseArgsAndEnv_command_line_witness :
  DbStartup.password
    (DbStartup.parseArgsAndEnv ∅ (["host=db"] ++ ["password=a=b"]))
  = Some "a".
Proof.
  destruct (parseArgsAndEnv_command_line ∅ ["host=db"]) as (H & _).
  destruct (H "password" DbStartup.password) as (_ & Hlast).
  - unfold DbStartup.fields. repeat constructor.
  - destruct (Hlast "a") as (_ & Hcut); [reflexivity|]. exact (Hcut "b").
Defined.

Section Log.
Import DbStartup.

Lemma level_index_named (level : string) :
  (level ∈ levels → (0 ≤ level_index level ≤ 3)%Z)
  ∧ (level ∉ levels → level_index level = (-1)%Z).
Proof.
  unfold levels, level_index. split.
  - intros H. repeat (apply elem_of_cons in H as [->|H]); try (cbn; lia).
    by apply elem_of_nil in H.
  - intros H.
    destruct (String.eqb_spec level "error") as [->|_];
      [exfalso; apply H; repeat constructor|].
    destruct (String.eqb_spec level "warn") as [->|_];
      [exfalso; apply H; repeat constructor|].
    destruct (String.eqb_spec level "info") as [->|_];
      [exfalso; apply H; repeat constructor|].
    destruct (String.eqb_spec level "debug") as [->|_];
      [exfalso; apply H; repeat constructor|].
    done.
Qed.

Lemma level_index_bounds (level : string) :
  (-1 ≤ level_index level ≤ 3)%Z.
Proof.
  unfold level_index.
  repeat match goal with
         | |- context [if ?b then _ else _] => destruct b
         end; lia.
Qed.

Lemma log_printed (env : environment) (level : string) :
  is_Some (log env level)
  ↔ (level_index level ≤ level_index (LOG_LEVEL env))%Z.
Proof.
  unfold log.
  destruct (Z.leb_spec (level_index level) (level_index (LOG_LEVEL env))).
  - split; [done|by eexists].
  - split; [by intros [? ?]|lia].
Qed.

End Log.

(** X20: what [log] of [v1/db.js] prints.  A message is printed when its
    level comes no later than [MARIADB_LOG_LEVEL] in the order [error],
    [warn], [info], [debug]; so what is printed at a level is printed at
    every earlier one, and errors are printed whenever the variable names
    one of the four levels.  When it names none of them, no message of
    the four levels is printed, errors included.  A message whose level is
    none of the four is always printed.  The method [console.log] is used
    only for [info] and for levels that are none of the four.  With the
    variable unset or empty, all but [debug] are printed. *)
Theorem log_levels (env : environment) (level : string) :
  (∀ level',
     is_Some (DbStartup.log env level) →
     (DbStartup.level_index level' ≤ DbStartup.level_index level)%Z →
     is_Some (DbStartup.log env level'))
  ∧ (DbStartup.LOG_LEVEL env ∈ DbStartup.levels →
     DbStartup.log env "error" = Some DbStartup.console_error)
  ∧ (DbStartup.LOG_LEVEL env ∉ DbStartup.levels →
     level ∈ DbStartup.levels → DbStartup.log env level = None)
  ∧ (level ∉ DbStartup.levels →
     DbStartup.log env level = Some DbStartup.console_log)
  ∧ (DbStartup.log env level = Some DbStartup.console_log →
     level = "info" ∨ level ∉ DbStartup.levels)
  ∧ (¬ Numeral.is_set env "MARIADB_LOG_LEVEL" →
     level ∈ DbStartup.levels →
     (is_Some (DbStartup.log env level) ↔ level ≠ "debug")).
Proof.
  split; [|split; [|split; [|split; [|split]]]].
  - intros level' Hp Hle. apply log_printed. apply log_printed in Hp. lia.
  - intros Hn. apply level_index_named in Hn. unfold DbStartup.log.
    destruct (Z.leb_spec (DbStartup.level_index "error")
                (DbStartup.level_index (DbStartup.LOG_LEVEL env)))
      as [_|Hlt]; [done|].
    change (DbStartup.level_index "error") with 0%Z in Hlt. lia.
  - intros Hn Hl. apply level_index_named in Hn, Hl.
    unfold DbStartup.log.
    destruct (Z.leb_spec (DbStartup.level_index level)
                (DbStartup.level_index (DbStartup.LOG_LEVEL env)));
      [lia|done].
  - intros Hl. pose proof (level_index_bounds (DbStartup.LOG_LEVEL env)).
    pose proof (proj2 (level_index_named level) Hl) as Hi.
    unfold DbStartup.log. rewrite Hi.
    destruct (Z.leb_spec (-1) (DbStartup.level_index (DbStartup.LOG_LEVEL env)));
      [|lia].
    destruct (String.eqb_spec level "warn") as [->|_];
      [exfalso; apply Hl; repeat constructor|].
    destruct (String.eqb_spec level "error") as [->|_];
      [exfalso; apply Hl; repeat constructor|].
    destruct (String.eqb_spec level "debug") as [->|_];
      [exfalso; apply Hl; repeat constructor|].
    done.
  - unfold DbStartup.log.
    destruct (DbStartup.level_index level
              <=? DbStartup.level_index (DbStartup.LOG_LEVEL env))%Z;
      [|done].
    destruct (String.eqb_spec level "warn") as [->|Hw]; [done|].
    destruct (String.eqb_spec level "error") as [->|He]; [done|].
    destruct (String.eqb_spec level "debug") as [->|Hd]; [done|].
    intros _. destruct (decide (level = "info")) as [->|Hne]; [by left|].
    right. unfold DbStartup.levels. intros Hin.
    repeat (apply elem_of_cons in Hin as [Hin|Hin]; [done|]).
    by apply elem_of_nil in Hin.
  - intros Hset Hl. apply truthy_not_set in Hset.
    rewrite log_printed. unfold DbStartup.LOG_LEVEL. rewrite Hset.
    change (DbStartup.level_index (default "info" None)) with 2%Z.
    unfold DbStartup.levels in Hl.
    repeat (apply elem_of_cons in Hl as [->|Hl]);
      [..|by apply elem_of_nil in Hl];
      (split; [intros Hle; by vm_compute in Hle || done
              |intros Hne; by vm_compute || done]).
Qed.

Lemma log_levels_witness :
  DbStartup.log {[ "MARIADB_LOG_LEVEL" := "verbose" ]} "error" = None.
Proof.
  destruct (log_levels {[ "MARIADB_LOG_LEVEL" := "verbose" ]} "error")
    as (_ & _ & H & _).
  apply H.
  - unfold DbStartup.levels. intros Hin.
    repeat (apply elem_of_cons in Hin as [Hin|Hin]);
      try (by vm_compute in Hin).
    by apply elem_of_nil in Hin.
  - repeat constructor.
Defined.

(** ** [v1/test-server.mjs] *)

Section V1Tools.
Import Driver Exec.

Lemma db_pool_of_key (cfg : Db.config) (st : Db.settings)
    (reg : Db.registry) :
  Db.inherited_property (Db.getPoolKey cfg) = false →
  ∃ h, Db.pools_get (Db.ensurePool cfg st reg) (Db.getPoolKey cfg)
       = Some (Db.OwnPool h).
Proof.
  intros Hk. unfold Db.ensurePool, Db.pools_get. rewrite Hk.
  destruct (Db.pools reg !! Db.getPoolKey cfg) as [h|] eqn:E.
  - exists h. by rewrite E.
  - simpl. rewrite lookup_insert_eq. by eexists.
Qed.

Lemma db_executeQuery_sends (cfg : Db.config) (st : Db.settings) (p : pool)
    (sql d : string) (reg : Db.registry) (c : connection) :
  Db.inherited_property (Db.getPoolKey cfg) = false →
  getConnection p = Returned c →
  d ≠ "" →
  (∃ v, query p ("USE `" +:+ d +:+ "`") = Returned v) →
  (Db.executeQuery cfg st (λ _, p) sql (Some d) reg).2
  = ([Acquired c; Queried c ("USE `" +:+ d +:+ "`") []; Queried c sql [];
      Released c],
     match query p sql with
     | Returned (rows, fields) =>
         Returned {[ "rows" := Db.limitedRows st rows; "fields" := fields ]}
     | Thrown e => Thrown e
     end).
Proof.
  intros Hk Hc Hd [[v1 v2] Hu].
  destruct (db_pool_of_key cfg st reg Hk) as [h Hh].
  unfold Db.executeQuery. cbn [snd]. rewrite Hh. unfold Db.executeQuery_try.
  unfold_exec. rewrite Hc. cbn [truthy].
  destruct d as [|a d]; [done|]. simpl. rewrite Hu. simpl.
  by destruct (query p sql) as [[rows fields]|e].
Qed.

Lemma rendered_not_isError
    (run : Db.registry * (list event * outcome js_object)) (e : js_error) :
  (V1Server.rendered run).2.2 ≠ V1Server.Fulfilled (IsError e).
Proof. destruct run as [reg [calls [result|e']]]; done. Qed.

End V1Tools.

(** X21: the [run_query] tool of [v1/test-server.mjs] asks no policy.
    When a database is named, by the arguments or else by the
    configuration, and the statement is not empty, the statement is sent
    as it is, after the [USE] statement, and the connection is released
    once; the function [isAllowedQuery] of the file is not on this path,
    nor in [executeQuery] of [v1/db.js].  The rows are those that
    [limitedRows] keeps, and an error of the statement rejects the promise
    of the handler. *)
Theorem v1_run_query_asks_no_policy (cfg : Db.config) (st : Db.settings)
    (p : Driver.pool) (arguments : gmap string string) (reg : Db.registry)
    (sql d : string) (c : Driver.connection) :
  arguments !! "sql" = Some sql → sql ≠ "" →
  Exec.truthy (V1Server.database_of cfg arguments) = Some d →
  Db.inherited_property (Db.getPoolKey cfg) = false →
  Driver.getConnection p = Returned c →
  (∃ v, Driver.query p ("USE `" +:+ d +:+ "`") = Returned v) →
  (V1Server.callTool cfg st (λ _, p) "run_query" arguments reg).2
  = ([Driver.Acquired c; Driver.Queried c ("USE `" +:+ d +:+ "`") [];
      Driver.Queried c sql []; Driver.Released c],
     match Driver.query p sql with
     | Returned (rows, _) =>
         V1Server.Fulfilled (Content (Db.limitedRows st rows))
     | Thrown e => V1Server.Rejected (V1Server.Raised e)
     end).
Proof.
  intros Hsql Hne Hd Hk Hc Hu.
  assert (Hdne : d ≠ "").
  { intros ->. by destruct (V1Server.database_of cfg arguments) as [[|??]|]. }
  pose proof (db_executeQuery_sends cfg st p sql d reg c Hk Hc Hdne Hu) as Hrun.
  change (V1Server.callTool cfg st (λ _, p) "run_query" arguments reg)
    with (V1Server.run_query cfg st (λ _, p) arguments reg).
  unfold V1Server.run_query. rewrite Hsql, Hd.
  destruct (String.eqb_spec sql "") as [->|_]; [done|].
  destruct (Db.executeQuery cfg st (λ _, p) sql (Some d) reg)
    as [reg' [calls r]].
  cbn [snd] in Hrun. injection Hrun as -> ->. cbn.
  destruct (Driver.query p sql) as [[rows fields]|e]; [|done].
  by rewrite lookup_insert_eq.
Qed.

Lemma v1_run_query_asks_no_policy_witness :
  ServerV1.isAllowedQuery Examples.config_a "DROP TABLE t" = false
  ∧ statements
      (V1Server.callTool Examples.config_a Examples.default_settings
         (λ _, Examples.answering (JsArray [])) "run_query"
         {[ "sql" := "DROP TABLE t" ]} Db.empty_registry).2.1
    = ["USE `shop`"; "DROP TABLE t"].
Proof.
  split; [by vm_compute|].
  assert (Hq : ({[ "sql" := "DROP TABLE t" ]} : gmap string string) !! "sql"
               = Some "DROP TABLE t") by (vm_compute; reflexivity).
  rewrite (v1_run_query_asks_no_policy Examples.config_a
             Examples.default_settings (Examples.answering (JsArray []))
             _ Db.empty_registry "DROP TABLE t" "shop" 1 Hq).
  - reflexivity.
  - discriminate.
  - by vm_compute.
  - by vm_compute.
  - reflexivity.
  - by eexists.
Defined.

(** X22: how the handler of [v1/test-server.mjs] ends.  It replies with
    [isError] exactly for a tool name that is none of the four, and then
    makes no call on the driver.  A tool that fails rejects the promise
    of the handler instead: the tools are returned without [await], so the
    [catch] of the handler does not see their errors.  In particular
    [show_tables], [describe_table] and [run_query] reject, without a call
    on the driver and without creating a pool, when neither the arguments
    nor the configuration name a database. *)
Theorem v1_tool_errors_are_rejections (cfg : Db.config) (st : Db.settings)
    (driver : nat → Driver.pool) (name : string)
    (arguments : gmap string string) (reg : Db.registry) :
  let run := V1Server.callTool cfg st driver name arguments reg in
  (name ∉ V1Server.tools →
   run = (reg,
          ([], V1Server.Fulfilled
                 (IsError
                    (McpError MethodNotFound
                       ("[Error] Ferramenta desconhecida: " +:+ name))))))
  ∧ (∀ e, run.2.2 = V1Server.Fulfilled (IsError e) →
          name ∉ V1Server.tools)
  ∧ (name ∈ ["show_tables"; "describe_table"; "run_query"] →
     Exec.truthy (V1Server.database_of cfg arguments) = None →
     run.1 = reg ∧ run.2.1 = []
     ∧ ∃ e, run.2.2 = V1Server.Rejected e)
  ∧ (name = "show_tables" →
     Exec.truthy (V1Server.database_of cfg arguments) = None →
     run = (reg, ([], V1Server.Rejected V1Server.database_required))).
Proof.
  intros run. subst run. split; [|split; [|split]].
  - intros Hn. unfold V1Server.callTool, V1Server.tools in *.
    destruct (String.eqb_spec name "show_databases") as [->|_];
      [exfalso; apply Hn; repeat constructor|].
    destruct (String.eqb_spec name "show_tables") as [->|_];
      [exfalso; apply Hn; repeat constructor|].
    destruct (String.eqb_spec name "describe_table") as [->|_];
      [exfalso; apply Hn; repeat constructor|].
    destruct (String.eqb_spec name "run_query") as [->|_];
      [exfalso; apply Hn; repeat constructor|].
    done.
  - intros e. unfold V1Server.callTool, V1Server.tools.
    destruct (String.eqb_spec name "show_databases") as [->|H1].
    { intros H. by apply rendered_not_isError in H. }
    destruct (String.eqb_spec name "show_tables") as [->|H2].
    { unfold V1Server.show_tables.
      destruct (Exec.truthy _); [|done].
      intros H. by apply rendered_not_isError in H. }
    destruct (String.eqb_spec name "describe_table") as [->|H3].
    { unfold V1Server.describe_table.
      destruct (arguments !! "table") as [table|]; [|done].
      destruct (Exec.truthy _); [|done].
      destruct (String.eqb table ""); [done|].
      intros H. by apply rendered_not_isError in H. }
    destruct (String.eqb_spec name "run_query") as [->|H4].
    { unfold V1Server.run_query.
      destruct (arguments !! "sql") as [query|]; [|done].
      destruct (Exec.truthy _); [|done].
      destruct (String.eqb query ""); [done|].
      intros H. by apply rendered_not_isError in H. }
    intros _ Hin.
    repeat (apply elem_of_cons in Hin as [Hin|Hin]; [done|]).
    by apply elem_of_nil in Hin.
  - intros Hin Hd.
    repeat (apply elem_of_cons in Hin as [->|Hin]);
      [..|by apply elem_of_nil in Hin].
    + change (V1Server.callTool cfg st driver "show_tables" arguments reg)
        with (V1Server.show_tables cfg st driver arguments reg).
      unfold V1Server.show_tables. rewrite Hd. by eauto.
    + change (V1Server.callTool cfg st driver "describe_table" arguments reg)
        with (V1Server.describe_table cfg st driver arguments reg).
      unfold V1Server.describe_table. rewrite Hd.
      destruct (arguments !! "table"); by eauto.
    + change (V1Server.callTool cfg st driver "run_query" arguments reg)
        with (V1Server.run_query cfg st driver arguments reg).
      unfold V1Server.run_query. rewrite Hd.
      destruct (arguments !! "sql"); by eauto.
  - intros -> Hd.
    change (V1Server.callTool cfg st driver "show_tables" arguments reg)
      with (V1Server.show_tables cfg st driver arguments reg).
    unfold V1Server.show_tables. by rewrite Hd.
Qed.

Lemma v1_tool_errors_are_rejections_witness :
  V1Server.callTool Examples.config_a Examples.default_settings
    (λ _, Examples.answering (JsArray [])) "drop_database" ∅
    Db.empty_registry
  = (Db.empty_registry,
     ([], V1Server.Fulfilled
            (IsError
               (McpError MethodNotFound
                  "[Error] Ferramenta desconhecida: drop_database")))).
Proof.
  destruct (v1_tool_errors_are_rejections Examples.config_a
              Examples.default_settings
              (λ _, Examples.answering (JsArray [])) "drop_database" ∅
              Db.empty_registry) as (H & _).
  apply H. unfold V1Server.tools. intros Hin.
  repeat (apply elem_of_cons in Hin as [Hin|Hin]; [discriminate|]).
  by apply elem_of_nil in Hin.
Defined.

(** ** [server-mcp.cjs] *)

Section ServerMcpPolicy.
Import JsString.

Lemma server_mcp_as_v1 (config : Db.config) (sql : string) :
  ServerMcp.isAlloowedQuery config sql
  = ServerV1.isAllowedQuery (ServerMcp.grant_all config) sql.
Proof. reflexivity. Qed.

End ServerMcpPolicy.

(** X23: in [server-mcp.cjs] the three permissions have no effect on the
    policy: the booleans of the configuration are compared with the text
    [true], which never holds, so [INSERT], [UPDATE] and [DELETE] are
    always left out of the deny-list.  The policy decides the same for
    every configuration, as [isAllowedQuery] of [v1/test-server.mjs] does
    with the three permissions granted: it accepts a query exactly when
    its normalized text is led by a verb of the allow-list, the three
    write verbs among them, has none of the eighteen other verbs of the
    deny-list delimited by white space, and ends with a semicolon if it
    has one. *)
Theorem server_mcp_permissions_without_effect (config : Db.config)
    (sql : string) :
  (∀ config', ServerMcp.isAlloowedQuery config' sql
              = ServerMcp.isAlloowedQuery config sql)
  ∧ ServerMcp.isAlloowedQuery config sql
    = ServerV1.isAllowedQuery (ServerMcp.grant_all config) sql
  ∧ (ServerMcp.isAlloowedQuery config sql = true
     ↔ sql ≠ ""
       ∧ (∃ cmd, In cmd ServerMcp.ALLOWED_COMMANDS
                 ∧ Shape.led_by cmd (normalize sql))
       ∧ (∀ cmd, In cmd ValidatorsV2.DISALLOWED_COMMANDS →
                 ¬ Occurrence.whitespace_delimited cmd (normalize sql))
       ∧ (JsString.includes ";" (normalize sql) = true →
          JsString.endsWith ";" (normalize sql) = true)).
Proof.
  split; [|split].
  - intros config'. rewrite !server_mcp_as_v1, !server_v1_unfold. done.
  - apply server_mcp_as_v1.
  - rewrite server_mcp_as_v1, server_v1_unfold.
    cbn [ServerMcp.grant_all Db.allow_insert Db.allow_update Db.allow_delete
         negb andb orb].
    change ServerV1.ALLOWED_COMMANDS with ServerMcp.ALLOWED_COMMANDS.
    rewrite !andb_true_iff, !negb_true_iff.
    rewrite existsb_led_by, existsb_delimited_false.
    destruct (JsString.includes ";" (normalize sql)),
      (JsString.endsWith ";" (normalize sql));
      destruct (String.eqb_spec sql "") as [Heq|Hne]; simpl;
      intuition congruence.
Qed.

(** ** [server-mcp-v2.cjs] *)

Section PortSetting.
Import ServerMcpV2Config.

Lemma port_number_default (env : environment) :
  ¬ Numeral.is_set env "MARIADB_PORTr" → port_number env = Some 3306%Z.
Proof.
  intros H. apply truthy_not_set in H. unfold port_number. by rewrite H.
Qed.

Lemma getConfigFromEnv_port (env : environment) (config : Db.config) :
  getConfigFromEnv env = Loaded config →
  port_number env = Some (Db.port config).
Proof.
  unfold getConfigFromEnv.
  destruct (env !! "MARIADB_HOST") as [h|]; [|done].
  destruct (port_number env) as [n|]; [|done].
  destruct (env !! "MARIADB_USER") as [u|]; [|done].
  destruct (env !! "MARIADB_PASSWORD") as [p|]; [|done].
  destruct (String.eqb h ""); [done|].
  destruct (String.eqb u ""); [done|].
  destruct (String.eqb p ""); [done|].
  by intros [= <-].
Qed.

End PortSetting.

(** X24: [getConfigFromEnv] of [server-mcp-v2.cjs] tests the variable
    [MARIADB_PORTr] and parses [MARIADB_PORT].  While [MARIADB_PORTr] is
    unset or empty, the value of [MARIADB_PORT] changes nothing and the
    port of a configuration is 3306.  When [MARIADB_PORTr] is set and
    [MARIADB_PORT] holds a numeral of a number up to 2^53, the port is
    this number; when [MARIADB_PORT] is unset, the configuration fails at
    the schema of the port, provided the host is there. *)
Theorem server_mcp_v2_port_variable (env : environment) :
  (¬ Numeral.is_set env "MARIADB_PORTr" →
   (∀ value,
      ServerMcpV2Config.getConfigFromEnv (<["MARIADB_PORT" := value]> env)
      = ServerMcpV2Config.getConfigFromEnv env)
   ∧ ∀ config,
       ServerMcpV2Config.getConfigFromEnv env
       = ServerMcpV2Config.Loaded config →
       Db.port config = 3306%Z)
  ∧ (Numeral.is_set env "MARIADB_PORTr" →
     (∀ digits config,
        env !! "MARIADB_PORT" = Some digits →
        digits ≠ "" → Numeral.all_digits digits = true →
        (Numeral.decimal digits ≤ Numeral.exact_limit)%Z →
        ServerMcpV2Config.getConfigFromEnv env
        = ServerMcpV2Config.Loaded config →
        Db.port config = Numeral.decimal digits)
     ∧ (env !! "MARIADB_PORT" = None →
        is_Some (env !! "MARIADB_HOST") →
        ServerMcpV2Config.getConfigFromEnv env
        = ServerMcpV2Config.Failed (V1Server.ZodError "port"))).
Proof.
  split.
  - intros Hr. split.
    + intros value.
      assert (Hr' : ¬ Numeral.is_set (<["MARIADB_PORT" := value]> env)
                      "MARIADB_PORTr").
      { intros (v & Hv & Hne). apply Hr. exists v.
        by rewrite lookup_insert_ne in Hv. }
      unfold ServerMcpV2Config.getConfigFromEnv, env_is_true.
      rewrite (port_number_default _ Hr), (port_number_default _ Hr').
      by rewrite !lookup_insert_ne.
    + intros config Hc. apply getConfigFromEnv_port in Hc.
      rewrite (port_number_default _ Hr) in Hc. by injection Hc.
  - intros Hr. apply truthy_is_set in Hr as [r Hr]. split.
    + intros digits config Hp Hne Hd _ Hc. apply getConfigFromEnv_port in Hc.
      unfold ServerMcpV2Config.port_number in Hc. rewrite Hr, Hp in Hc.
      cbn in Hc. rewrite (parseInt10_positive _ Hne Hd) in Hc.
      by injection Hc.
    + intros Hp [h Hh]. unfold ServerMcpV2Config.getConfigFromEnv,
        ServerMcpV2Config.port_number. by rewrite Hh, Hr, Hp.
Qed.

Lemma server_mcp_v2_port_variable_witness :
  ServerMcpV2Config.getConfigFromEnv
    (<["MARIADB_PORT" := "3307"]> Examples.valid_env)
  = ServerMcpV2Config.getConfigFromEnv Examples.valid_env
  ∧ ∀ config,
      ServerMcpV2Config.getConfigFromEnv
        (<["MARIADB_PORT" := "3307"]> Examples.valid_env)
      = ServerMcpV2Config.Loaded config →
      Db.port config = 3306%Z.
Proof.
  destruct (server_mcp_v2_port_variable Examples.valid_env) as (H & _).
  destruct H as (Hsame & Hport).
  { intros (v & Hv & _). by vm_compute in Hv. }
  split; [apply Hsame|].
  intros config Hc. apply Hport. by rewrite <- (Hsame "3307").
Defined.

(** X25: [executeQuery] of [server-mcp.cjs] and of [server-mcp-v2.cjs]
    opens a connection for each call.  When none can be opened, the error
    is passed on as it is and nothing else is called.  Otherwise the calls
    are the opening, the statements, and then [end]: once when the call
    succeeds and twice when it fails, from the [catch] block and from the
    [finally] block.  In [server-mcp-v2.cjs] every error raised after the
    opening comes out as an [McpError] with the code [InvalidParams].  When
    the policy refuses the statement, it is not sent, but the [USE]
    statement was sent before the policy was asked. *)
Theorem standalone_executeQuery_ends_connection
    (text_of : js_error → string) (config : Db.config) (p : Driver.pool)
    (sql : string) (database : option string) :
  let run1 := Standalone.server_mcp_executeQuery config p sql database in
  let run2 :=
    Standalone.server_mcp_v2_executeQuery text_of config p sql database in
  (∀ e, Driver.getConnection p = Thrown e →
        run1 = ([], Thrown e) ∧ run2 = ([], Thrown e))
  ∧ (∀ c, Driver.getConnection p = Returned c →
       Lease.disciplined c run1.1 ∧ Lease.disciplined c run2.1
       ∧ Driver.releases c run1.1 = Standalone.ends_expected run1.2
       ∧ Driver.releases c run2.1 = Standalone.ends_expected run2.2
       ∧ (∀ e, run2.2 = Thrown e →
               ∃ cause, e = McpError InvalidParams (text_of cause)))
  ∧ (∀ c, Driver.getConnection p = Returned c →
       Run.use_succeeds p database →
       (ServerMcp.isAlloowedQuery config sql = false →
        run1 = (Run.prologue c database
                ++ [Driver.Released c; Driver.Released c],
                Thrown (Error "SQL não permitido")))
       ∧ (ServerMcpV2.isAlloowedQuery config sql = false →
          run2 = (Run.prologue c database
                  ++ [Driver.Released c; Driver.Released c],
                  Thrown
                    (McpError InvalidParams
                       (text_of
                          (McpError InvalidParams "SQL não permitido")))))).
Proof.
  intros run1 run2. subst run1 run2.
  unfold Standalone.server_mcp_executeQuery,
    Standalone.server_mcp_v2_executeQuery.
  split; [|split].
  - intros e He. unfold_exec. by rewrite He.
  - intros c Hc. unfold_exec. rewrite Hc. simpl.
    destruct (ServerMcp.isAlloowedQuery config sql),
      (ServerMcpV2.isAlloowedQuery config sql);
      (split; [|split; [|split; [|split]]]);
      try apply check_sound;
      destruct (Exec.truthy database) as [d|]; simpl; case_answers;
      unfold Driver.releases; simpl; rewrite ?Nat.eqb_refl; simpl;
      try done; intros e [= <-]; by eexists.
  - intros c Hc Hu. unfold Run.use_succeeds, Run.prologue in *.
    unfold_exec. rewrite Hc. simpl.
    destruct (Exec.truthy database) as [d|]; simpl.
    + destruct (Hu d eq_refl) as [[v1 v2] Hv]. rewrite Hv. simpl.
      split; by intros ->.
    + split; by intros ->.
Qed.

Lemma standalone_executeQuery_ends_connection_witness :
  Driver.releases 1
    (Standalone.server_mcp_executeQuery Examples.config_a
       (Examples.answering (JsArray [])) "DROP TABLE t" (Some "shop")).1
  = 2.
Proof.
  destruct (standalone_executeQuery_ends_connection (λ _, "")
              Examples.config_a (Examples.answering (JsArray []))
              "DROP TABLE t" (Some "shop")) as (_ & H & _).
  destruct (H 1 eq_refl) as (_ & _ & H1 & _).
  exact H1.
Defined.

(** ** The policy as a guard of the server *)

Section Guard.
Import Driver Exec.

Lemma justified_use (accepted : bool) (sql d : string)
    (database : option string) :
  truthy database = Some d →
  Sent.justified accepted sql database ("USE `" +:+ d +:+ "`").
Proof. intros H. left. by exists d. Qed.

Lemma justified_sql (sql : string) (database : option string) :
  Sent.justified true sql database sql.
Proof. by right. Qed.

Lemma shared_executeQuery_try_guarded (env : environment) (p : pool)
    (sql : string) (params : list js_value) (database : option string)
    (held : option connection) (statement : string) :
  In statement
    (statements
       (trace (SharedConnection.executeQuery_try env p sql params database
                 {| connection_var := held; trace := [] |}).1)) →
  Sent.justified (ValidatorsV2.isAlloowedQuery env sql) sql database
    statement.
Proof.
  unfold SharedConnection.executeQuery_try. unfold_exec.
  destruct held as [c|]; [|destruct (getConnection p) as [c|e]]; simpl;
    destruct (truthy database) as [d|] eqn:Ed; simpl;
    destruct (ValidatorsV2.isAlloowedQuery env sql); simpl;
    case_answers; simpl;
    intuition (subst; eauto using justified_use, justified_sql).
Qed.

End Guard.

(** X26: the policy guards the server in the four implementations of
    [executeQuery] that ask it: [src/connection.ts], the connection module
    of [src/index.ts], [server-mcp.cjs] and [server-mcp-v2.cjs].  Whatever
    the driver answers, a statement that a call sends is the statement of
    the call, and then the policy of the file has accepted it, or it is
    the [USE] statement made from the database name of the call, which is
    sent without asking the policy. *)
Theorem sent_statements_pass_policy (sql : string)
    (params : list js_value) (database : option string)
    (statement : string) :
  (∀ env p,
     In statement
       (statements (Connection.executeQuery env p sql params database).1) →
     Sent.justified (ValidatorsV2.isAlloowedQuery env sql) sql database
       statement)
  ∧ (∀ env driver st,
       In statement
         (statements
            (SharedConnection.executeQuery env driver sql params database
               st).2.1) →
       Sent.justified (ValidatorsV2.isAlloowedQuery env sql) sql database
         statement)
  ∧ (∀ config p,
       In statement
         (statements
            (Standalone.server_mcp_executeQuery config p sql database).1) →
       Sent.justified (ServerMcp.isAlloowedQuery config sql) sql database
         statement)
  ∧ (∀ text_of config p,
       In statement
         (statements
            (Standalone.server_mcp_v2_executeQuery text_of config p sql
               database).1) →
       Sent.justified (ServerMcpV2.isAlloowedQuery config sql) sql database
         statement).
Proof.
  split; [|split; [|split]].
  - intros env p.
    unfold Connection.executeQuery, Connection.executeQuery_body.
    unfold_exec.
    destruct (Driver.getConnection p) as [c|e]; simpl; [|done].
    destruct (Exec.truthy database) as [d|] eqn:Ed; simpl;
      destruct (ValidatorsV2.isAlloowedQuery env sql); simpl;
      case_answers; simpl;
      intuition (subst; eauto using justified_use, justified_sql).
  - intros env driver st. unfold SharedConnection.executeQuery.
    destruct (SharedConnection.pool_var st) as [pool|] eqn:Ep.
    + destruct (SharedConnection.executeQuery_try env (driver pool) sql
                  params database _) as [s r] eqn:E.
      intros H. apply (shared_executeQuery_try_guarded env (driver pool) sql
                         params database
                         (SharedConnection.shared_connection st)).
      by rewrite E.
    + unfold SharedConnection.createConnectionPool. rewrite Ep.
      destruct (SharedConnection.getConfigFromEnv env) as [config|e];
        [|done].
      cbn [SharedConnection.shared_connection].
      destruct (SharedConnection.executeQuery_try env _ sql
                  params database _) as [s r] eqn:E.
      intros H. eapply shared_executeQuery_try_guarded. by rewrite E.
  - intros config p. unfold Standalone.server_mcp_executeQuery. unfold_exec.
    destruct (Driver.getConnection p) as [c|e]; simpl; [|done].
    destruct (Exec.truthy database) as [d|] eqn:Ed; simpl;
      destruct (ServerMcp.isAlloowedQuery config sql); simpl;
      case_answers; simpl;
      intuition (subst; eauto using justified_use, justified_sql).
  - intros text_of config p.
    unfold Standalone.server_mcp_v2_executeQuery. unfold_exec.
    destruct (Driver.getConnection p) as [c|e]; simpl; [|done].
    destruct (Exec.truthy database) as [d|] eqn:Ed; simpl;
      destruct (ServerMcpV2.isAlloowedQuery config sql); simpl;
      case_answers; simpl;
      intuition (subst; eauto using justified_use, justified_sql).
Qed.

Lemma sent_statements_pass_policy_witness :
  Sent.justified (ValidatorsV2.isAlloowedQuery ∅ "SELECT 1") "SELECT 1" None
    "SELECT 1".
Proof.
  apply (proj1 (sent_statements_pass_policy "SELECT 1" [] None "SELECT 1")
           ∅ (Examples.answering (JsArray []))).
  vm_compute. tauto.
Defined.

(** ** Pools made on first use *)

Section FirstUse.
Import Driver Exec.

Lemma db_executeQuery_registry (cfg : Db.config) (st : Db.settings)
    (driver : nat → pool) (sql : string) (database : option string)
    (reg : Db.registry) :
  (Db.executeQuery cfg st driver sql database reg).1
  = Db.ensurePool cfg st reg.
Proof. reflexivity. Qed.

Lemma db_executeQuery_acquires (cfg : Db.config) (st : Db.settings)
    (driver : nat → pool) (sql : string) (database : option string)
    (reg : Db.registry) (h : nat) (c : connection) :
  Db.pools_get (Db.ensurePool cfg st reg) (Db.getPoolKey cfg)
  = Some (Db.OwnPool h) →
  getConnection (driver h) = Returned c →
  ∃ rest,
    (Db.executeQuery cfg st driver sql database reg).2.1 = Acquired c :: rest.
Proof.
  intros Hh Hc. unfold Db.executeQuery. cbn [snd]. rewrite Hh.
  unfold Db.executeQuery_try. unfold_exec. rewrite Hc. simpl.
  destruct (truthy database) as [d|]; simpl; case_answers; by eauto.
Qed.

Lemma shared_try_acquires (env : environment) (p : pool) (sql : string)
    (params : list js_value) (database : option string) (c : connection) :
  getConnection p = Returned c →
  ∃ rest,
    trace (SharedConnection.executeQuery_try env p sql params database
             {| connection_var := None; trace := [] |}).1
    = Acquired c :: rest.
Proof.
  intros Hc. unfold SharedConnection.executeQuery_try. unfold_exec.
  rewrite Hc. simpl.
  destruct (truthy database) as [d|]; simpl; case_answers; by eauto.
Qed.

End FirstUse.

(** X27: pools are made on first use and used again.  In [v1/db.js], for
    a key that is not set in [pools] and is none of the names that an
    array inherits, [executeQuery] makes one pool, with the host, port,
    user and password of the configuration, sets it under the key, and
    takes its connection from this pool; a later call for a configuration
    with the same host, user and database makes no pool, leaves the
    registry as it is, and takes its connection from the same pool.  In
    the connection module of [src/index.ts], a call of [executeQuery] in a
    module without a pool makes one from the configuration of the
    environment and takes its connection from it; the next call makes
    none and the module holds the same pool; and [createConnectionPool]
    returns the pool of the module whenever there is one and the
    configuration can be read. *)
Theorem pool_created_on_first_use :
  (∀ (cfg cfg' : Db.config) (st st' : Db.settings)
     (driver : nat → Driver.pool) (sql sql' : string)
     (database database' : option string) (reg : Db.registry)
     (c : Driver.connection),
      Db.inherited_property (Db.getPoolKey cfg) = false →
      Db.pools reg !! Db.getPoolKey cfg = None →
      Db.host cfg = Db.host cfg' →
      Db.user cfg = Db.user cfg' →
      Db.database cfg = Db.database cfg' →
      Driver.getConnection (driver (length (Db.created reg))) = Returned c →
      let first := Db.executeQuery cfg st driver sql database reg in
      let second := Db.executeQuery cfg' st' driver sql' database' first.1 in
      Db.created first.1
      = Db.created reg
        ++ [{| Db.opt_host := Db.host cfg; Db.opt_port := Db.port cfg;
               Db.opt_user := Db.user cfg;
               Db.opt_password := Db.password cfg;
               Db.connectionLimit := 1;
               Db.connectTimeout := Db.DEFAULT_TIMEOUT st |}]
      ∧ Db.pools first.1
        = <[Db.getPoolKey cfg := length (Db.created reg)]> (Db.pools reg)
      ∧ (∃ rest, first.2.1 = Driver.Acquired c :: rest)
      ∧ second.1 = first.1
      ∧ (∃ rest, second.2.1 = Driver.Acquired c :: rest))
  ∧ (∀ (env env' : environment) (driver : nat → Driver.pool)
       (sql sql' : string) (params params' : list js_value)
       (database database' : option string)
       (st : SharedConnection.module_state)
       (config : SharedConnection.MariaDBConfig) (c : Driver.connection),
      SharedConnection.pool_var st = None →
      SharedConnection.shared_connection st = None →
      SharedConnection.getConfigFromEnv env = Returned config →
      Driver.getConnection (driver (length (SharedConnection.created st)))
      = Returned c →
      let first :=
        SharedConnection.executeQuery env driver sql params database st in
      let second :=
        SharedConnection.executeQuery env' driver sql' params' database'
          first.1 in
      SharedConnection.created first.1
      = SharedConnection.created st
        ++ [{| SharedConnection.opt_host := SharedConnection.host config;
               SharedConnection.opt_port := SharedConnection.port config;
               SharedConnection.opt_user := SharedConnection.user config;
               SharedConnection.opt_password :=
                 SharedConnection.password config;
               SharedConnection.opt_database :=
                 SharedConnection.database config;
               SharedConnection.connectionLimit := 2;
               SharedConnection.connectTimeout :=
                 SharedConnection.DEFAULT_TIMEOUT |}]
      ∧ SharedConnection.pool_var first.1
        = Some (length (SharedConnection.created st))
      ∧ (∃ rest, first.2.1 = Driver.Acquired c :: rest)
      ∧ SharedConnection.created second.1 = SharedConnection.created first.1
      ∧ SharedConnection.pool_var second.1 = SharedConnection.pool_var first.1)
  ∧ (∀ (env : environment) (st : SharedConnection.module_state) (pool : nat)
       (config : SharedConnection.MariaDBConfig),
      SharedConnection.pool_var st = Some pool →
      SharedConnection.getConfigFromEnv env = Returned config →
      SharedConnection.createConnectionPool env st = (st, Returned pool)).
Proof.
  split; [|split].
  - intros cfg cfg' st st' driver sql sql' database database' reg c
      Hk Hn Hh Hu Hd Hc first second. subst first second.
    rewrite !db_executeQuery_registry.
    assert (Hnone : Db.pools_get reg (Db.getPoolKey cfg) = None).
    { unfold Db.pools_get. by rewrite Hn, Hk. }
    assert (Hmade : Db.ensurePool cfg st reg
      = {| Db.pools :=
             <[Db.getPoolKey cfg := length (Db.created reg)]> (Db.pools reg);
           Db.created :=
             Db.created reg
             ++ [{| Db.opt_host := Db.host cfg; Db.opt_port := Db.port cfg;
                    Db.opt_user := Db.user cfg;
                    Db.opt_password := Db.password cfg;
                    Db.connectionLimit := 1;
                    Db.connectTimeout := Db.DEFAULT_TIMEOUT st |}] |}).
    { unfold Db.ensurePool. by rewrite Hnone. }
    assert (Hset : Db.pools_get (Db.ensurePool cfg st reg) (Db.getPoolKey cfg)
                   = Some (Db.OwnPool (length (Db.created reg)))).
    { rewrite Hmade. unfold Db.pools_get. cbn [Db.pools].
      by rewrite lookup_insert_eq. }
    assert (Hkey : Db.getPoolKey cfg' = Db.getPoolKey cfg)
      by (symmetry; by apply getPoolKey_same).
    assert (Hidle : Db.ensurePool cfg' st' (Db.ensurePool cfg st reg)
                    = Db.ensurePool cfg st reg).
    { apply ensurePool_idle. rewrite Hkey, Hset. by eexists. }
    split; [by rewrite Hmade|]. split; [by rewrite Hmade|].
    split; [by apply (db_executeQuery_acquires _ _ _ _ _ _ _ _ Hset)|].
    split; [done|].
    apply (db_executeQuery_acquires cfg' st' driver sql' database'
             (Db.ensurePool cfg st reg) (length (Db.created reg))); [|done].
    by rewrite Hidle, Hkey.
  - intros env env' driver sql sql' params params' database database' st
      config c Hp Hs Hcfg Hc first second. subst first second.
    assert (Huse : Use.pool_in_use env st (length (SharedConnection.created st))).
    { unfold Use.pool_in_use. rewrite Hp. split; [by eexists|done]. }
    destruct (shared_executeQuery_whole env driver sql params database st _
                Huse) as (Hrun & Hpool & _).
    assert (Hcreated : SharedConnection.created
        (SharedConnection.executeQuery env driver sql params database st).1
      = SharedConnection.created st
        ++ [{| SharedConnection.opt_host := SharedConnection.host config;
               SharedConnection.opt_port := SharedConnection.port config;
               SharedConnection.opt_user := SharedConnection.user config;
               SharedConnection.opt_password :=
                 SharedConnection.password config;
               SharedConnection.opt_database :=
                 SharedConnection.database config;
               SharedConnection.connectionLimit := 2;
               SharedConnection.connectTimeout :=
                 SharedConnection.DEFAULT_TIMEOUT |}]).
    { unfold SharedConnection.executeQuery,
        SharedConnection.createConnectionPool. rewrite Hp, Hcfg.
      cbn [SharedConnection.shared_connection SharedConnection.pool_var
           SharedConnection.created].
      by destruct (SharedConnection.executeQuery_try env _ sql params
                     database _) as [s r]. }
    split; [done|]. split; [done|]. split.
    { rewrite Hrun, Hs. cbn [fst snd]. by apply shared_try_acquires. }
    set (st1 := (SharedConnection.executeQuery env driver sql params
                   database st).1) in *.
    unfold SharedConnection.executeQuery. rewrite Hpool.
    destruct (SharedConnection.executeQuery_try env' _ sql' params'
                database' _) as [s r].
    by rewrite Hpool.
  - intros env st pool config Hp Hcfg.
    unfold SharedConnection.createConnectionPool. by rewrite Hcfg, Hp.
Qed.

Lemma pool_created_on_first_use_witness :
  let driver := λ _ : nat, Examples.answering (JsArray []) in
  let first :=
    Db.executeQuery Examples.config_a Examples.default_settings driver
      "SELECT 1" None Db.empty_registry in
  Db.pools first.1 = {[ "db_example_org_reader_shop" := 0 ]}
  ∧ length (Db.created first.1) = 1
  ∧ (Db.executeQuery Examples.config_b Examples.default_settings driver
       "SELECT 2" None first.1).1
    = first.1.
Proof.
  intros driver first.
  destruct (proj1 pool_created_on_first_use Examples.config_a
              Examples.config_b Examples.default_settings
              Examples.default_settings driver "SELECT 1" "SELECT 2" None None
              Db.empty_registry 1)
    as (Hcreated & Hpools & _ & Hsame & _); try reflexivity.
  split; [|split].
  - etransitivity; [exact Hpools|]. reflexivity.
  - fold first in Hcreated. by rewrite Hcreated.
  - exact Hsame.
Defined.

(** ** [src/connection.ts]: what is taken for the rows *)


